(** * A shallow embedding of the BSC trade risk and execution engine

    The development follows the Python sources module by module:

    - [Py]: the Python primitives the code relies on ([str.lower], the
      [in] test on strings, float arithmetic, [int] on a float,
      [timedelta]);
    - [Config]: [config.py];
    - [Database]: [database/operations.py] over an in-memory store;
    - [Sell]: [trading/sell.py] ([estimate_bnb_output],
      [queue_token_for_gradual_selling], [execute_sell]);
    - [Buy]: [trading/buy.py] ([execute_buy]);
    - [ProfitManagement]: [trading/profit_management.py];
    - [Analysis]: [tokendata/analysis.py] together with the three checks
      of [security/token_checks.py] that [analyze_token] runs;
    - [Blacklist]: [security/blacklist.py];
    - [Management]: [portfolio/management.py] ([monitor_portfolio]);
    - [Discovery]: [tokendata/discovery.py] ([handle_new_pair],
      [process_pair_created_event]);
    - [Tracking]: [portfolio/tracking.py] ([get_portfolio_value],
      [calculate_total_profits]).

    [Scenario] and [Cases] hold the concrete chains and stores of the
    examples, [Safety] the predicates in which the guarantees of the
    code are stated.

    Modelling conventions.

    - A [string] is the UTF-8 encoding of a Python [str]; [Py.lower] is
      [str.lower()] on its characters, with the case mappings of
      Unicode 14.0.
    - A finite Python float is the rational it denotes ([Q]), and
      equalities between amounts are stated with [==].  [Py.float]
      rounds a rational to the nearest binary64 number.  The valuation
      of a position ([estimate_bnb_output]), the percentage rules and
      the tiers of [trading/profit_management.py], the rules of
      [portfolio/management.py] and [calculate_min_tokens] round every
      operation that way, as the floats of the code do.  The remaining
      arithmetic (the conversion of a token amount to units, the
      reductions, the slippage and the gas of [execute_sell], the sums
      of [portfolio/tracking.py]) is exact: its rounding is not
      modelled.  Infinities and NaN are left out.
    - Every call that leaves the process (an RPC read, a transaction
      broadcast, an HTTP request) is answered by an explicit "world"
      value: either a result or a raised exception.  The functions are
      total in the world, so a theorem quantified over the world covers
      every behaviour of the chain.
    - The SQLite store is modelled as an in-memory record; its
      operations are assumed to succeed (a connection is available).
      [add_to_sell_queue], which [trading/sell.py] imports from
      [database/operations.py], is not defined there: the import is
      modelled as the [ImportError] it raises.
    - Log lines are not modelled, except the lines the screening writes
      right before it rejects a token: [analyze_token] returns [None]
      for every rejection, and the log is where the reason is. *)

From Stdlib Require Import ZArith QArith Qround Qpower String Ascii List Bool
  Lia Lqa.
From stdpp Require Import base gmap strings list.

Import ListNotations.
Local Open Scope string_scope.

(* ===================================================================== *)
(** * Python primitives *)
(* ===================================================================== *)

Module Py.

(** ** Strings

    A [string] stands for the Python [str] that it encodes in UTF-8.
    An occurrence of a well-formed pattern in a well-formed text always
    starts at a character, so [in] on two [str] is the search for a
    substring of bytes; [str.lower()] works on the characters. *)

(** [p in s] for two strings: [p] occurs in [s] as a substring. *)
Fixpoint contains (p s : string) : bool :=
  String.prefix p s ||
  match s with
  | EmptyString => false
  | String _ s' => contains p s'
  end.

Definition byte (c : ascii) : Z := Z.of_N (N_of_ascii c).

Definition chr (b : Z) : ascii := ascii_of_N (Z.to_N b).

(** [c.lower()] on one ASCII character: ['A'..'Z'] move to
    ['a'..'z'], every other byte is unchanged. *)
Definition lower_ascii (c : ascii) : ascii :=
  let n := nat_of_ascii c in
  if (65 <=? n)%nat && (n <=? 90)%nat then ascii_of_nat (n + 32) else c.

(** The UTF-8 encoding of a code point. *)
Definition encode (c : Z) : string :=
  if (c <? 128)%Z then String (chr c) EmptyString
  else if (c <? 2048)%Z then
    String (chr (192 + c / 64)) (String (chr (128 + c mod 64)) EmptyString)
  else if (c <? 65536)%Z then
    String (chr (224 + c / 4096))
      (String (chr (128 + (c / 64) mod 64))
         (String (chr (128 + c mod 64)) EmptyString))
  else
    String (chr (240 + c / 262144))
      (String (chr (128 + (c / 4096) mod 64))
         (String (chr (128 + (c / 64) mod 64))
            (String (chr (128 + c mod 64)) EmptyString))).

Definition is_continuation (c : ascii) : bool :=
  ((128 <=? byte c) && (byte c <=? 191))%Z.

(** The characters of a string: each code point with the bytes that
    encode it.  A byte that starts no well-formed sequence (which no
    [str] contains) is kept as a character of its own, with [-1] for
    its code point. *)
Fixpoint decode (s : string) : list (Z * string) :=
  match s with
  | EmptyString => []
  | String c1 s1 =>
      let b1 := byte c1 in
      if (b1 <? 128)%Z then (b1, String c1 EmptyString) :: decode s1
      else
        match s1 with
        | String c2 s2 =>
            let two := ((b1 - 192) * 64 + (byte c2 - 128))%Z in
            if (192 <=? b1)%Z && (b1 <? 224)%Z && is_continuation c2
               && (128 <=? two)%Z
            then (two, String c1 (String c2 EmptyString)) :: decode s2
            else
              match s2 with
              | String c3 s3 =>
                  let three :=
                    ((b1 - 224) * 4096 + (byte c2 - 128) * 64
                     + (byte c3 - 128))%Z in
                  if (224 <=? b1)%Z && (b1 <? 240)%Z
                     && is_continuation c2 && is_continuation c3
                     && (2048 <=? three)%Z
                     && negb ((55296 <=? three)%Z && (three <=? 57343)%Z)
                  then (three, String c1 (String c2 (String c3 EmptyString)))
                       :: decode s3
                  else
                    match s3 with
                    | String c4 s4 =>
                        let four :=
                          ((b1 - 240) * 262144 + (byte c2 - 128) * 4096
                           + (byte c3 - 128) * 64 + (byte c4 - 128))%Z in
                        if (240 <=? b1)%Z && (b1 <? 248)%Z
                           && is_continuation c2 && is_continuation c3
                           && is_continuation c4
                           && (65536 <=? four)%Z && (four <=? 1114111)%Z
                        then (four,
                              String c1 (String c2 (String c3
                                (String c4 EmptyString))))
                             :: decode s4
                        else (-1, String c1 EmptyString)%Z :: decode s1
                    | EmptyString =>
                        (-1, String c1 EmptyString)%Z :: decode s1
                    end
              | EmptyString => (-1, String c1 EmptyString)%Z :: decode s1
              end
        | EmptyString => [(-1, String c1 EmptyString)%Z]
        end
  end.

(** The simple lower-case mappings of the Unicode Character Database
    (version 14.0, the one of CPython 3.11) above U+007F, as runs
    [(first, last, step, delta)]: a code point [c] of the run, that
    is [first <= c <= last] with [c - first] a multiple of [step],
    lowers to [c + delta]. *)
Definition lower_runs : list (Z * Z * Z * Z) :=
  [
    (192, 214, 1, 32); (216, 222, 1, 32); (256, 302, 2, 1); (306, 310, 2, 1);
    (313, 327, 2, 1); (330, 374, 2, 1); (376, 376, 1, -121); (377, 381, 2, 1);
    (385, 385, 1, 210); (386, 388, 2, 1); (390, 390, 1, 206); (391, 391, 1, 1);
    (393, 394, 1, 205); (395, 395, 1, 1); (398, 398, 1, 79); (399, 399, 1, 202);
    (400, 400, 1, 203); (401, 401, 1, 1); (403, 403, 1, 205); (404, 404, 1, 207);
    (406, 406, 1, 211); (407, 407, 1, 209); (408, 408, 1, 1); (412, 412, 1, 211);
    (413, 413, 1, 213); (415, 415, 1, 214); (416, 420, 2, 1); (422, 422, 1, 218);
    (423, 423, 1, 1); (425, 425, 1, 218); (428, 428, 1, 1); (430, 430, 1, 218);
    (431, 431, 1, 1); (433, 434, 1, 217); (435, 437, 2, 1); (439, 439, 1, 219);
    (440, 440, 1, 1); (444, 444, 1, 1); (452, 452, 1, 2); (453, 453, 1, 1);
    (455, 455, 1, 2); (456, 456, 1, 1); (458, 458, 1, 2); (459, 475, 2, 1);
    (478, 494, 2, 1); (497, 497, 1, 2); (498, 500, 2, 1); (502, 502, 1, -97);
    (503, 503, 1, -56); (504, 542, 2, 1); (544, 544, 1, -130); (546, 562, 2, 1);
    (570, 570, 1, 10795); (571, 571, 1, 1); (573, 573, 1, -163); (574, 574, 1, 10792);
    (577, 577, 1, 1); (579, 579, 1, -195); (580, 580, 1, 69); (581, 581, 1, 71);
    (582, 590, 2, 1); (880, 882, 2, 1); (886, 886, 1, 1); (895, 895, 1, 116);
    (902, 902, 1, 38); (904, 906, 1, 37); (908, 908, 1, 64); (910, 911, 1, 63);
    (913, 929, 1, 32); (932, 939, 1, 32); (975, 975, 1, 8); (984, 1006, 2, 1);
    (1012, 1012, 1, -60); (1015, 1015, 1, 1); (1017, 1017, 1, -7); (1018, 1018, 1, 1);
    (1021, 1023, 1, -130); (1024, 1039, 1, 80); (1040, 1071, 1, 32); (1120, 1152, 2, 1);
    (1162, 1214, 2, 1); (1216, 1216, 1, 15); (1217, 1229, 2, 1); (1232, 1326, 2, 1);
    (1329, 1366, 1, 48); (4256, 4293, 1, 7264); (4295, 4295, 1, 7264); (4301, 4301, 1, 7264);
    (5024, 5103, 1, 38864); (5104, 5109, 1, 8); (7312, 7354, 1, -3008); (7357, 7359, 1, -3008);
    (7680, 7828, 2, 1); (7838, 7838, 1, -7615); (7840, 7934, 2, 1); (7944, 7951, 1, -8);
    (7960, 7965, 1, -8); (7976, 7983, 1, -8); (7992, 7999, 1, -8); (8008, 8013, 1, -8);
    (8025, 8031, 2, -8); (8040, 8047, 1, -8); (8072, 8079, 1, -8); (8088, 8095, 1, -8);
    (8104, 8111, 1, -8); (8120, 8121, 1, -8); (8122, 8123, 1, -74); (8124, 8124, 1, -9);
    (8136, 8139, 1, -86); (8140, 8140, 1, -9); (8152, 8153, 1, -8); (8154, 8155, 1, -100);
    (8168, 8169, 1, -8); (8170, 8171, 1, -112); (8172, 8172, 1, -7); (8184, 8185, 1, -128);
    (8186, 8187, 1, -126); (8188, 8188, 1, -9); (8486, 8486, 1, -7517); (8490, 8490, 1, -8383);
    (8491, 8491, 1, -8262); (8498, 8498, 1, 28); (8544, 8559, 1, 16); (8579, 8579, 1, 1);
    (9398, 9423, 1, 26); (11264, 11311, 1, 48); (11360, 11360, 1, 1); (11362, 11362, 1, -10743);
    (11363, 11363, 1, -3814); (11364, 11364, 1, -10727); (11367, 11371, 2, 1); (11373, 11373, 1, -10780);
    (11374, 11374, 1, -10749); (11375, 11375, 1, -10783); (11376, 11376, 1, -10782); (11378, 11378, 1, 1);
    (11381, 11381, 1, 1); (11390, 11391, 1, -10815); (11392, 11490, 2, 1); (11499, 11501, 2, 1);
    (11506, 11506, 1, 1); (42560, 42604, 2, 1); (42624, 42650, 2, 1); (42786, 42798, 2, 1);
    (42802, 42862, 2, 1); (42873, 42875, 2, 1); (42877, 42877, 1, -35332); (42878, 42886, 2, 1);
    (42891, 42891, 1, 1); (42893, 42893, 1, -42280); (42896, 42898, 2, 1); (42902, 42920, 2, 1);
    (42922, 42922, 1, -42308); (42923, 42923, 1, -42319); (42924, 42924, 1, -42315); (42925, 42925, 1, -42305);
    (42926, 42926, 1, -42308); (42928, 42928, 1, -42258); (42929, 42929, 1, -42282); (42930, 42930, 1, -42261);
    (42931, 42931, 1, 928); (42932, 42946, 2, 1); (42948, 42948, 1, -48); (42949, 42949, 1, -42307);
    (42950, 42950, 1, -35384); (42951, 42953, 2, 1); (42960, 42960, 1, 1); (42966, 42968, 2, 1);
    (42997, 42997, 1, 1); (65313, 65338, 1, 32); (66560, 66599, 1, 40); (66736, 66771, 1, 40);
    (66928, 66938, 1, 39); (66940, 66954, 1, 39); (66956, 66962, 1, 39); (66964, 66965, 1, 39);
    (68736, 68786, 1, 64); (71840, 71871, 1, 32); (93760, 93791, 1, 32); (125184, 125217, 1, 34)
  ]%Z.

(** The code points above U+007F with the property Cased that are not
    Case_Ignorable, as ranges [(first, last)]. *)
Definition cased_ranges : list (Z * Z) :=
  [
    (170, 170); (181, 181); (186, 186); (192, 214); (216, 246);
    (248, 442); (444, 447); (452, 659); (661, 687); (880, 883);
    (886, 887); (891, 893); (895, 895); (902, 902); (904, 906);
    (908, 908); (910, 929); (931, 1013); (1015, 1153); (1162, 1327);
    (1329, 1366); (1376, 1416); (4256, 4293); (4295, 4295); (4301, 4301);
    (4304, 4346); (4349, 4351); (5024, 5109); (5112, 5117); (7296, 7304);
    (7312, 7354); (7357, 7359); (7424, 7467); (7531, 7543); (7545, 7578);
    (7680, 7957); (7960, 7965); (7968, 8005); (8008, 8013); (8016, 8023);
    (8025, 8025); (8027, 8027); (8029, 8029); (8031, 8061); (8064, 8116);
    (8118, 8124); (8126, 8126); (8130, 8132); (8134, 8140); (8144, 8147);
    (8150, 8155); (8160, 8172); (8178, 8180); (8182, 8188); (8450, 8450);
    (8455, 8455); (8458, 8467); (8469, 8469); (8473, 8477); (8484, 8484);
    (8486, 8486); (8488, 8488); (8490, 8493); (8495, 8500); (8505, 8505);
    (8508, 8511); (8517, 8521); (8526, 8526); (8544, 8575); (8579, 8580);
    (9398, 9449); (11264, 11387); (11390, 11492); (11499, 11502); (11506, 11507);
    (11520, 11557); (11559, 11559); (11565, 11565); (42560, 42605); (42624, 42651);
    (42786, 42863); (42865, 42887); (42891, 42894); (42896, 42954); (42960, 42961);
    (42963, 42963); (42965, 42969); (42997, 42998); (43002, 43002); (43824, 43866);
    (43872, 43880); (43888, 43967); (64256, 64262); (64275, 64279); (65313, 65338);
    (65345, 65370); (66560, 66639); (66736, 66771); (66776, 66811); (66928, 66938);
    (66940, 66954); (66956, 66962); (66964, 66965); (66967, 66977); (66979, 66993);
    (66995, 67001); (67003, 67004); (68736, 68786); (68800, 68850); (71840, 71903);
    (93760, 93823); (119808, 119892); (119894, 119964); (119966, 119967); (119970, 119970);
    (119973, 119974); (119977, 119980); (119982, 119993); (119995, 119995); (119997, 120003);
    (120005, 120069); (120071, 120074); (120077, 120084); (120086, 120092); (120094, 120121);
    (120123, 120126); (120128, 120132); (120134, 120134); (120138, 120144); (120146, 120485);
    (120488, 120512); (120514, 120538); (120540, 120570); (120572, 120596); (120598, 120628);
    (120630, 120654); (120656, 120686); (120688, 120712); (120714, 120744); (120746, 120770);
    (120772, 120779); (122624, 122633); (122635, 122654); (125184, 125251); (127280, 127305);
    (127312, 127337); (127344, 127369)
  ]%Z.

(** The code points above U+007F with the property Case_Ignorable. *)
Definition case_ignorable_ranges : list (Z * Z) :=
  [
    (168, 168); (173, 173); (175, 175); (180, 180); (183, 184);
    (688, 879); (884, 885); (890, 890); (900, 901); (903, 903);
    (1155, 1161); (1369, 1369); (1375, 1375); (1425, 1469); (1471, 1471);
    (1473, 1474); (1476, 1477); (1479, 1479); (1524, 1524); (1536, 1541);
    (1552, 1562); (1564, 1564); (1600, 1600); (1611, 1631); (1648, 1648);
    (1750, 1757); (1759, 1768); (1770, 1773); (1807, 1807); (1809, 1809);
    (1840, 1866); (1958, 1968); (2027, 2037); (2042, 2042); (2045, 2045);
    (2070, 2093); (2137, 2139); (2184, 2184); (2192, 2193); (2200, 2207);
    (2249, 2306); (2362, 2362); (2364, 2364); (2369, 2376); (2381, 2381);
    (2385, 2391); (2402, 2403); (2417, 2417); (2433, 2433); (2492, 2492);
    (2497, 2500); (2509, 2509); (2530, 2531); (2558, 2558); (2561, 2562);
    (2620, 2620); (2625, 2626); (2631, 2632); (2635, 2637); (2641, 2641);
    (2672, 2673); (2677, 2677); (2689, 2690); (2748, 2748); (2753, 2757);
    (2759, 2760); (2765, 2765); (2786, 2787); (2810, 2815); (2817, 2817);
    (2876, 2876); (2879, 2879); (2881, 2884); (2893, 2893); (2901, 2902);
    (2914, 2915); (2946, 2946); (3008, 3008); (3021, 3021); (3072, 3072);
    (3076, 3076); (3132, 3132); (3134, 3136); (3142, 3144); (3146, 3149);
    (3157, 3158); (3170, 3171); (3201, 3201); (3260, 3260); (3263, 3263);
    (3270, 3270); (3276, 3277); (3298, 3299); (3328, 3329); (3387, 3388);
    (3393, 3396); (3405, 3405); (3426, 3427); (3457, 3457); (3530, 3530);
    (3538, 3540); (3542, 3542); (3633, 3633); (3636, 3642); (3654, 3662);
    (3761, 3761); (3764, 3772); (3782, 3782); (3784, 3789); (3864, 3865);
    (3893, 3893); (3895, 3895); (3897, 3897); (3953, 3966); (3968, 3972);
    (3974, 3975); (3981, 3991); (3993, 4028); (4038, 4038); (4141, 4144);
    (4146, 4151); (4153, 4154); (4157, 4158); (4184, 4185); (4190, 4192);
    (4209, 4212); (4226, 4226); (4229, 4230); (4237, 4237); (4253, 4253);
    (4348, 4348); (4957, 4959); (5906, 5908); (5938, 5939); (5970, 5971);
    (6002, 6003); (6068, 6069); (6071, 6077); (6086, 6086); (6089, 6099);
    (6103, 6103); (6109, 6109); (6155, 6159); (6211, 6211); (6277, 6278);
    (6313, 6313); (6432, 6434); (6439, 6440); (6450, 6450); (6457, 6459);
    (6679, 6680); (6683, 6683); (6742, 6742); (6744, 6750); (6752, 6752);
    (6754, 6754); (6757, 6764); (6771, 6780); (6783, 6783); (6823, 6823);
    (6832, 6862); (6912, 6915); (6964, 6964); (6966, 6970); (6972, 6972);
    (6978, 6978); (7019, 7027); (7040, 7041); (7074, 7077); (7080, 7081);
    (7083, 7085); (7142, 7142); (7144, 7145); (7149, 7149); (7151, 7153);
    (7212, 7219); (7222, 7223); (7288, 7293); (7376, 7378); (7380, 7392);
    (7394, 7400); (7405, 7405); (7412, 7412); (7416, 7417); (7468, 7530);
    (7544, 7544); (7579, 7679); (8125, 8125); (8127, 8129); (8141, 8143);
    (8157, 8159); (8173, 8175); (8189, 8190); (8203, 8207); (8216, 8217);
    (8228, 8228); (8231, 8231); (8234, 8238); (8288, 8292); (8294, 8303);
    (8305, 8305); (8319, 8319); (8336, 8348); (8400, 8432); (11388, 11389);
    (11503, 11505); (11631, 11631); (11647, 11647); (11744, 11775); (11823, 11823);
    (12293, 12293); (12330, 12333); (12337, 12341); (12347, 12347); (12441, 12446);
    (12540, 12542); (40981, 40981); (42232, 42237); (42508, 42508); (42607, 42610);
    (42612, 42621); (42623, 42623); (42652, 42655); (42736, 42737); (42752, 42785);
    (42864, 42864); (42888, 42890); (42994, 42996); (43000, 43001); (43010, 43010);
    (43014, 43014); (43019, 43019); (43045, 43046); (43052, 43052); (43204, 43205);
    (43232, 43249); (43263, 43263); (43302, 43309); (43335, 43345); (43392, 43394);
    (43443, 43443); (43446, 43449); (43452, 43453); (43471, 43471); (43493, 43494);
    (43561, 43566); (43569, 43570); (43573, 43574); (43587, 43587); (43596, 43596);
    (43632, 43632); (43644, 43644); (43696, 43696); (43698, 43700); (43703, 43704);
    (43710, 43711); (43713, 43713); (43741, 43741); (43756, 43757); (43763, 43764);
    (43766, 43766); (43867, 43871); (43881, 43883); (44005, 44005); (44008, 44008);
    (44013, 44013); (64286, 64286); (64434, 64450); (65024, 65039); (65043, 65043);
    (65056, 65071); (65106, 65106); (65109, 65109); (65279, 65279); (65287, 65287);
    (65294, 65294); (65306, 65306); (65342, 65342); (65344, 65344); (65392, 65392);
    (65438, 65439); (65507, 65507); (65529, 65531); (66045, 66045); (66272, 66272);
    (66422, 66426); (67456, 67461); (67463, 67504); (67506, 67514); (68097, 68099);
    (68101, 68102); (68108, 68111); (68152, 68154); (68159, 68159); (68325, 68326);
    (68900, 68903); (69291, 69292); (69446, 69456); (69506, 69509); (69633, 69633);
    (69688, 69702); (69744, 69744); (69747, 69748); (69759, 69761); (69811, 69814);
    (69817, 69818); (69821, 69821); (69826, 69826); (69837, 69837); (69888, 69890);
    (69927, 69931); (69933, 69940); (70003, 70003); (70016, 70017); (70070, 70078);
    (70089, 70092); (70095, 70095); (70191, 70193); (70196, 70196); (70198, 70199);
    (70206, 70206); (70367, 70367); (70371, 70378); (70400, 70401); (70459, 70460);
    (70464, 70464); (70502, 70508); (70512, 70516); (70712, 70719); (70722, 70724);
    (70726, 70726); (70750, 70750); (70835, 70840); (70842, 70842); (70847, 70848);
    (70850, 70851); (71090, 71093); (71100, 71101); (71103, 71104); (71132, 71133);
    (71219, 71226); (71229, 71229); (71231, 71232); (71339, 71339); (71341, 71341);
    (71344, 71349); (71351, 71351); (71453, 71455); (71458, 71461); (71463, 71467);
    (71727, 71735); (71737, 71738); (71995, 71996); (71998, 71998); (72003, 72003);
    (72148, 72151); (72154, 72155); (72160, 72160); (72193, 72202); (72243, 72248);
    (72251, 72254); (72263, 72263); (72273, 72278); (72281, 72283); (72330, 72342);
    (72344, 72345); (72752, 72758); (72760, 72765); (72767, 72767); (72850, 72871);
    (72874, 72880); (72882, 72883); (72885, 72886); (73009, 73014); (73018, 73018);
    (73020, 73021); (73023, 73029); (73031, 73031); (73104, 73105); (73109, 73109);
    (73111, 73111); (73459, 73460); (78896, 78904); (92912, 92916); (92976, 92982);
    (92992, 92995); (94031, 94031); (94095, 94111); (94176, 94177); (94179, 94180);
    (110576, 110579); (110581, 110587); (110589, 110590); (113821, 113822); (113824, 113827);
    (118528, 118573); (118576, 118598); (119143, 119145); (119155, 119170); (119173, 119179);
    (119210, 119213); (119362, 119364); (121344, 121398); (121403, 121452); (121461, 121461);
    (121476, 121476); (121499, 121503); (121505, 121519); (122880, 122886); (122888, 122904);
    (122907, 122913); (122915, 122916); (122918, 122922); (123184, 123197); (123566, 123566);
    (123628, 123631); (125136, 125142); (125252, 125259); (127995, 127999); (917505, 917505);
    (917536, 917631); (917760, 917999)
  ]%Z.

Definition in_ranges (c : Z) (ranges : list (Z * Z)) : bool :=
  existsb (fun r => (fst r <=? c)%Z && (c <=? snd r)%Z) ranges.

(** What is added to a code point to lower it; zero when it has no
    lower-case mapping. *)
Fixpoint lower_delta (c : Z) (runs : list (Z * Z * Z * Z)) : Z :=
  match runs with
  | [] => 0%Z
  | (first, last, step, delta) :: rest =>
      if (first <=? c)%Z && (c <=? last)%Z && ((c - first) mod step =? 0)%Z
      then delta
      else lower_delta c rest
  end.

Definition is_ascii_letter (c : Z) : bool :=
  ((65 <=? c) && (c <=? 90) || (97 <=? c) && (c <=? 122))%Z.

(** Cased and not Case_Ignorable. *)
Definition cased (c : Z) : bool :=
  if (c <? 128)%Z then is_ascii_letter c else in_ranges c cased_ranges.

Definition case_ignorable (c : Z) : bool :=
  if (c <? 128)%Z
  then ((c =? 39) || (c =? 46) || (c =? 58) || (c =? 94) || (c =? 96))%Z
  else in_ranges c case_ignorable_ranges.

(** The lower-case form of one character other than the capital sigma:
    a character of one byte is ASCII (or no character at all), and
    U+0130 is the one character whose lower-case form has two code
    points. *)
Definition lower_char (c : Z) (raw : string) : string :=
  match raw with
  | String a EmptyString => String (lower_ascii a) EmptyString
  | _ =>
      if (c =? 304)%Z then (encode 105 ++ encode 775)%string
      else
        let delta := lower_delta c lower_runs in
        if (delta =? 0)%Z then raw else encode (c + delta)
  end.

(** Whether the next character that is not case-ignorable is cased. *)
Fixpoint cased_ahead (chars : list (Z * string)) : bool :=
  match chars with
  | [] => false
  | (c, _) :: rest =>
      if case_ignorable c then cased_ahead rest else cased c
  end.

(** The loop of [str.lower()]; [cased_behind] tells whether the last
    character before the current one that is not case-ignorable is
    cased.  The capital sigma U+03A3 lowers to the final sigma U+03C2
    after a cased letter that no cased letter follows, and to U+03C3
    otherwise. *)
Fixpoint lower_chars (cased_behind : bool) (chars : list (Z * string))
    : string :=
  match chars with
  | [] => EmptyString
  | (c, raw) :: rest =>
      ((if (c =? 931)%Z
        then if cased_behind && negb (cased_ahead rest)
             then encode 962 else encode 963
        else lower_char c raw)
       ++ lower_chars (if case_ignorable c then cased_behind else cased c)
            rest)%string
  end.

(** [s.lower()]. *)
Definition lower (s : string) : string := lower_chars false (decode s).

(** [any(p in reason.lower() for reason in reasons)]. *)
Definition any_mentions (p : string) (reasons : list string) : bool :=
  existsb (fun reason => contains p (lower reason)) reasons.

(** ** Floats

    A finite [float] is the rational it denotes.  [float x] is the
    binary64 number nearest to the rational [x], halves going to the
    even neighbour: what [float()] makes of an [int] or a [Decimal],
    and what every arithmetic operation on floats makes of its exact
    result.  Results beyond the largest binary64 number, where Python
    answers [inf] or raises [OverflowError], are not modelled. *)

(** [floor(log2(x))] for a positive [x]. *)
Definition ilog2 (x : Q) : Z :=
  let k := (Z.log2 (Qnum x) - Z.log2 (Zpos (Qden x)))%Z in
  if Qle_bool (2 ^ k) x then k else (k - 1)%Z.

(** The nearest integer, halves going to the even neighbour
    ([round(x)] on a float). *)
Definition rint (x : Q) : Z :=
  let n := Qfloor x in
  match (x - inject_Z n ?= 1 # 2)%Q with
  | Lt => n
  | Eq => if Z.even n then n else (n + 1)%Z
  | Gt => (n + 1)%Z
  end.

(** The exponent of the last binary digit that a binary64 number of
    the magnitude of [x] has: 53 digits, and none below 2^-1074. *)
Definition ulp_exponent (x : Q) : Z := (Z.max (ilog2 x) (-1022) - 52)%Z.

(** [float x] for a positive [x]. *)
Definition nearest (x : Q) : Q :=
  let q := ulp_exponent x in
  (inject_Z (rint (x / 2 ^ q)) * 2 ^ q)%Q.

Definition float (x : Q) : Q :=
  match (x ?= 0)%Q with
  | Eq => 0%Q
  | Gt => nearest x
  | Lt => (- nearest (- x))%Q
  end.

(** [x + y], [x - y], [x * y] and [x / y] on two floats ([y] is not
    zero in the last). *)
Definition fadd (x y : Q) : Q := float (x + y).

Definition fsub (x y : Q) : Q := float (x - y).

Definition fmul (x y : Q) : Q := float (x * y).

Definition fdiv (x y : Q) : Q := float (x / y).

(** [int(x)] on a float: truncation towards zero. *)
Definition int (x : Q) : Z :=
  if Qle_bool 0 x then Qfloor x else Qceiling x.

(** [10 ** d] as a rational, for a non-negative exponent. *)
Definition pow10 (d : N) : Q := inject_Z (10 ^ Z.of_N d).

(** [min] on floats. *)
Definition min (x y : Q) : Q := if Qle_bool x y then x else y.

(** Truthiness of a float ([not x] holds of [0.0]). *)
Definition truthy (x : Q) : bool := negb (Qeq_bool x 0).

(** [max] on floats. *)
Definition max (x y : Q) : Q := if Qle_bool y x then x else y.

(** [timedelta(hours=h)] for a float [h], in microseconds.  The whole
    hours are converted exactly; the fraction is multiplied by the
    3600000000 microseconds of an hour as a float, and the sum is
    rounded to a whole number of microseconds, halves going to the even
    one.  [None] stands for the [OverflowError] of a result beyond
    999999999 days. *)
Definition timedelta_hours (h : Q) : option Z :=
  let intpart := int h in
  let fracpart := (h - inject_Z intpart)%Q in
  let microseconds :=
    rint (inject_Z (intpart * 3600000000) + fmul 3600000000 fracpart) in
  let days := (microseconds / 86400000000)%Z in
  if ((-999999999 <=? days) && (days <=? 999999999))%Z
  then Some microseconds else None.

End Py.

(** An exception raised by the chain client.  [exn_web3] tells whether
    its class is one of [TimeExhausted], [BadFunctionCallOutput],
    [TransactionNotFound]; [exn_msg] is [str(e)]. *)
Record Exn := MkExn { exn_web3 : bool; exn_msg : string }.

(** The answer of an external call: a value, or a raised exception. *)
Inductive Res (A : Type) : Type :=
| Ok (a : A)
| Raise (e : Exn).
Arguments Ok {A} a.
Arguments Raise {A} e.

(* ===================================================================== *)
(** * config.py *)
(* ===================================================================== *)

Module Config.

(** The settings read from the environment.  The defaults of the
    source are in [default]. *)
Record t := {
  MIN_LIQUIDITY : Q;
  SLIPPAGE : Q;
  GAS_MULTIPLIER : Q;
  HONEYPOT_CHECK_ENABLED : bool;
  ASSEMBLY_CHECK_ENABLED : bool;
  TAKE_PROFIT_PERCENTAGE : Q;
  STOP_LOSS_PERCENTAGE : Q;
  BSCSCAN_API_KEY : string;
}.

Definition default : t := {|
  MIN_LIQUIDITY := 5;
  SLIPPAGE := 10;
  GAS_MULTIPLIER := 1.2;
  HONEYPOT_CHECK_ENABLED := true;
  ASSEMBLY_CHECK_ENABLED := true;
  TAKE_PROFIT_PERCENTAGE := 20;
  STOP_LOSS_PERCENTAGE := 10;
  BSCSCAN_API_KEY := EmptyString;
|}.

Definition RETRY_DELAY_BASE : Z := 2.

Definition BLACKLISTED_PATTERNS : list string :=
  [ "test"; "scam"; "fake"; "honey"; "pot"; "honeypot"; "rug"; "pull";
    "rugpull"; "moon"; "safe"; "gem"; "100x"; "1000x"; "fair";
    "presale"; "pre-sale"; "ico" ].

End Config.

(* ===================================================================== *)
(** * database/operations.py *)
(* ===================================================================== *)

Module Database.

(** A row of [blacklisted_tokens]; the table is keyed by the token
    address ([token_address TEXT PRIMARY KEY]). *)
Record BlacklistEntry := {
  bl_token_symbol : string;
  bl_reason : string;
}.

(** A row of [portfolio]; the table is keyed by [id]. *)
Record PositionEntry := {
  pf_token_address : string;
  pf_token_symbol : string;
  pf_amount_tokens : Q;
  pf_purchase_price_bnb : Q;
  pf_investment_amount_bnb : Q;
  pf_take_profit_target : Q;
  pf_stop_loss_target : Q;
  pf_status : string;
}.

(** A row of [transactions]. *)
Record TransactionRow := {
  tr_token_address : string;
  tr_token_symbol : string;
  tr_transaction_type : string;
  tr_amount_tokens : Q;
  tr_amount_bnb : Q;
  tr_transaction_hash : string;
  tr_profit_loss_bnb : option Q;
}.

(** A row of [failed_transactions]. *)
Record FailedTransactionRow := {
  ft_token_address : string;
  ft_token_symbol : string;
  ft_transaction_type : string;
  ft_amount : option Q;
  ft_tx_hash : option string;
  ft_error_reason : string;
}.

(** An entry of the gradual-sell queue, as [trading/sell.py] hands it
    to [add_to_sell_queue].  Times are wall-clock seconds. *)
Record SellScheduleEntry := {
  sq_token_address : string;
  sq_token_symbol : string;
  sq_token_decimals : N;
  sq_amount : Q;
  sq_scheduled_time : Z;
}.

(** The tables of [database/models.py], and the gradual-sell queue.
    [database/models.py] creates no table for the queue and nothing in
    the repository writes to it; the field is there to say so. *)
Record DB := {
  blacklisted_tokens : gmap string BlacklistEntry;
  portfolio : gmap Z PositionEntry;
  portfolio_next_id : Z;
  transactions : list TransactionRow;
  failed_transactions : list FailedTransactionRow;
  sell_queue : list SellScheduleEntry;
}.

Definition empty : DB := {|
  blacklisted_tokens := ∅;
  portfolio := ∅;
  portfolio_next_id := 1;
  transactions := [];
  failed_transactions := [];
  sell_queue := [];
|}.

Definition record_failed_transaction
    (token_address token_symbol transaction_type : string)
    (amount : option Q) (tx_hash : option string) (error_reason : string)
    (d : DB) : DB :=
  {| blacklisted_tokens := blacklisted_tokens d;
     portfolio := portfolio d;
     portfolio_next_id := portfolio_next_id d;
     transactions := transactions d;
     failed_transactions :=
       failed_transactions d ++
       [ {| ft_token_address := token_address;
            ft_token_symbol := token_symbol;
            ft_transaction_type := transaction_type;
            ft_amount := amount;
            ft_tx_hash := tx_hash;
            ft_error_reason := error_reason |} ];
     sell_queue := sell_queue d |}.

(** [SELECT token_address FROM blacklisted_tokens WHERE token_address = ?]. *)
Definition is_token_blacklisted (token_address : string) (d : DB) : bool :=
  match blacklisted_tokens d !! token_address with
  | Some _ => true
  | None => false
  end.

(** [INSERT OR REPLACE INTO blacklisted_tokens]. *)
Definition add_to_blacklist
    (token_address token_symbol reason : string) (d : DB) : DB :=
  {| blacklisted_tokens :=
       <[ token_address :=
            {| bl_token_symbol := token_symbol; bl_reason := reason |} ]>
         (blacklisted_tokens d);
     portfolio := portfolio d;
     portfolio_next_id := portfolio_next_id d;
     transactions := transactions d;
     failed_transactions := failed_transactions d;
     sell_queue := sell_queue d |}.

(** [INSERT INTO portfolio]; the new row has the default status
    ['active'] and the function returns [cursor.lastrowid]. *)
Definition add_to_portfolio
    (token_address token_symbol : string)
    (amount_tokens purchase_price_bnb investment_amount_bnb
       take_profit stop_loss : Q) (d : DB) : Z * DB :=
  let portfolio_id := portfolio_next_id d in
  (portfolio_id,
   {| blacklisted_tokens := blacklisted_tokens d;
      portfolio :=
        <[ portfolio_id :=
             {| pf_token_address := token_address;
                pf_token_symbol := token_symbol;
                pf_amount_tokens := amount_tokens;
                pf_purchase_price_bnb := purchase_price_bnb;
                pf_investment_amount_bnb := investment_amount_bnb;
                pf_take_profit_target := take_profit;
                pf_stop_loss_target := stop_loss;
                pf_status := "active" |} ]> (portfolio d);
      portfolio_next_id := portfolio_id + 1;
      transactions := transactions d;
      failed_transactions := failed_transactions d;
      sell_queue := sell_queue d |}).

Definition set_status (status : string) (e : PositionEntry) : PositionEntry :=
  {| pf_token_address := pf_token_address e;
     pf_token_symbol := pf_token_symbol e;
     pf_amount_tokens := pf_amount_tokens e;
     pf_purchase_price_bnb := pf_purchase_price_bnb e;
     pf_investment_amount_bnb := pf_investment_amount_bnb e;
     pf_take_profit_target := pf_take_profit_target e;
     pf_stop_loss_target := pf_stop_loss_target e;
     pf_status := status |}.

(** [UPDATE portfolio SET status = ? WHERE id = ?]. *)
Definition update_portfolio_status
    (portfolio_id : Z) (status : string) (d : DB) : DB :=
  {| blacklisted_tokens := blacklisted_tokens d;
     portfolio := alter (set_status status) portfolio_id (portfolio d);
     portfolio_next_id := portfolio_next_id d;
     transactions := transactions d;
     failed_transactions := failed_transactions d;
     sell_queue := sell_queue d |}.

(** [SELECT ... FROM portfolio WHERE status = 'active']. *)
Definition get_active_portfolio (d : DB) : list (Z * PositionEntry) :=
  List.filter (fun row => String.eqb (pf_status (snd row)) "active")
              (map_to_list (portfolio d)).

(** [INSERT INTO transactions]. *)
Definition record_transaction
    (token_address token_symbol transaction_type : string)
    (amount_tokens amount_bnb : Q) (transaction_hash : string)
    (profit_loss_bnb : option Q) (d : DB) : DB :=
  {| blacklisted_tokens := blacklisted_tokens d;
     portfolio := portfolio d;
     portfolio_next_id := portfolio_next_id d;
     transactions :=
       transactions d ++
       [ {| tr_token_address := token_address;
            tr_token_symbol := token_symbol;
            tr_transaction_type := transaction_type;
            tr_amount_tokens := amount_tokens;
            tr_amount_bnb := amount_bnb;
            tr_transaction_hash := transaction_hash;
            tr_profit_loss_bnb := profit_loss_bnb |} ];
     failed_transactions := failed_transactions d;
     sell_queue := sell_queue d |}.

(** [from database.operations import add_to_sell_queue], as
    [trading/sell.py] writes it in two places.  [database/operations.py]
    defines no [add_to_sell_queue], so the statement raises
    [ImportError] each time it is executed; what it would bind is a
    function that stores one entry. *)
Definition import_add_to_sell_queue
    : Res (string -> string -> N -> Q -> Z -> DB -> DB) :=
  Raise {| exn_web3 := false;
           exn_msg := "cannot import name 'add_to_sell_queue' from 'database.operations'" |}.

End Database.

(* ===================================================================== *)
(** * trading/sell.py *)
(* ===================================================================== *)

Module Sell.
Import Database.

(** ** The chain as seen by one attempt of [execute_sell] *)

(** What [wait_for_transaction_receipt] returns, with the hash of the
    transaction and the string [decode_revert_reason] computes for it.
    [rc_gas_used] is [tx_receipt.get('gasUsed', 0)]. *)
Record Receipt := {
  rc_status : Z;
  rc_gas_used : Z;
  rc_tx_hash : string;
  rc_revert_reason : string;
}.

(** The answers of the chain during one iteration of the retry loop,
    in the order in which the code asks for them.  [w_approve] stands
    for the whole approval exchange (nonce, gas price, build, sign,
    send, wait), [w_sell] for build, sign, send and wait of the swap:
    an exception raised anywhere in such a group is the group's
    [Raise]. *)
Record AttemptWorld := {
  w_get_instance : Res unit;
  w_token_contract : bool;
  w_balanceOf : Res Z;
  w_allowance : Res Z;
  w_approve : Res Receipt;
  w_getAmountsOut : Z -> nat -> Res Z;
  w_gas_price : Res Z;
  w_nonce : Res Z;
  w_time : Z;
  w_sell : Res Receipt;
}.

(** The swap a sell attempt builds. *)
Record SellTx := {
  tx_amount_tokens_wei : Z;
  tx_min_bnb : Z;
  tx_deadline : Z;
  tx_gas : Z;
  tx_gasPrice : Z;
  tx_nonce : Z;
}.

(** The calls of [execute_sell] that leave the process, kept in the
    order in which they are made.  The list is ghost state: nothing in
    the code reads it. *)
Inductive Call :=
| CallGetTokenContract
| CallBalanceOf
| CallAllowance
| CallApprove
| CallEstimate (amount_tokens : Q)
| CallSell (tx : SellTx)
| CallBackoff (seconds : Z).

(** The values [execute_sell] returns, one constructor per [return]
    statement. *)
Inductive Outcome :=
| NoContract
| Skipped (reason : string)
| ApprovalFailed (reason tx_hash : string)
| FailedReason (reason : string)
| Success (tx_hash : string) (tokens_sold bnb_received : Q)
| Failed (reasons : list string) (token_address token_symbol : string).

(** The ["status"] entry of the returned dictionary; [None] when the
    function returns [None]. *)
Definition status (o : Outcome) : option string :=
  match o with
  | NoContract => None
  | Skipped _ => Some "skipped"
  | ApprovalFailed _ _ | FailedReason _ | Failed _ _ _ => Some "failed"
  | Success _ _ _ => Some "success"
  end.

(** ** estimate_bnb_output *)

(** [w3.from_wei(x, 'ether')]: a [Decimal], exact. *)
Definition from_wei_ether (wei : Z) : Q := inject_Z wei / Py.pow10 18.

(** The retry loop of [estimate_bnb_output]: [getAmountsOut attempt]
    is the router's answer to the quote of the given iteration, and the
    function returns [float(bnb_output)].  Every exception is caught
    inside the loop. *)
Fixpoint estimate_loop (getAmountsOut : nat -> Res Z)
    (attempt fuel : nat) : option Q :=
  match fuel with
  | O => None
  | S fuel' =>
      match getAmountsOut attempt with
      | Ok amount_out => Some (Py.float (from_wei_ether amount_out))
      | Raise _ => estimate_loop getAmountsOut (S attempt) fuel'
      end
  end.

Definition estimate_bnb_output (getAmountsOut : Z -> nat -> Res Z)
    (token_amount : Q) (token_decimals : N) (max_retries : nat) : option Q :=
  let token_amount_wei := Py.int (token_amount * Py.pow10 token_decimals) in
  estimate_loop (getAmountsOut token_amount_wei) 0 max_retries.

(** ** The gradual-sell schedule *)

(** [sell_schedule]: pairs of ["percent"] and ["delay_minutes"]. *)
Definition sell_schedule : list (Q * Z) :=
  [ (5%Q, 5%Z); (10%Q, 15%Z); (15%Q, 30%Z); (20%Q, 60%Z); (50%Q, 120%Z) ].

(** The loop of [queue_token_for_gradual_selling] (the same loop is
    written out a second time at the end of [execute_sell]) over the
    imported [add_to_sell_queue].  [now i] is what [datetime.now()]
    returns in iteration [i]; [timedelta(minutes=m)] is [60 * m]
    seconds. *)
Fixpoint add_scheduled_sells
    (add_to_sell_queue : string -> string -> N -> Q -> Z -> DB -> DB)
    (now : nat -> Z) (i : nat)
    (token_address token_symbol : string) (token_decimals : N)
    (amount : Q) (schedule : list (Q * Z)) (d : DB) : DB :=
  match schedule with
  | [] => d
  | (percent, delay_minutes) :: rest =>
      let sell_amount := (amount * (percent / 100))%Q in
      let scheduled_time := (now i + 60 * delay_minutes)%Z in
      add_scheduled_sells add_to_sell_queue now (S i) token_address
        token_symbol token_decimals amount rest
        (add_to_sell_queue token_address token_symbol token_decimals
           sell_amount scheduled_time d)
  end.

(** [queue_token_for_gradual_selling]: the import is the first
    statement of the [try] block, and [except Exception] turns what it
    raises into [False]. *)
Definition queue_token_for_gradual_selling (now : nat -> Z)
    (token_address token_symbol : string) (token_decimals : N)
    (total_amount : Q) (d : DB) : bool * DB :=
  match import_add_to_sell_queue with
  | Raise _ => (false, d)
  | Ok add_to_sell_queue =>
      (true,
       add_scheduled_sells add_to_sell_queue now 0 token_address
         token_symbol token_decimals total_amount sell_schedule d)
  end.

(** ** The escalation policy of [execute_sell] *)

(** [reduction_factor] of a retry ([attempt > 0]). *)
Definition reduction_factor (attempt : nat) (failure_reasons : list string) : Q :=
  if Py.any_mentions "gas" failure_reasons
     || Py.any_mentions "exceed" failure_reasons
  then 0.5 ^ Z.of_nat attempt
  else 0.8 ^ Z.of_nat attempt.

Definition base_extra_slippage (attempt : nat) : Q :=
  Py.min (10 * inject_Z (Z.of_nat attempt)) 30.

Definition extra_slippage (attempt : nat) (failure_reasons : list string) : Q :=
  if Py.any_mentions "price impact" failure_reasons
     || Py.any_mentions "slippage" failure_reasons
  then Py.min (base_extra_slippage attempt + 15) 49
  else base_extra_slippage attempt.

Definition gas_base_multiplier (attempt : nat) : Q :=
  1 + 0.2 * inject_Z (Z.of_nat attempt).

Definition gas_multiplier (cfg : Config.t) (attempt : nat)
    (failure_reasons : list string) : Q :=
  if Py.any_mentions "gas" failure_reasons
  then Config.GAS_MULTIPLIER cfg * gas_base_multiplier attempt * 1.5
  else Config.GAS_MULTIPLIER cfg * gas_base_multiplier attempt.

Definition gas_limit_multiplier (attempt : nat)
    (failure_reasons : list string) : Q :=
  if Py.any_mentions "gas" failure_reasons
  then 1 + 0.4 * inject_Z (Z.of_nat attempt)
  else 1 + 0.2 * inject_Z (Z.of_nat attempt).

(** [w3.to_wei(x, 'ether')]: library code; eth-utils rejects a result
    outside [0, 2**256 - 1] with a [ValueError]. *)
Definition to_wei_ether (x : Q) : Res Z :=
  let wei := Py.int (x * Py.pow10 18) in
  if ((wei <? 0) || (2 ^ 256 - 1 <? wei))%Z
  then Raise {| exn_web3 := false;
                exn_msg := "Resulting wei value must be between 1 and 2**256 - 1" |}
  else Ok wei.

(** ** The state of one call of [execute_sell] *)

(** The two local variables that live across iterations
    ([failure_reasons], [amount_tokens]), the store, and the ghost
    list of calls. *)
Record State := {
  failure_reasons : list string;
  amount_tokens : option Q;
  db : DB;
  calls : list Call;
}.

(** How a piece of the [try] block ends: it falls through with a
    value, raises, or executes a [return]. *)
Inductive Flow (A : Type) : Type :=
| Next (a : A)
| Throw (e : Exn)
| Return (o : Outcome).
Arguments Next {A} a.
Arguments Throw {A} e.
Arguments Return {A} o.

Definition M (A : Type) : Type := State -> Flow A * State.

Definition ret {A} (a : A) : M A := fun s => (Next a, s).

Definition bind {A B} (m : M A) (k : A -> M B) : M B :=
  fun s =>
    match m s with
    | (Next a, s') => k a s'
    | (Throw e, s') => (Throw e, s')
    | (Return o, s') => (Return o, s')
    end.

Definition throw {A} (e : Exn) : M A := fun s => (Throw e, s).

Definition return_ {A} (o : Outcome) : M A := fun s => (Return o, s).

(** Consume an answer of the chain. *)
Definition ask {A} (r : Res A) : M A :=
  match r with
  | Ok a => ret a
  | Raise e => throw e
  end.

Definition call (c : Call) : M unit :=
  fun s => (Next tt,
            {| failure_reasons := failure_reasons s;
               amount_tokens := amount_tokens s;
               db := db s;
               calls := calls s ++ [c] |}).

(** [failure_reasons.append(reason)]. *)
Definition append_reason (reason : string) : M unit :=
  fun s => (Next tt,
            {| failure_reasons := failure_reasons s ++ [reason];
               amount_tokens := amount_tokens s;
               db := db s;
               calls := calls s |}).

(** [amount_tokens = a]. *)
Definition set_amount_tokens (a : Q) : M unit :=
  fun s => (Next tt,
            {| failure_reasons := failure_reasons s;
               amount_tokens := Some a;
               db := db s;
               calls := calls s |}).

Definition update_db (f : DB -> DB) : M unit :=
  fun s => (Next tt,
            {| failure_reasons := failure_reasons s;
               amount_tokens := amount_tokens s;
               db := f (db s);
               calls := calls s |}).

Definition get_failure_reasons : M (list string) :=
  fun s => (Next (failure_reasons s), s).

Definition get_amount_tokens : M (option Q) :=
  fun s => (Next (amount_tokens s), s).

Declare Scope sell_scope.
Delimit Scope sell_scope with sell.
Notation "x <- c1 ;; c2" := (bind c1 (fun x => c2))
  (at level 100, c1 at next level, right associativity) : sell_scope.
Notation "c1 ;; c2" := (bind c1 (fun _ => c2))
  (at level 100, right associativity) : sell_scope.

(** The swaps in a list of calls, and their token amounts in wei. *)
Fixpoint swaps (cs : list Call) : list SellTx :=
  match cs with
  | [] => []
  | CallSell tx :: rest => tx :: swaps rest
  | _ :: rest => swaps rest
  end.

Definition submitted_amounts (cs : list Call) : list Z :=
  List.map tx_amount_tokens_wei (swaps cs).

(** ** execute_sell *)

Section ExecuteSell.

Variable cfg : Config.t.
Variables (token_address token_symbol : string) (token_decimals : N).
Variable portfolio_id : option Z.
Variable is_test : bool.
Variable max_retries : nat.

Local Open Scope sell_scope.

(** Lines 129-150: the amount of this attempt, in tokens and in wei.
    When no amount is known the balance is read; otherwise a retry
    reduces the current value of [amount_tokens]. *)
Definition prepare_amount (attempt : nat) (w : AttemptWorld) : M (Q * Z) :=
  requested <- get_amount_tokens ;;
  match requested with
  | None =>
      call CallBalanceOf ;;
      amount_tokens_wei <- ask (w_balanceOf w) ;;
      let amount := (inject_Z amount_tokens_wei / Py.pow10 token_decimals)%Q in
      set_amount_tokens amount ;;
      ret (amount, amount_tokens_wei)
  | Some current =>
      amount <-
        (if (0 <? attempt)%nat then
           reasons <- get_failure_reasons ;;
           let original_amount := current in
           let amount := (original_amount * reduction_factor attempt reasons)%Q in
           set_amount_tokens amount ;;
           ret amount
         else ret current) ;;
      ret (amount, Py.int (amount * Py.pow10 token_decimals))
  end.

(** Lines 161-210: the approval of the router, when the allowance is
    too small. *)
Definition approve_if_needed (amount_tokens_wei : Z) (w : AttemptWorld) : M unit :=
  call CallAllowance ;;
  allowance <- ask (w_allowance w) ;;
  if (allowance <? amount_tokens_wei)%Z then
    call CallApprove ;;
    approve_receipt <- ask (w_approve w) ;;
    if negb (rc_status approve_receipt =? 1)%Z then
      let reason := rc_revert_reason approve_receipt in
      append_reason ("APPROVAL_FAILED: " ++ reason) ;;
      return_ (ApprovalFailed ("Approval failed: " ++ reason)
                              (rc_tx_hash approve_receipt))
    else ret tt
  else ret tt.

(** Lines 214-220. *)
Definition estimation_failed {A} : M A :=
  append_reason "ESTIMATION_FAILED" ;;
  return_ (FailedReason "Failed to estimate BNB output").

(** Lines 222-348: slippage, gas, the swap and its receipt. *)
Definition submit (attempt : nat) (w : AttemptWorld)
    (amount : Q) (amount_tokens_wei : Z) (estimated_bnb : Q) : M unit :=
  reasons <- get_failure_reasons ;;
  let effective_slippage :=
    (Config.SLIPPAGE cfg + extra_slippage attempt reasons)%Q in
  min_bnb <- ask (to_wei_ether
                    (estimated_bnb * (100 - effective_slippage) / 100)%Q) ;;
  base_gas_price <- ask (w_gas_price w) ;;
  let gas_price :=
    Py.int (inject_Z base_gas_price * gas_multiplier cfg attempt reasons) in
  let gas_limit := (300000 * gas_limit_multiplier attempt reasons)%Q in
  sell_nonce <- ask (w_nonce w) ;;
  let deadline := (w_time w + 300 + 300 * Z.of_nat attempt)%Z in
  call (CallSell {| tx_amount_tokens_wei := amount_tokens_wei;
                    tx_min_bnb := min_bnb;
                    tx_deadline := deadline;
                    tx_gas := Py.int gas_limit;
                    tx_gasPrice := gas_price;
                    tx_nonce := sell_nonce |}) ;;
  tx_receipt <- ask (w_sell w) ;;
  let gas_used := rc_gas_used tx_receipt in
  let gas_usage_percent :=
    (inject_Z gas_used / inject_Z (Py.int gas_limit) * 100)%Q in
  if (rc_status tx_receipt =? 1)%Z then
    let transaction_type := if is_test then "test_sell" else "sell" in
    update_db (record_transaction token_address token_symbol
                 transaction_type amount estimated_bnb
                 (rc_tx_hash tx_receipt) None) ;;
    match portfolio_id with
    | Some id =>
        if negb is_test
        then update_db (update_portfolio_status id "sold")
        else ret tt
    | None => ret tt
    end ;;
    return_ (Success (rc_tx_hash tx_receipt) amount estimated_bnb)
  else
    let reason := rc_revert_reason tx_receipt in
    append_reason reason ;;
    update_db (record_failed_transaction token_address token_symbol
                 "sell" (Some amount) (Some (rc_tx_hash tx_receipt))
                 reason) ;;
    if negb (Qle_bool gas_usage_percent 95)
    then append_reason "OUT_OF_GAS"
    else ret tt.

(** The [try] block of one iteration (lines 121-348). *)
Definition try_block (attempt : nat) (w : AttemptWorld) : M unit :=
  ask (w_get_instance w) ;;
  call CallGetTokenContract ;;
  if negb (w_token_contract w) then return_ NoContract else
  amounts <- prepare_amount attempt w ;;
  let amount := fst amounts in
  let amount_tokens_wei := snd amounts in
  let minimum_sell_amount_wei := 1000%Z in
  if (amount_tokens_wei <? minimum_sell_amount_wei)%Z
  then return_ (Skipped "Amount too small") else
  approve_if_needed amount_tokens_wei w ;;
  call (CallEstimate amount) ;;
  match estimate_bnb_output (w_getAmountsOut w) amount token_decimals 3 with
  | None => estimation_failed
  | Some estimated_bnb =>
      if negb (Py.truthy estimated_bnb) then estimation_failed
      else submit attempt w amount amount_tokens_wei estimated_bnb
  end.

(** The two [except] clauses (lines 350-396). *)
Definition except_clause (e : Exn) : M unit :=
  let error_message := exn_msg e in
  append_reason error_message ;;
  (if exn_web3 e then
     if Py.contains "gas required exceeds allowance" error_message
     then append_reason "EXCEEDED_MAXIMUM"
     else if Py.contains "always failing transaction" error_message
     then append_reason "ALWAYS_FAILING"
     else if Py.contains "execution reverted" error_message
     then append_reason "EXECUTION_REVERTED"
     else ret tt
   else ret tt) ;;
  amount <- get_amount_tokens ;;
  update_db (record_failed_transaction token_address token_symbol
               "sell" amount None error_message).

(** One iteration of the [for] loop, up to the backoff: [Some o]
    when the iteration executes [return o]. *)
Definition run_attempt (attempt : nat) (w : AttemptWorld)
    (s : State) : option Outcome * State :=
  match try_block attempt w s with
  | (Next _, s') => (None, s')
  | (Return o, s') => (Some o, s')
  | (Throw e, s') =>
      match except_clause e s' with
      | (_, s'') => (None, s'')
      end
  end.

(** Lines 398-402. *)
Definition backoff (attempt : nat) (s : State) : State :=
  if (Z.of_nat attempt <? Z.of_nat max_retries - 1)%Z then
    let backoff_time :=
      (Config.RETRY_DELAY_BASE * (Z.of_nat attempt + 1) * 2)%Z in
    snd (call (CallBackoff backoff_time) s)
  else s.

(** [for attempt in range(max_retries)], started at [attempt] with
    [fuel] iterations left. *)
Fixpoint attempts (world : nat -> AttemptWorld) (attempt fuel : nat)
    (s : State) : option Outcome * State :=
  match fuel with
  | O => (None, s)
  | S fuel' =>
      match run_attempt attempt (world attempt) s with
      | (Some o, s') => (Some o, s')
      | (None, s') => attempts world (S attempt) fuel' (backoff attempt s')
      end
  end.

(** [any(reason in ["ALWAYS_FAILING", "EXECUTION_REVERTED"] ...)]. *)
Definition selling_restricted (reasons : list string) : bool :=
  existsb (fun reason => String.eqb reason "ALWAYS_FAILING"
                         || String.eqb reason "EXECUTION_REVERTED")
          reasons.

(** Lines 404-441: what happens once the loop is exhausted.  The
    hand-over to the gradual-sell queue starts with the import, inside
    a [try] block whose [except ImportError] only logs a warning.
    Past the import, the multiplication
    [amount_tokens * (percent / 100)] would be a [TypeError] when no
    amount was ever known. *)
Definition exhausted (now : nat -> Z) (s : State) : Res Outcome * State :=
  let failed :=
    Failed (failure_reasons s) token_address token_symbol in
  if (3 <=? length (failure_reasons s))%nat
     && selling_restricted (failure_reasons s)
  then
    match import_add_to_sell_queue with
    | Raise _ => (Ok failed, s)
    | Ok add_to_sell_queue =>
        match amount_tokens s with
        | None =>
            (Raise {| exn_web3 := false;
                      exn_msg := "unsupported operand type(s) for *: 'NoneType' and 'float'" |},
             s)
        | Some amount =>
            (Ok failed,
             {| failure_reasons := failure_reasons s;
                amount_tokens := amount_tokens s;
                db := add_scheduled_sells add_to_sell_queue now 0
                        token_address token_symbol token_decimals amount
                        sell_schedule (db s);
                calls := calls s |})
        end
    end
  else (Ok failed, s).

(** [execute_sell(token_address, token_symbol, token_decimals,
    amount_tokens, portfolio_id, is_test, max_retries)] run against
    the chain [world] (one [AttemptWorld] per iteration), the clock
    [now] and the store [d].  The caller sees the outcome and the
    store; the rest of the final state is returned for the proofs. *)
Definition execute_sell (world : nat -> AttemptWorld) (now : nat -> Z)
    (amount : option Q) (d : DB) : Res Outcome * State :=
  let s0 := {| failure_reasons := [];
               amount_tokens := amount;
               db := d;
               calls := [] |} in
  match attempts world 0 max_retries s0 with
  | (Some o, s) => (Ok o, s)
  | (None, s) => exhausted now s
  end.

End ExecuteSell.

End Sell.

(* ===================================================================== *)
(** * trading/buy.py *)
(* ===================================================================== *)

Module Buy.
Import Database.

Record Receipt := {
  rc_status : Z;
  rc_tx_hash : string;
}.

(** The answers of the chain during one iteration of [execute_buy]. *)
Record AttemptWorld := {
  w_get_instance : Res unit;
  w_token_contract : bool;
  w_symbol : Res string;
  w_decimals : Res N;
  w_getAmountsOut : Res Z;
  w_gas_price : Res Z;
  w_nonce : Res Z;
  w_buy : Res Receipt;
  w_balanceOf : Res Z;
}.

(** The values [execute_buy] returns. *)
Inductive Outcome :=
| NoResult
| Success (tx_hash : string) (token_balance bnb_spent : Q)
| Failed (tx_hash : string).

Definition status (o : Outcome) : option string :=
  match o with
  | NoResult => None
  | Success _ _ _ => Some "success"
  | Failed _ => Some "failed"
  end.

(** How the [try] block of one iteration ends. *)
Inductive Flow :=
| Caught (e : Exn) (d : DB)
| Return (o : Outcome) (d : DB).

Section ExecuteBuy.

Variable cfg : Config.t.
Variable token_address : string.
Variable bnb_amount : Q.
Variable is_test : bool.
Variable max_retries : nat.

(** [calculate_min_tokens]: every exception is turned into [None].
    In [int(amount_out[1] * (100 - slippage_percentage) / 100)] the
    quote is an [int] and the slippage a float: the quote is converted
    to a float and the three operations are float operations. *)
Definition calculate_min_tokens (w : AttemptWorld) : option Z :=
  let slippage_percentage := Config.SLIPPAGE cfg in
  match Sell.to_wei_ether bnb_amount with
  | Raise _ => None
  | Ok bnb_amount_wei =>
      match w_getAmountsOut w with
      | Raise _ => None
      | Ok amount_out =>
          Some (Py.int (Py.fdiv (Py.fmul (Py.float (inject_Z amount_out))
                                   (Py.fsub 100 slippage_percentage))
                          100))
      end
  end.

Local Notation "'try!' x := r 'in' k" :=
  (match r with
   | Ok x => k
   | Raise e => fun d => Caught e d
   end)
  (at level 10, x name, r at level 100, k at level 200).

(** The [try] block of one iteration (lines 60-180). *)
Definition try_block (w : AttemptWorld) : DB -> Flow :=
  try! _ := w_get_instance w in
  if negb (w_token_contract w) then Return NoResult else
  try! token_symbol := w_symbol w in
  try! token_decimals := w_decimals w in
  match calculate_min_tokens w with
  | None => Return NoResult
  | Some min_tokens =>
  if (min_tokens =? 0)%Z then Return NoResult else
  try! bnb_amount_wei := Sell.to_wei_ether bnb_amount in
  try! base_gas_price := w_gas_price w in
  try! nonce := w_nonce w in
  try! tx_receipt := w_buy w in
  if (rc_status tx_receipt =? 1)%Z then
    try! token_balance := w_balanceOf w in
    let balance := (inject_Z token_balance / Py.pow10 token_decimals)%Q in
    let transaction_type := if is_test then "test_buy" else "buy" in
    fun d =>
      let d1 := record_transaction token_address token_symbol
                  transaction_type balance bnb_amount
                  (rc_tx_hash tx_receipt) None d in
      if negb is_test then
        if Qeq_bool balance 0 then
          Caught {| exn_web3 := false;
                    exn_msg := "float division by zero" |} d1
        else
          let token_price := (bnb_amount / balance)%Q in
          let d2 := snd (add_to_portfolio token_address token_symbol
                           balance token_price bnb_amount
                           (Config.TAKE_PROFIT_PERCENTAGE cfg)
                           (Config.STOP_LOSS_PERCENTAGE cfg) d1) in
          Return (Success (rc_tx_hash tx_receipt) balance bnb_amount) d2
      else Return (Success (rc_tx_hash tx_receipt) balance bnb_amount) d1
  else
    fun d =>
      let d1 := if negb is_test
                then add_to_blacklist token_address token_symbol
                       "Buy transaction failed" d
                else d in
      Return (Failed (rc_tx_hash tx_receipt)) d1
  end.

(** [for attempt in range(max_retries)]: both [except] clauses only
    log, so a caught exception leads to the next iteration. *)
Fixpoint attempts (world : nat -> AttemptWorld) (attempt fuel : nat)
    (d : DB) : option Outcome * DB :=
  match fuel with
  | O => (None, d)
  | S fuel' =>
      match try_block (world attempt) d with
      | Return o d' => (Some o, d')
      | Caught _ d' => attempts world (S attempt) fuel' d'
      end
  end.

(** [execute_buy(token_address, bnb_amount, is_test, max_retries)]:
    after the loop the function returns [None]. *)
Definition execute_buy (world : nat -> AttemptWorld) (d : DB)
    : Outcome * DB :=
  match attempts world 0 max_retries d with
  | (Some o, d') => (o, d')
  | (None, d') => (NoResult, d')
  end.

End ExecuteBuy.

End Buy.

(* ===================================================================== *)
(** * trading/profit_management.py *)
(* ===================================================================== *)

Module ProfitManagement.
Import Database.

(** [calculate_profit_percentage], on floats. *)
Definition calculate_profit_percentage
    (current_value investment_amount : Q) : Q :=
  if Qeq_bool investment_amount 0 then 0
  else Py.fmul (Py.fdiv (Py.fsub current_value investment_amount)
                  investment_amount) 100.

(** The values [execute_take_profit_strategy] returns. *)
Inductive Outcome :=
| Failed (reason : string)
| Skipped (reason : string)
| Success (profit_percentage tokens_sold bnb_received : Q).

Section TakeProfit.

Variable cfg : Config.t.
Variables (token_address token_symbol : string) (token_decimals : N).
Variable portfolio_id : option Z.

(** Lines 238-257: the sell of the chosen share and the result built
    from it.  The third component is the ghost list of calls made by
    [execute_sell]. *)
Definition sell_share (world : nat -> Sell.AttemptWorld) (now : nat -> Z)
    (profit_percentage sell_amount : Q) (d : DB)
    : Outcome * DB * list Sell.Call :=
  match Sell.execute_sell cfg token_address token_symbol token_decimals
          portfolio_id false 3 world now (Some sell_amount) d with
  | (Ok (Sell.Success _ _ bnb_received), s) =>
      (Success profit_percentage sell_amount bnb_received,
       Sell.db s, Sell.calls s)
  | (Ok _, s) => (Failed "Sell execution failed", Sell.db s, Sell.calls s)
  | (Raise e, s) => (Failed (exn_msg e), Sell.db s, Sell.calls s)
  end.

(** [execute_take_profit_strategy(token_address, token_symbol,
    token_decimals, amount_tokens, investment_amount, portfolio_id)];
    [quote] answers the valuation of the whole position, [world] and
    [now] serve the sell. *)
Definition execute_take_profit_strategy
    (quote : Z -> nat -> Res Z)
    (world : nat -> Sell.AttemptWorld) (now : nat -> Z)
    (amount_tokens investment_amount : Q) (d : DB)
    : Outcome * DB * list Sell.Call :=
  match Sell.estimate_bnb_output quote amount_tokens token_decimals 3 with
  | None => (Failed "Failed to estimate current value", d, [])
  | Some current_value =>
      let profit_percentage :=
        calculate_profit_percentage current_value investment_amount in
      if Qle_bool 100 profit_percentage then
        sell_share world now profit_percentage (Py.fmul amount_tokens 0.75) d
      else if Qle_bool 50 profit_percentage then
        sell_share world now profit_percentage (Py.fmul amount_tokens 0.5) d
      else if Qle_bool (Config.TAKE_PROFIT_PERCENTAGE cfg) profit_percentage then
        sell_share world now profit_percentage (Py.fmul amount_tokens 0.25) d
      else (Skipped "Profit threshold not met", d, [])
  end.

End TakeProfit.

(** [ZeroDivisionError], as raised by a float division. *)
Definition ZeroDivisionError : Exn :=
  {| exn_web3 := false; exn_msg := "float division by zero" |}.

(** [calculate_loss_percentage], on floats. *)
Definition calculate_loss_percentage
    (current_value investment_amount : Q) : Q :=
  if Qeq_bool investment_amount 0 then 0
  else Py.max 0 (Py.fmul (Py.fdiv (Py.fsub investment_amount current_value)
                            investment_amount) 100).

(** [should_take_profit]; [current_value] may be [None]. *)
Definition should_take_profit (current_value : option Q)
    (investment_amount take_profit_target : Q) : bool :=
  match current_value with
  | None => false
  | Some current_value =>
      let profit_percentage :=
        calculate_profit_percentage current_value investment_amount in
      Qle_bool take_profit_target profit_percentage
  end.

Definition should_stop_loss (current_value : option Q)
    (investment_amount stop_loss_target : Q) : bool :=
  match current_value with
  | None => false
  | Some current_value =>
      let loss_percentage :=
        calculate_loss_percentage current_value investment_amount in
      Qle_bool stop_loss_target loss_percentage
  end.

(** [OverflowError], as raised by [timedelta] for a number of days
    beyond 999999999; the message names the number and is only
    logged. *)
Definition OverflowError : Exn :=
  {| exn_web3 := false;
     exn_msg := "days=1000000000; must have magnitude <= 999999999" |}.

(** [should_sell_by_time]: [now] is what [datetime.now()] returns and
    [purchase_datetime] the purchase time read from the row, two
    readings of a calendar clock in seconds; their difference is
    compared with [timedelta(hours=max_holding_time)]. *)
Definition should_sell_by_time (now purchase_datetime : Q)
    (max_holding_time : Q) : Res bool :=
  let time_held := (now - purchase_datetime)%Q in
  match Py.timedelta_hours max_holding_time with
  | None => Raise OverflowError
  | Some microseconds =>
      let max_holding_timedelta := (inject_Z microseconds / 1000000)%Q in
      Ok (Qle_bool max_holding_timedelta time_held)
  end.

(** [implement_trailing_stop_loss]: the pair [(should_sell,
    highest_value)], or the [ZeroDivisionError] of the decline when the
    highest value is zero.  The token arguments are only logged. *)
Definition implement_trailing_stop_loss
    (highest_value current_value : option Q) (trailing_percentage : Q)
    : Res (bool * option Q) :=
  match highest_value, current_value with
  | Some highest, Some current =>
      if negb (Qle_bool current highest) then Ok (false, Some current)
      else if Qeq_bool highest 0 then Raise ZeroDivisionError
      else
        let decline_percentage :=
          Py.fmul (Py.fdiv (Py.fsub highest current) highest) 100 in
        if Qle_bool trailing_percentage decline_percentage
        then Ok (true, Some highest)
        else Ok (false, Some highest)
  | _, _ => Ok (false, highest_value)
  end.

End ProfitManagement.

(* ===================================================================== *)
(** * tokendata/analysis.py and security/token_checks.py *)
(* ===================================================================== *)

Module Analysis.
Import Database.

(** What the four metadata reads of [fetch_token_data] return. *)
Record Metadata := {
  md_name : string;
  md_symbol : string;
  md_decimals : N;
  md_total_supply : Z;
}.

(** The dictionary [fetch_token_data] returns. *)
Record TokenData := {
  td_name : string;
  td_symbol : string;
  td_decimals : N;
  td_total_supply : Z;
  td_address : string;
}.

(** The dictionary [analyze_token] returns
    (["passed_security_checks"] is always [True]). *)
Record AnalysisResult := {
  ar_token_data : TokenData;
  ar_pair_address : string;
  ar_liquidity_bnb : Q;
}.

(** What the honeypot probe meets: the gas estimate of the approval
    works, fails, or something else raises. *)
Inductive HoneypotProbe :=
| ProbePassed
| ProbeEstimateFailed (e : string)
| ProbeError (e : string).

(** The chain (and the block explorer) as seen by one call of
    [analyze_token].  Reads inside a retry loop are indexed by the
    iteration.  [w_get_instance] is the first
    [Web3Singleton.get_instance()]; once it has returned, the instance
    is cached and the later calls cannot raise. *)
Record World := {
  w_get_instance : Res unit;
  w_to_checksum_address : string -> Res string;
  w_token_contract : bool;
  w_metadata : nat -> Res Metadata;
  w_getPair : nat -> Res string;
  w_pair_contract : bool;
  w_reserves : nat -> Res (Z * Z * string);
  w_get_code : nat -> Res string;
  w_sell_history : bool;
  w_honeypot : HoneypotProbe;
}.

(** The log lines written right before a [return None].  Every
    rejection returns [None]; its reason is what is logged (and, for
    the blacklisting stages, the reason stored with the entry). *)
Inductive LogLine :=
(* fetch_token_data *)
| TokenIsBlacklistedSkipping (token_address : string)
| FailedToGetTokenContract (token_address : string)
| ContainsBlacklistedPattern (symbol pattern : string)
| FailedToFetchAfterRetries (token_address : string)
(* check_token_liquidity *)
| FailedToGetPairContract
| InsufficientLiquidityBelowMinimum (bnb_liquidity minimum : Q)
| FailedToCheckLiquidityAfterRetries
(* analyze_token *)
| InvalidAddressFormat
| BlacklistedSkippingAnalysis (token_address : string)
| FailedToFetchTokenData (token_address : string)
| NoLiquidityPairFound (symbol : string)
| InsufficientLiquidityFor (symbol : string)
| SuspiciousCodeDetected (symbol : string)
| InsufficientSellHistory (symbol : string)
| HoneypotDetected (symbol : string).

Definition ZERO_ADDRESS : string :=
  "0x0000000000000000000000000000000000000000".

(** The first pattern of the list found in the lowered name or symbol
    (the [for] loop of lines 94-98). *)
Fixpoint first_blacklisted_pattern (patterns : list string)
    (name_lower symbol_lower : string) : option string :=
  match patterns with
  | [] => None
  | pattern :: rest =>
      if Py.contains pattern name_lower || Py.contains pattern symbol_lower
      then Some pattern
      else first_blacklisted_pattern rest name_lower symbol_lower
  end.

Section AnalyzeToken.

Variable cfg : Config.t.
Variable WBNB_ADDRESS : string.
Variable w : World.

(** The retry loop of [fetch_token_data]. *)
Fixpoint fetch_loop (token_address : string) (attempt fuel : nat)
    (d : DB) : option TokenData * DB * list LogLine :=
  match fuel with
  | O => (None, d, [FailedToFetchAfterRetries token_address])
  | S fuel' =>
      match w_to_checksum_address w token_address with
      | Raise _ => fetch_loop token_address (S attempt) fuel' d
      | Ok token_address =>
          if String.eqb token_address EmptyString then (None, d, [])
          else if is_token_blacklisted token_address d
          then (None, d, [TokenIsBlacklistedSkipping token_address])
          else if negb (w_token_contract w)
          then (None, d, [FailedToGetTokenContract token_address])
          else
            match w_metadata w attempt with
            | Raise _ => fetch_loop token_address (S attempt) fuel' d
            | Ok md =>
                let name_lower := Py.lower (md_name md) in
                let symbol_lower := Py.lower (md_symbol md) in
                match first_blacklisted_pattern
                        Config.BLACKLISTED_PATTERNS name_lower symbol_lower with
                | Some pattern =>
                    (None,
                     add_to_blacklist token_address (md_symbol md)
                       ("Contains blacklisted pattern: " ++ pattern) d,
                     [ContainsBlacklistedPattern (md_symbol md) pattern])
                | None =>
                    (Some {| td_name := md_name md;
                             td_symbol := md_symbol md;
                             td_decimals := md_decimals md;
                             td_total_supply := md_total_supply md;
                             td_address := token_address |}, d, [])
                end
            end
      end
  end.

Definition fetch_token_data (token_address : string) (max_retries : nat)
    (d : DB) : option TokenData * DB * list LogLine :=
  fetch_loop token_address 0 max_retries d.

(** [get_pair_address]. *)
Fixpoint pair_loop (attempt fuel : nat) : option string :=
  match fuel with
  | O => None
  | S fuel' =>
      match w_getPair w attempt with
      | Raise _ => pair_loop (S attempt) fuel'
      | Ok pair_address =>
          if String.eqb pair_address ZERO_ADDRESS then None
          else Some pair_address
      end
  end.

Definition get_pair_address (max_retries : nat) : option string :=
  pair_loop 0 max_retries.

(** [check_token_liquidity]. *)
Fixpoint liquidity_loop (attempt fuel : nat) : option Q * list LogLine :=
  match fuel with
  | O => (None, [FailedToCheckLiquidityAfterRetries])
  | S fuel' =>
      if negb (w_pair_contract w) then (None, [FailedToGetPairContract])
      else
        match w_reserves w attempt with
        | Raise _ => liquidity_loop (S attempt) fuel'
        | Ok (reserve0, reserve1, token0) =>
            let bnb_reserve :=
              if String.eqb (Py.lower token0) (Py.lower WBNB_ADDRESS)
              then reserve0 else reserve1 in
            let bnb_liquidity := Sell.from_wei_ether bnb_reserve in
            if negb (Qle_bool (Config.MIN_LIQUIDITY cfg) bnb_liquidity)
            then (None,
                  [InsufficientLiquidityBelowMinimum bnb_liquidity
                     (Config.MIN_LIQUIDITY cfg)])
            else (Some bnb_liquidity, [])
        end
  end.

Definition check_token_liquidity (max_retries : nat)
    : option Q * list LogLine :=
  liquidity_loop 0 max_retries.

(** [detect_suspicious_assembly]. *)
Definition suspicious_patterns : list string :=
  [ "selfdestruct"; "suicide"; "delegatecall"; "callcode";
    "iszero(caller"; "origin" ].

Fixpoint assembly_loop (attempt fuel : nat) : bool :=
  match fuel with
  | O => true
  | S fuel' =>
      match w_get_code w attempt with
      | Raise _ => assembly_loop (S attempt) fuel'
      | Ok contract_code =>
          let contract_code_lower := Py.lower contract_code in
          Py.contains "assembly" contract_code_lower
          || existsb (fun pattern => Py.contains pattern contract_code_lower)
                     suspicious_patterns
      end
  end.

Definition detect_suspicious_assembly (max_retries : nat) : bool :=
  if negb (Config.ASSEMBLY_CHECK_ENABLED cfg) then false
  else assembly_loop 0 max_retries.

(** [check_token_sell_history]: without an API key the check is
    skipped; otherwise the exchange with the block explorer is
    summed up by [w_sell_history]. *)
Definition check_token_sell_history : bool :=
  if String.eqb (Config.BSCSCAN_API_KEY cfg) EmptyString then true
  else w_sell_history w.

(** [check_for_honeypot]. *)
Definition check_for_honeypot (token_address token_symbol : string)
    (d : DB) : bool * DB :=
  if negb (Config.HONEYPOT_CHECK_ENABLED cfg) then (false, d)
  else
    match w_honeypot w with
    | ProbePassed => (false, d)
    | ProbeEstimateFailed e =>
        (true,
         add_to_blacklist token_address token_symbol
           ("Approval function manipulation detected: " ++ e) d)
    | ProbeError e =>
        (true,
         add_to_blacklist token_address token_symbol
           ("Error during honeypot check: " ++ e) d)
    end.

(** [analyze_token(token_address)]: the result ([Raise] when the
    connection or [to_checksum_address] raises, which nothing
    catches), the store, and the lines logged. *)
Definition analyze_token (token_address : string) (d : DB)
    : Res (option AnalysisResult) * DB * list LogLine :=
  match w_get_instance w with
  | Raise e => (Raise e, d, [])
  | Ok _ =>
  match w_to_checksum_address w token_address with
  | Raise e => (Raise e, d, [])
  | Ok token_address =>
  if String.eqb token_address EmptyString
  then (Ok None, d, [InvalidAddressFormat])
  else if is_token_blacklisted token_address d
  then (Ok None, d, [BlacklistedSkippingAnalysis token_address])
  else
  match fetch_token_data token_address 3 d with
  | (None, d1, log) =>
      (Ok None, d1, (log ++ [FailedToFetchTokenData token_address])%list)
  | (Some token_data, d1, log) =>
  let symbol := td_symbol token_data in
  match get_pair_address 3 with
  | None => (Ok None, d1, (log ++ [NoLiquidityPairFound symbol])%list)
  | Some pair_address =>
  if String.eqb pair_address EmptyString
  then (Ok None, d1, (log ++ [NoLiquidityPairFound symbol])%list)
  else
  match check_token_liquidity 3 with
  | (None, log') =>
      (Ok None, d1, (log ++ log' ++ [InsufficientLiquidityFor symbol])%list)
  | (Some liquidity, log') =>
  if negb (Py.truthy liquidity)
  then (Ok None, d1, (log ++ log' ++ [InsufficientLiquidityFor symbol])%list)
  else if detect_suspicious_assembly 3
  then (Ok None,
        add_to_blacklist token_address symbol
          "Suspicious assembly code detected" d1,
        (log ++ log' ++ [SuspiciousCodeDetected symbol])%list)
  else if negb check_token_sell_history
  then (Ok None,
        add_to_blacklist token_address symbol
          "Insufficient sell history" d1,
        (log ++ log' ++ [InsufficientSellHistory symbol])%list)
  else
  match check_for_honeypot token_address symbol d1 with
  | (true, d2) =>
      (Ok None,
       add_to_blacklist token_address symbol "Honeypot detected" d2,
       (log ++ log' ++ [HoneypotDetected symbol])%list)
  | (false, d2) =>
      (Ok (Some {| ar_token_data := token_data;
                   ar_pair_address := pair_address;
                   ar_liquidity_bnb := liquidity |}), d2, (log ++ log')%list)
  end
  end
  end
  end
  end
  end.

End AnalyzeToken.

End Analysis.

(* ===================================================================== *)
(** * security/blacklist.py *)
(* ===================================================================== *)

Module Blacklist.
Import Database.

(** [check_blacklisted_patterns(token_name, token_symbol, patterns_list)]:
    the pair [(is_blacklisted, matching_pattern)]. *)
Definition check_blacklisted_patterns (token_name token_symbol : string)
    (patterns_list : list string) : bool * option string :=
  let name_lower := Py.lower token_name in
  let symbol_lower := Py.lower token_symbol in
  match Analysis.first_blacklisted_pattern patterns_list
          name_lower symbol_lower with
  | Some pattern => (true, Some pattern)
  | None => (false, None)
  end.

(** [DELETE FROM blacklisted_tokens WHERE token_address = ?]. *)
Definition remove_from_blacklist (token_address : string) (d : DB) : DB :=
  {| blacklisted_tokens := delete token_address (blacklisted_tokens d);
     portfolio := portfolio d;
     portfolio_next_id := portfolio_next_id d;
     transactions := transactions d;
     failed_transactions := failed_transactions d;
     sell_queue := sell_queue d |}.

End Blacklist.

(* ===================================================================== *)
(** * portfolio/management.py *)
(* ===================================================================== *)

Module Management.
Import Database.

(** [should_take_profit] of this module: unlike the one of
    [profit_management.py] it divides by the investment unguarded. *)
Definition should_take_profit (current_value : option Q)
    (investment_amount take_profit_target : Q) : Res bool :=
  match current_value with
  | None => Ok false
  | Some current_value =>
      if Qeq_bool investment_amount 0
      then Raise ProfitManagement.ZeroDivisionError
      else
        let profit_percentage :=
          Py.fmul (Py.fdiv (Py.fsub current_value investment_amount)
                     investment_amount) 100 in
        Ok (Qle_bool take_profit_target profit_percentage)
  end.

Definition should_stop_loss (current_value : option Q)
    (investment_amount stop_loss_target : Q) : Res bool :=
  match current_value with
  | None => Ok false
  | Some current_value =>
      if Qeq_bool investment_amount 0
      then Raise ProfitManagement.ZeroDivisionError
      else
        let loss_percentage :=
          Py.fmul (Py.fdiv (Py.fsub investment_amount current_value)
                     investment_amount) 100 in
        Ok (Qle_bool stop_loss_target loss_percentage)
  end.

(** [should_sell_by_time] of this module, written as the one of
    [profit_management.py]. *)
Definition should_sell_by_time (now purchase_datetime : Q)
    (max_holding_time : Q) : Res bool :=
  let time_held := (now - purchase_datetime)%Q in
  match Py.timedelta_hours max_holding_time with
  | None => Raise ProfitManagement.OverflowError
  | Some microseconds =>
      let max_holding_timedelta := (inject_Z microseconds / 1000000)%Q in
      Ok (Qle_bool max_holding_timedelta time_held)
  end.

(** What the outside answers while one portfolio entry is processed:
    the chain read by [fetch_token_data], the quote of the position, the
    chain and clock of [execute_sell], the wall clock, and the entry's
    [purchase_time] column (which the store model leaves out). *)
Record EntryWorld := {
  ew_chain : Analysis.World;
  ew_quote : Z -> nat -> Res Z;
  ew_sell : nat -> Sell.AttemptWorld;
  ew_clock : nat -> Z;
  ew_now : Q;
  ew_purchase_time : Q;
}.

Section MonitorPortfolio.

Variable cfg : Config.t.
Variable MAX_HOLDING_TIME : Q.

(** The three identical [execute_sell] calls of [monitor_portfolio]:
    the whole held amount, tied to the portfolio entry.  The result is
    only logged; an exception is caught by the entry's [except]. *)
Definition sell_entry (ew : EntryWorld) (id : Z) (entry : PositionEntry)
    (token_decimals : N) (d : DB) : DB * list Sell.Call :=
  let run := Sell.execute_sell cfg (pf_token_address entry)
               (pf_token_symbol entry) token_decimals (Some id) false 3
               (ew_sell ew) (ew_clock ew)
               (Some (pf_amount_tokens entry)) d in
  (Sell.db (snd run), Sell.calls (snd run)).

(** The body of the [for entry in portfolio_entries] loop: the store
    afterwards and the calls [execute_sell] made (none when no sell is
    attempted). *)
Definition monitor_entry (ew : EntryWorld) (id : Z) (entry : PositionEntry)
    (d : DB) : DB * list Sell.Call :=
  match Analysis.fetch_token_data (ew_chain ew) (pf_token_address entry) 3 d with
  | (None, d1, _) => (d1, [])
  | (Some token_data, d1, _) =>
      let decimals := Analysis.td_decimals token_data in
      match Sell.estimate_bnb_output (ew_quote ew) (pf_amount_tokens entry)
              decimals 3 with
      | None => (d1, [])
      | Some current_value =>
          match should_take_profit (Some current_value)
                  (pf_investment_amount_bnb entry)
                  (pf_take_profit_target entry) with
          | Raise _ => (d1, [])
          | Ok true => sell_entry ew id entry decimals d1
          | Ok false =>
              match should_stop_loss (Some current_value)
                      (pf_investment_amount_bnb entry)
                      (pf_stop_loss_target entry) with
              | Raise _ => (d1, [])
              | Ok true => sell_entry ew id entry decimals d1
              | Ok false =>
                  match should_sell_by_time (ew_now ew) (ew_purchase_time ew)
                          MAX_HOLDING_TIME with
                  | Ok true => sell_entry ew id entry decimals d1
                  | _ => (d1, [])
                  end
              end
          end
      end
  end.

(** The loop of [monitor_portfolio] over the rows read at its start;
    [world id] serves the entry with that id. *)
Fixpoint monitor_entries (world : Z -> EntryWorld)
    (portfolio_entries : list (Z * PositionEntry)) (d : DB) : DB :=
  match portfolio_entries with
  | [] => d
  | (id, entry) :: rest =>
      monitor_entries world rest (fst (monitor_entry (world id) id entry d))
  end.

(** [monitor_portfolio()], with a connected chain client. *)
Definition monitor_portfolio (world : Z -> EntryWorld) (d : DB) : DB :=
  monitor_entries world (get_active_portfolio d) d.

End MonitorPortfolio.

End Management.

(* ===================================================================== *)
(** * tokendata/discovery.py *)
(* ===================================================================== *)

Module Discovery.
Import Database.

Section HandleNewPair.

Variable cfg : Config.t.
Variable WBNB_ADDRESS : string.
Variable MAX_INVESTMENT_PER_TOKEN : Q.
Variable LIQUIDITY_SAFETY_MULTIPLIER : Q.

(** Line 35: the amount to invest; the division raises when the safety
    multiplier is zero. *)
Definition investment_amount (liquidity_bnb : Q) : Res Q :=
  if Qeq_bool LIQUIDITY_SAFETY_MULTIPLIER 0
  then Raise ProfitManagement.ZeroDivisionError
  else Ok (Py.min MAX_INVESTMENT_PER_TOKEN
             (liquidity_bnb / LIQUIDITY_SAFETY_MULTIPLIER)%Q).

(** [handle_new_pair(token_address, pair_address)]: every exception is
    caught and turned into [False].  The third component is the outcome
    of [execute_buy] when it was called. *)
Definition handle_new_pair (chain : Analysis.World)
    (buy_world : nat -> Buy.AttemptWorld) (token_address : string) (d : DB)
    : bool * DB * option Buy.Outcome :=
  match Analysis.analyze_token cfg WBNB_ADDRESS chain token_address d with
  | (Raise _, d1, _) => (false, d1, None)
  | (Ok None, d1, _) => (false, d1, None)
  | (Ok (Some token_analysis), d1, _) =>
      match investment_amount (Analysis.ar_liquidity_bnb token_analysis) with
      | Raise _ => (false, d1, None)
      | Ok amount =>
          match Buy.execute_buy cfg token_address amount false 3
                  buy_world d1 with
          | (Buy.Success h balance spent, d2) =>
              (true, d2, Some (Buy.Success h balance spent))
          | (o, d2) => (false, d2, Some o)
          end
      end
  end.


End HandleNewPair.

End Discovery.

(* ===================================================================== *)
(** * portfolio/tracking.py *)
(* ===================================================================== *)

Module Tracking.
Import Database.

(** An element of the list ["entries"] of [get_portfolio_value]. *)
Record ValuedEntry := {
  ve_id : Z;
  ve_token_symbol : string;
  ve_token_address : string;
  ve_amount_tokens : Q;
  ve_investment_amount_bnb : Q;
  ve_current_value_bnb : Q;
  ve_profit_loss_bnb : Q;
  ve_profit_loss_percentage : Q;
}.


(** What the outside answers while one entry is valued: the chain read
    by [fetch_token_data] and the quote of the position. *)
Record EntryWorld := {
  ew_chain : Analysis.World;
  ew_quote : Z -> nat -> Res Z;
}.




(** [SELECT SUM(profit_loss_bnb) FROM transactions WHERE
    transaction_type = 'sell' AND profit_loss_bnb IS NOT NULL]: the
    rows selected. *)
Definition sells_with_profit (d : DB) : list Q :=
  omap (fun row =>
          if String.eqb (tr_transaction_type row) "sell"
          then tr_profit_loss_bnb row else None)
       (transactions d).

(** [calculate_total_profits()]: [SUM] is [NULL] when no row is
    selected, and [result[0] if result[0] else 0] turns [NULL] and
    [0.0] into [0]. *)
Definition calculate_total_profits (d : DB) : Q :=
  match sells_with_profit d with
  | [] => 0%Q
  | profits =>
      let total := fold_left Qplus profits 0%Q in
      if Py.truthy total then total else 0%Q
  end.

End Tracking.

(* ===================================================================== *)
(** * Scenarios *)
(* ===================================================================== *)

(** Concrete chains and stores used by the examples below. *)
Module Scenario.
Import Database.

Definition TOKEN : string := "0x1111111111111111111111111111111111111111".

(** A swap that is mined and reverts, using a third of its gas. *)
Definition reverted : Sell.Receipt := {|
  Sell.rc_status := 0;
  Sell.rc_gas_used := 100000;
  Sell.rc_tx_hash := "0xdead";
  Sell.rc_revert_reason := "Unknown reason";
|}.

(** A swap that is mined and succeeds, using all of its gas. *)
Definition succeeded : Sell.Receipt := {|
  Sell.rc_status := 1;
  Sell.rc_gas_used := 300000;
  Sell.rc_tx_hash := "0xbeef";
  Sell.rc_revert_reason := "Unknown reason";
|}.

(** A chain on which the router is already approved, one token is
    quoted at 0.002 BNB, and the swap ends with [receipt]. *)
Definition selling (receipt : Res Sell.Receipt) : Sell.AttemptWorld := {|
  Sell.w_get_instance := Ok tt;
  Sell.w_token_contract := true;
  Sell.w_balanceOf := Ok (1000 * 10 ^ 18)%Z;
  Sell.w_allowance := Ok (2 ^ 256 - 1)%Z;
  Sell.w_approve := Ok succeeded;
  Sell.w_getAmountsOut :=
    fun token_amount_wei _ => Ok (token_amount_wei / 500)%Z;
  Sell.w_gas_price := Ok 5000000000%Z;
  Sell.w_nonce := Ok 7%Z;
  Sell.w_time := 1700000000%Z;
  Sell.w_sell := receipt;
|}.


(** The chain of [selling], except that the router quotes zero BNB for
    any amount of the token. *)
Definition worthless : Sell.AttemptWorld := {|
  Sell.w_get_instance := Ok tt;
  Sell.w_token_contract := true;
  Sell.w_balanceOf := Ok (1000 * 10 ^ 18)%Z;
  Sell.w_allowance := Ok (2 ^ 256 - 1)%Z;
  Sell.w_approve := Ok succeeded;
  Sell.w_getAmountsOut := fun _ _ => Ok 0%Z;
  Sell.w_gas_price := Ok 5000000000%Z;
  Sell.w_nonce := Ok 7%Z;
  Sell.w_time := 1700000000%Z;
  Sell.w_sell := Ok succeeded;
|}.

(** A chain on which the buy is quoted at 10^21 units of the token and
    waiting for the receipt ends with [receipt]. *)
Definition buying (receipt : Res Buy.Receipt) : Buy.AttemptWorld := {|
  Buy.w_get_instance := Ok tt;
  Buy.w_token_contract := true;
  Buy.w_symbol := Ok "TKN";
  Buy.w_decimals := Ok 18%N;
  Buy.w_getAmountsOut := Ok (10 ^ 21)%Z;
  Buy.w_gas_price := Ok 5000000000%Z;
  Buy.w_nonce := Ok 7%Z;
  Buy.w_buy := receipt;
  Buy.w_balanceOf := Ok (10 ^ 21)%Z;
|}.

(** [TimeExhausted], as raised by [wait_for_transaction_receipt]. *)
Definition timed_out : Exn := {|
  exn_web3 := true;
  exn_msg := "Transaction is not in the chain after 120 seconds";
|}.

Definition clock (i : nat) : Z := (1700000000 + Z.of_nat i)%Z.

(** A store with one open position: 1000 tokens bought for 1 BNB. *)
Definition one_position : DB :=
  snd (add_to_portfolio TOKEN "TKN" 1000 0.001 1 20 10 Database.empty).

(** The default settings with a base take-profit target of 60%. *)
Definition target_60 : Config.t := {|
  Config.MIN_LIQUIDITY := 5;
  Config.SLIPPAGE := 10;
  Config.GAS_MULTIPLIER := 1.2;
  Config.HONEYPOT_CHECK_ENABLED := true;
  Config.ASSEMBLY_CHECK_ENABLED := true;
  Config.TAKE_PROFIT_PERCENTAGE := 60;
  Config.STOP_LOSS_PERCENTAGE := 10;
  Config.BSCSCAN_API_KEY := EmptyString;
|}.


(** A valuation of the whole position at [wei] wei of BNB. *)
Definition valued_at (wei : Z) : Z -> nat -> Res Z := fun _ _ => Ok wei.

Definition WBNB : string := "0xbb4CdB9CBd36B01bD1cBaEBF2De08d9173bc095c".

Definition PAIR : string := "0x2222222222222222222222222222222222222222".

(** A newly listed token with the given name and symbol, paired with
    WBNB in a pool holding [bnb_reserve] wei of BNB, whose bytecode
    contains nothing suspicious and whose approval can be estimated. *)
Definition listing (name symbol : string) (bnb_reserve : Z)
    : Analysis.World := {|
  Analysis.w_get_instance := Ok tt;
  Analysis.w_to_checksum_address := fun address => Ok address;
  Analysis.w_token_contract := true;
  Analysis.w_metadata := fun _ =>
    Ok {| Analysis.md_name := name;
          Analysis.md_symbol := symbol;
          Analysis.md_decimals := 18;
          Analysis.md_total_supply := 10 ^ 27 |};
  Analysis.w_getPair := fun _ => Ok PAIR;
  Analysis.w_pair_contract := true;
  Analysis.w_reserves := fun _ => Ok (bnb_reserve, 10 ^ 24, WBNB)%Z;
  Analysis.w_get_code := fun _ => Ok "608060405234801561001057600080fd";
  Analysis.w_sell_history := true;
  Analysis.w_honeypot := Analysis.ProbePassed;
|}.

End Scenario.

(* ===================================================================== *)
(** * Predicates used to state what the code guarantees *)
(* ===================================================================== *)

Module Safety.
Import Database.

(** ** Strings *)

(** ['A'..'Z']. *)
Definition is_upper (c : ascii) : bool :=
  let n := nat_of_ascii c in (65 <=? n)%nat && (n <=? 90)%nat.

Fixpoint has_upper (s : string) : bool :=
  match s with
  | EmptyString => false
  | String c s' => is_upper c || has_upper s'
  end.


(** [pattern] occurs in the lowered name or in the lowered symbol. *)
Definition pattern_occurs (pattern token_name token_symbol : string) : bool :=
  Py.contains pattern (Py.lower token_name)
  || Py.contains pattern (Py.lower token_symbol).

(** The characters of the hexadecimal rendering of a byte string, with
    or without the prefix [0x]. *)
Definition is_hex_char (c : ascii) : bool :=
  let n := nat_of_ascii c in
  ((48 <=? n)%nat && (n <=? 57)%nat)
  || ((97 <=? n)%nat && (n <=? 102)%nat)
  || ((65 <=? n)%nat && (n <=? 70)%nat)
  || (n =? 120)%nat.

Fixpoint all_chars (P : ascii -> bool) (s : string) : bool :=
  match s with
  | EmptyString => true
  | String c s' => P c && all_chars P s'
  end.

Definition hex_string (s : string) : bool := all_chars is_hex_char s.

(** ** The store *)

(** Every row of [portfolio] has an id below the next id handed out
    (SQLite's [AUTOINCREMENT]). *)
Definition ids_below_next (d : DB) : Prop :=
  forall id e, portfolio d !! id = Some e -> (id < portfolio_next_id d)%Z.

(** The stores [d'] that differ from [d] by at most one entry written
    to the blacklist. *)
Definition only_blacklisted (d d' : DB) : Prop :=
  d' = d \/
  exists token_address token_symbol reason,
    d' = add_to_blacklist token_address token_symbol reason d.

(** ** Selling *)

(** What holds of a swap sent in iteration [attempt] against [w]: it
    moves at least 1000 units, the router may spend them, the quote it
    is priced from is not zero, and its deadline is the one of the
    iteration. *)
Definition guarded (token_decimals : N) (attempt : nat)
    (w : Sell.AttemptWorld) (tx : Sell.SellTx) : Prop :=
  (1000 <= Sell.tx_amount_tokens_wei tx)%Z /\
  (exists allowance,
     Sell.w_allowance w = Ok allowance /\
     ((Sell.tx_amount_tokens_wei tx <= allowance)%Z \/
      exists rc, Sell.w_approve w = Ok rc /\ Sell.rc_status rc = 1%Z)) /\
  (exists amount estimated_bnb,
     Sell.estimate_bnb_output (Sell.w_getAmountsOut w) amount token_decimals 3
     = Some estimated_bnb /\
     ~ (estimated_bnb == 0)%Q) /\
  Sell.tx_deadline tx = (Sell.w_time w + 300 + 300 * Z.of_nat attempt)%Z.

(** What stands behind a success reported by a sell against [w]: a
    confirmed swap, and as proceeds the quote asked for before the
    swap. *)
Definition confirmed (token_decimals : N) (w : Sell.AttemptWorld)
    (tx_hash : string) (tokens_sold bnb_received : Q) : Prop :=
  (exists rc, Sell.w_sell w = Ok rc /\ Sell.rc_status rc = 1%Z /\
              tx_hash = Sell.rc_tx_hash rc) /\
  Sell.estimate_bnb_output (Sell.w_getAmountsOut w) tokens_sold
    token_decimals 3 = Some bnb_received.

(** The row a successful sell adds to [transactions]. *)
Definition sale_row (token_address token_symbol : string) (is_test : bool)
    (tx_hash : string) (tokens_sold bnb_received : Q) : TransactionRow :=
  {| tr_token_address := token_address;
     tr_token_symbol := token_symbol;
     tr_transaction_type := if is_test then "test_sell" else "sell";
     tr_amount_tokens := tokens_sold;
     tr_amount_bnb := bnb_received;
     tr_transaction_hash := tx_hash;
     tr_profit_loss_bnb := None |}.

(** The positions after a successful sell: the position the call is
    tied to is marked sold, unless the sell is a test. *)
Definition closed (portfolio_id : option Z) (is_test : bool)
    (positions : gmap Z PositionEntry) : gmap Z PositionEntry :=
  match portfolio_id with
  | Some id =>
      if is_test then positions else alter (set_status "sold") id positions
  | None => positions
  end.

(** What a sell that came back with outcome [o] ([None]: no outcome)
    did to the store [d], leaving [d']: the blacklist is never touched,
    a sale is recorded and the position closed on success only. *)
Definition sell_footprint (token_address token_symbol : string)
    (portfolio_id : option Z) (is_test : bool)
    (o : option Sell.Outcome) (d d' : DB) : Prop :=
  blacklisted_tokens d' = blacklisted_tokens d /\
  portfolio_next_id d' = portfolio_next_id d /\
  match o with
  | Some (Sell.Success tx_hash tokens_sold bnb_received) =>
      transactions d'
      = (transactions d
         ++ [sale_row token_address token_symbol is_test tx_hash
               tokens_sold bnb_received])%list /\
      portfolio d' = closed portfolio_id is_test (portfolio d)
  | _ => transactions d' = transactions d /\ portfolio d' = portfolio d
  end.

(** ** Buying *)

(** The row of [transactions] written for a confirmed buy. *)
Definition bought_row (token_address token_symbol : string) (is_test : bool)
    (tx_hash : string) (token_balance bnb_amount : Q) : TransactionRow :=
  {| tr_token_address := token_address;
     tr_token_symbol := token_symbol;
     tr_transaction_type := if is_test then "test_buy" else "buy";
     tr_amount_tokens := token_balance;
     tr_amount_bnb := bnb_amount;
     tr_transaction_hash := tx_hash;
     tr_profit_loss_bnb := None |}.

Definition buy_row (token_address : string) (bnb_amount : Q) (is_test : bool)
    (row : TransactionRow) : Prop :=
  exists token_symbol tx_hash token_balance,
    row = bought_row token_address token_symbol is_test tx_hash
            token_balance bnb_amount.

(** The position a buy opens. *)
Definition opened (cfg : Config.t) (token_address token_symbol : string)
    (token_balance bnb_amount : Q) : PositionEntry :=
  {| pf_token_address := token_address;
     pf_token_symbol := token_symbol;
     pf_amount_tokens := token_balance;
     pf_purchase_price_bnb := bnb_amount / token_balance;
     pf_investment_amount_bnb := bnb_amount;
     pf_take_profit_target := Config.TAKE_PROFIT_PERCENTAGE cfg;
     pf_stop_loss_target := Config.STOP_LOSS_PERCENTAGE cfg;
     pf_status := "active" |}.

(** What a buy that came back with outcome [o] did to the blacklist and
    to the positions of the store [d], leaving [d']. *)
Definition buy_footprint (cfg : Config.t) (token_address : string)
    (bnb_amount : Q) (is_test : bool)
    (o : Buy.Outcome) (d d' : DB) : Prop :=
  match o with
  | Buy.NoResult =>
      blacklisted_tokens d' = blacklisted_tokens d /\
      portfolio d' = portfolio d /\
      portfolio_next_id d' = portfolio_next_id d
  | Buy.Failed _ =>
      portfolio d' = portfolio d /\
      portfolio_next_id d' = portfolio_next_id d /\
      if is_test then blacklisted_tokens d' = blacklisted_tokens d
      else exists token_symbol,
        blacklisted_tokens d'
        = <[ token_address :=
               {| bl_token_symbol := token_symbol;
                  bl_reason := "Buy transaction failed" |} ]>
            (blacklisted_tokens d)
  | Buy.Success _ token_balance bnb_spent =>
      bnb_spent = bnb_amount /\
      blacklisted_tokens d' = blacklisted_tokens d /\
      if is_test
      then portfolio d' = portfolio d /\
           portfolio_next_id d' = portfolio_next_id d
      else ~ (token_balance == 0)%Q /\
           portfolio_next_id d' = (portfolio_next_id d + 1)%Z /\
           exists token_symbol,
             portfolio d'
             = <[ portfolio_next_id d :=
                    opened cfg token_address token_symbol token_balance
                      bnb_amount ]> (portfolio d)
  end.

(** A chain on which the buy is confirmed and the balance read after it
    is zero. *)
Definition bought_nothing (cfg : Config.t) (bnb_amount : Q)
    (w : Buy.AttemptWorld) : Prop :=
  (exists u, Buy.w_get_instance w = Ok u) /\
  Buy.w_token_contract w = true /\
  (exists token_symbol, Buy.w_symbol w = Ok token_symbol) /\
  (exists token_decimals, Buy.w_decimals w = Ok token_decimals) /\
  (exists min_tokens,
     Buy.calculate_min_tokens cfg bnb_amount w = Some min_tokens /\
     min_tokens <> 0%Z) /\
  (exists gas_price, Buy.w_gas_price w = Ok gas_price) /\
  (exists nonce, Buy.w_nonce w = Ok nonce) /\
  (exists receipt, Buy.w_buy w = Ok receipt /\ Buy.rc_status receipt = 1%Z) /\
  Buy.w_balanceOf w = Ok 0%Z.

(** ** Reporting *)

(** The sum of a column of the valued entries. *)
Definition total (column : Tracking.ValuedEntry -> Q)
    (entries : list Tracking.ValuedEntry) : Q :=
  fold_right (fun entry sum => (column entry + sum)%Q) 0%Q entries.

(** No row of [transactions] carries a profit figure. *)
Definition no_profit_recorded (d : DB) : Prop :=
  Forall (fun row => tr_profit_loss_bnb row = None) (transactions d).

End Safety.

(** Further concrete chains used by the examples. *)
Module Cases.

(** The chain of [Scenario.buying] with a confirmed buy, on which the
    wallet's balance of the token reads zero afterwards. *)
Definition bought_but_empty : Buy.AttemptWorld := {|
  Buy.w_get_instance := Ok tt;
  Buy.w_token_contract := true;
  Buy.w_symbol := Ok "TKN";
  Buy.w_decimals := Ok 18%N;
  Buy.w_getAmountsOut := Ok (10 ^ 21)%Z;
  Buy.w_gas_price := Ok 5000000000%Z;
  Buy.w_nonce := Ok 7%Z;
  Buy.w_buy := Ok {| Buy.rc_status := 1; Buy.rc_tx_hash := "0xb0b" |};
  Buy.w_balanceOf := Ok 0%Z;
|}.

(** The chain of [Scenario.selling] on which every read of the balance
    ends in an "execution reverted" error of the node. *)
Definition unreadable : Sell.AttemptWorld := {|
  Sell.w_get_instance := Ok tt;
  Sell.w_token_contract := true;
  Sell.w_balanceOf :=
    Raise {| exn_web3 := true; exn_msg := "execution reverted" |};
  Sell.w_allowance := Ok (2 ^ 256 - 1)%Z;
  Sell.w_approve := Ok Scenario.succeeded;
  Sell.w_getAmountsOut :=
    fun token_amount_wei _ => Ok (token_amount_wei / 500)%Z;
  Sell.w_gas_price := Ok 5000000000%Z;
  Sell.w_nonce := Ok 7%Z;
  Sell.w_time := 1700000000%Z;
  Sell.w_sell := Ok Scenario.succeeded;
|}.

(** The default settings with [SLIPPAGE=0]. *)
Definition no_slippage : Config.t := {|
  Config.MIN_LIQUIDITY := 5;
  Config.SLIPPAGE := 0;
  Config.GAS_MULTIPLIER := 1.2;
  Config.HONEYPOT_CHECK_ENABLED := true;
  Config.ASSEMBLY_CHECK_ENABLED := true;
  Config.TAKE_PROFIT_PERCENTAGE := 20;
  Config.STOP_LOSS_PERCENTAGE := 10;
  Config.BSCSCAN_API_KEY := EmptyString;
|}.

(** The chain of [Scenario.buying] on which the router quotes
    [amount_out] units of the token. *)
Definition quoted (amount_out : Z) : Buy.AttemptWorld := {|
  Buy.w_get_instance := Ok tt;
  Buy.w_token_contract := true;
  Buy.w_symbol := Ok "TKN";
  Buy.w_decimals := Ok 18%N;
  Buy.w_getAmountsOut := Ok amount_out;
  Buy.w_gas_price := Ok 5000000000%Z;
  Buy.w_nonce := Ok 7%Z;
  Buy.w_buy := Raise Scenario.timed_out;
  Buy.w_balanceOf := Ok amount_out;
|}.

(** A position of 1000 tokens bought for 1 BNB, with the default
    targets. *)
Definition position : Database.PositionEntry := {|
  Database.pf_token_address := Scenario.TOKEN;
  Database.pf_token_symbol := "TKN";
  Database.pf_amount_tokens := 1000;
  Database.pf_purchase_price_bnb := 0.001;
  Database.pf_investment_amount_bnb := 1;
  Database.pf_take_profit_target := 20;
  Database.pf_stop_loss_target := 10;
  Database.pf_status := "active";
|}.

(** The same position recorded with an investment of zero. *)
Definition unfunded : Database.PositionEntry := {|
  Database.pf_token_address := Scenario.TOKEN;
  Database.pf_token_symbol := "TKN";
  Database.pf_amount_tokens := 1000;
  Database.pf_purchase_price_bnb := 0;
  Database.pf_investment_amount_bnb := 0;
  Database.pf_take_profit_target := 20;
  Database.pf_stop_loss_target := 10;
  Database.pf_status := "active";
|}.

(** What the monitor meets for a holding bought an hour ago and valued
    at [wei] wei of BNB, on a chain where the swap succeeds. *)
Definition holding (wei : Z) : Management.EntryWorld := {|
  Management.ew_chain := Scenario.listing "Plain Token" "PLN" (10 ^ 20);
  Management.ew_quote := Scenario.valued_at wei;
  Management.ew_sell := fun _ => Scenario.selling (Ok Scenario.succeeded);
  Management.ew_clock := Scenario.clock;
  Management.ew_now := 1700003600;
  Management.ew_purchase_time := 1700000000;
|}.

End Cases.

(* ===================================================================== *)
(** * Properties *)
(* ===================================================================== *)

Import Database.

(** ** Strings *)

Lemma byte_nat (c : ascii) : Py.byte c = Z.of_nat (nat_of_ascii c).
Proof. unfold Py.byte, nat_of_ascii. rewrite N_nat_Z. reflexivity. Qed.

Lemma byte_range (c : ascii) : (0 <= Py.byte c < 256)%Z.
Proof.
  rewrite byte_nat. pose proof (nat_ascii_bounded c). lia.
Qed.

Lemma nat_chr (z : Z) :
  (0 <= z < 256)%Z -> nat_of_ascii (Py.chr z) = Z.to_nat z.
Proof.
  intros H. unfold Py.chr, nat_of_ascii.
  rewrite N_ascii_embedding; [apply Z_N_nat|]. lia.
Qed.

Lemma high_byte_not_upper (c : ascii) :
  (128 <= Py.byte c)%Z -> Safety.is_upper c = false.
Proof.
  rewrite byte_nat. unfold Safety.is_upper. cbv zeta. intros H.
  destruct (Nat.leb_spec (nat_of_ascii c) 90); [lia|].
  apply andb_false_r.
Qed.

Lemma lower_ascii_not_upper (c : ascii) :
  Safety.is_upper (Py.lower_ascii c) = false.
Proof. destruct c as [[] [] [] [] [] [] [] []]; reflexivity. Qed.


Lemma has_upper_app (s t : string) :
  Safety.has_upper (s ++ t) = Safety.has_upper s || Safety.has_upper t.
Proof.
  induction s as [|c s IH]; [reflexivity|].
  simpl. rewrite IH, orb_assoc. reflexivity.
Qed.

(** The first character of a string, as [decode] splits it off: an
    ASCII byte, or a sequence of bytes none of which is ASCII. *)
Lemma decode_cons (c1 : ascii) (s1 : string) :
  exists c raw rest,
    Py.decode (String c1 s1) = (c, raw) :: Py.decode rest /\
    String c1 s1 = (raw ++ rest)%string /\
    (String.length rest <= String.length s1)%nat /\
    ((raw = String c1 EmptyString /\ ((Py.byte c1 < 128)%Z -> c = Py.byte c1))
     \/ ((128 <= Py.byte c1)%Z /\
         Safety.all_chars (fun a => (128 <=? Py.byte a)%Z) raw = true /\
         exists a b more, raw = String a (String b more))).
Proof.
  cbn [Py.decode]. cbv zeta.
  destruct (Z.ltb_spec (Py.byte c1) 128) as [Hlow|Hhigh].
  { exists (Py.byte c1), (String c1 EmptyString), s1.
    repeat split; [lia|]. left. split; [reflexivity|intros _; reflexivity]. }
  assert (Hstray : exists c raw rest,
            (-1, String c1 EmptyString)%Z :: Py.decode s1
            = (c, raw) :: Py.decode rest /\
            String c1 s1 = (raw ++ rest)%string /\
            (String.length rest <= String.length s1)%nat /\
            ((raw = String c1 EmptyString
              /\ ((Py.byte c1 < 128)%Z -> c = Py.byte c1))
             \/ ((128 <= Py.byte c1)%Z /\
                 Safety.all_chars (fun a => (128 <=? Py.byte a)%Z) raw = true /\
                 exists a b more, raw = String a (String b more)))).
  { exists (-1)%Z, (String c1 EmptyString), s1.
    repeat split; [lia|]. left. split; [reflexivity|intros; lia]. }
  assert (Hc : forall c, Py.is_continuation c = true -> (128 <=? Py.byte c)%Z = true).
  { intros c H. unfold Py.is_continuation in H.
    apply andb_true_iff in H as [H _]. exact H. }
  assert (H1 : (128 <=? Py.byte c1)%Z = true) by (apply Z.leb_le; lia).
  destruct s1 as [|c2 s2].
  { exists (-1)%Z, (String c1 EmptyString), EmptyString.
    repeat split; [cbn; lia|]. left. split; [reflexivity|intros; lia]. }
  match goal with |- context [if ?b then _ else _] => destruct b eqn:E2 end.
  { repeat (apply andb_true_iff in E2 as [E2 ?]).
    eexists _, _, s2. split; [reflexivity|]. split; [reflexivity|].
    split; [cbn; lia|]. right. split; [lia|]. split.
    - cbn [Safety.all_chars]. rewrite H1, (Hc c2) by assumption. reflexivity.
    - eauto. }
  destruct s2 as [|c3 s3]; [exact Hstray|].
  match goal with |- context [if ?b then _ else _] => destruct b eqn:E3 end.
  { repeat (apply andb_true_iff in E3 as [E3 ?]).
    eexists _, _, s3. split; [reflexivity|]. split; [reflexivity|].
    split; [cbn; lia|]. right. split; [lia|]. split.
    - cbn [Safety.all_chars].
      rewrite H1, (Hc c2), (Hc c3) by assumption. reflexivity.
    - eauto. }
  destruct s3 as [|c4 s4]; [exact Hstray|].
  match goal with |- context [if ?b then _ else _] => destruct b eqn:E4 end.
  { repeat (apply andb_true_iff in E4 as [E4 ?]).
    eexists _, _, s4. split; [reflexivity|]. split; [reflexivity|].
    split; [cbn; lia|]. right. split; [lia|]. split.
    - cbn [Safety.all_chars].
      rewrite H1, (Hc c2), (Hc c3), (Hc c4) by assumption. reflexivity.
    - eauto. }
  exact Hstray.
Qed.

Lemma high_bytes_no_upper (s : string) :
  Safety.all_chars (fun a => (128 <=? Py.byte a)%Z) s = true ->
  Safety.has_upper s = false.
Proof.
  induction s as [|c s IH]; [reflexivity|].
  cbn [Safety.all_chars Safety.has_upper]. intros H.
  apply andb_true_iff in H as [Hc Hs]. apply Z.leb_le in Hc.
  rewrite (high_byte_not_upper c Hc), (IH Hs). reflexivity.
Qed.

Lemma chr_not_upper (z : Z) :
  (128 <= z < 256)%Z -> Safety.is_upper (Py.chr z) = false.
Proof.
  intros H. apply high_byte_not_upper. rewrite byte_nat, nat_chr by lia. lia.
Qed.

(** Every mapping of the table leads above the capital letters of
    ASCII, to a code point of Unicode. *)
Definition run_avoids_capitals (run : Z * Z * Z * Z) : bool :=
  match run with
  | (first, last, _, delta) =>
      ((90 <? first + delta) && (last + delta <=? 1114111))%Z
  end.

Lemma lower_runs_avoid_capitals :
  forallb run_avoids_capitals Py.lower_runs = true.
Proof. vm_compute. reflexivity. Qed.

Lemma lower_delta_target (c : Z) (runs : list (Z * Z * Z * Z)) :
  forallb run_avoids_capitals runs = true ->
  Py.lower_delta c runs <> 0%Z ->
  (90 < c + Py.lower_delta c runs <= 1114111)%Z.
Proof.
  induction runs as [|[[[first last] step] delta] rest IH];
    cbn [forallb Py.lower_delta]; intros Hall Hnz; [congruence|].
  apply andb_true_iff in Hall as [Hrun Hrest].
  destruct ((first <=? c)%Z && (c <=? last)%Z && ((c - first) mod step =? 0)%Z)
    eqn:Hin; [|exact (IH Hrest Hnz)].
  apply andb_true_iff in Hin as [Hin _].
  apply andb_true_iff in Hin as [H1 H2].
  apply Z.leb_le in H1, H2. unfold run_avoids_capitals in Hrun.
  apply andb_true_iff in Hrun as [H3 H4].
  apply Z.ltb_lt in H3. apply Z.leb_le in H4. lia.
Qed.

Lemma encode_no_upper (c : Z) :
  (0 <= c)%Z -> ~ (65 <= c <= 90)%Z -> (c <= 1114111)%Z ->
  Safety.has_upper (Py.encode c) = false.
Proof.
  intros H0 Hc Hmax. unfold Py.encode.
  destruct (Z.ltb_spec c 128).
  { cbn [Safety.has_upper]. rewrite orb_false_r.
    unfold Safety.is_upper. cbv zeta. rewrite nat_chr by lia.
    destruct (Nat.leb_spec 65 (Z.to_nat c));
      destruct (Nat.leb_spec (Z.to_nat c) 90); try reflexivity. lia. }
  destruct (Z.ltb_spec c 2048).
  { cbn [Safety.has_upper].
    assert (0 <= c / 64 < 32)%Z
      by (split; [apply Z.div_pos; lia|apply Z.div_lt_upper_bound; lia]).
    pose proof (Z.mod_pos_bound c 64 ltac:(lia)).
    rewrite !chr_not_upper by lia. reflexivity. }
  destruct (Z.ltb_spec c 65536).
  { cbn [Safety.has_upper].
    assert (0 <= c / 4096 < 16)%Z
      by (split; [apply Z.div_pos; lia|apply Z.div_lt_upper_bound; lia]).
    pose proof (Z.mod_pos_bound c 64 ltac:(lia)).
    pose proof (Z.mod_pos_bound (c / 64) 64 ltac:(lia)).
    rewrite !chr_not_upper by lia. reflexivity. }
  cbn [Safety.has_upper].
  assert (0 <= c / 262144 < 16)%Z
    by (split; [apply Z.div_pos; lia|apply Z.div_lt_upper_bound; lia]).
  pose proof (Z.mod_pos_bound c 64 ltac:(lia)).
  pose proof (Z.mod_pos_bound (c / 64) 64 ltac:(lia)).
  pose proof (Z.mod_pos_bound (c / 4096) 64 ltac:(lia)).
  rewrite !chr_not_upper by lia. reflexivity.
Qed.

Lemma lower_char_no_upper (c : Z) (raw : string) :
  (raw = EmptyString \/ (exists a, raw = String a EmptyString)
   \/ Safety.has_upper raw = false) ->
  Safety.has_upper (Py.lower_char c raw) = false.
Proof.
  intros Hraw. unfold Py.lower_char.
  assert (Htable :
    Safety.has_upper
      (if (c =? 304)%Z then (Py.encode 105 ++ Py.encode 775)%string
       else if (Py.lower_delta c Py.lower_runs =? 0)%Z then raw
            else Py.encode (c + Py.lower_delta c Py.lower_runs)) = false
    \/ exists a, raw = String a EmptyString).
  { destruct Hraw as [->|[[a ->]|Hraw]]; [| right; eauto |];
      left; (destruct (c =? 304)%Z; [reflexivity|]);
      (destruct (Z.eqb_spec (Py.lower_delta c Py.lower_runs) 0) as [E|N];
       [try reflexivity; try exact Hraw|]);
      pose proof (lower_delta_target c _ lower_runs_avoid_capitals N);
      apply encode_no_upper; lia. }
  destruct raw as [|a [|b more]].
  - destruct Htable as [H|[a H]]; [exact H|discriminate H].
  - cbn [Safety.has_upper]. rewrite lower_ascii_not_upper. reflexivity.
  - destruct Htable as [H|[a' H]]; [exact H|discriminate H].
Qed.

(** [str.lower()] yields no capital letter of ASCII. *)
Lemma lower_chars_no_upper (n : nat) :
  forall (s : string) (cased_behind : bool),
  (String.length s <= n)%nat ->
  Safety.has_upper (Py.lower_chars cased_behind (Py.decode s)) = false.
Proof.
  induction n as [|n IH]; intros s cased_behind Hlen.
  - destruct s; [reflexivity|cbn in Hlen; lia].
  - destruct s as [|c1 s1]; [reflexivity|].
    destruct (decode_cons c1 s1) as (c & raw & rest & -> & _ & Hrest & Hraw).
    cbn [Py.lower_chars]. rewrite has_upper_app.
    rewrite IH by (cbn in Hlen; lia). rewrite orb_false_r.
    destruct (c =? 931)%Z.
    + destruct (_ && _); reflexivity.
    + apply lower_char_no_upper.
      destruct Hraw as [[-> _]|(_ & Hhigh & _)]; [right; left; eauto|].
      right. right. apply high_bytes_no_upper, Hhigh.
Qed.

Lemma lower_has_no_upper (s : string) : Safety.has_upper (Py.lower s) = false.
Proof. apply (lower_chars_no_upper (String.length s)). apply Nat.le_refl. Qed.

(** ASCII text is lowered byte by byte. *)
Lemma lower_chars_ascii (c : ascii) (s : string) (cased_behind : bool) :
  (Py.byte c < 128)%Z ->
  exists cased_behind',
    Py.lower_chars cased_behind (Py.decode (String c s))
    = String (Py.lower_ascii c) (Py.lower_chars cased_behind' (Py.decode s)).
Proof.
  intros Hc. cbn [Py.decode]. cbv zeta.
  apply Z.ltb_lt in Hc as Hb. rewrite Hb. cbn [Py.lower_chars].
  assert (Hs : (Py.byte c =? 931)%Z = false)
    by (apply Z.eqb_neq; apply Z.ltb_lt in Hb; lia).
  rewrite Hs. cbn [Py.lower_char String.append]. eauto.
Qed.

Lemma hex_char_ascii (c : ascii) :
  Safety.is_hex_char c = true -> (Py.byte c < 128)%Z.
Proof. destruct c as [[] [] [] [] [] [] [] []]; (discriminate || reflexivity). Qed.

Lemma lower_ascii_hex (c : ascii) :
  Safety.is_hex_char c = true -> Safety.is_hex_char (Py.lower_ascii c) = true.
Proof. destruct c as [[] [] [] [] [] [] [] []]; (discriminate || reflexivity). Qed.

Lemma lower_hex (s : string) :
  Safety.hex_string s = true -> Safety.hex_string (Py.lower s) = true.
Proof.
  unfold Py.lower. generalize false.
  induction s as [|c s IH]; intros cased_behind; [reflexivity|].
  unfold Safety.hex_string. cbn [Safety.all_chars]. intros H.
  apply andb_true_iff in H as [Hc Hs].
  destruct (lower_chars_ascii c s cased_behind (hex_char_ascii c Hc))
    as [b' ->].
  cbn [Safety.all_chars].
  rewrite (lower_ascii_hex c Hc). apply (IH b' Hs).
Qed.



Lemma contains_cons (p : string) (c : ascii) (s : string) :
  Py.contains p s = true -> Py.contains p (String c s) = true.
Proof. intros H. cbn [Py.contains]. rewrite H. apply orb_true_r. Qed.





(** ** Escalation of the gas price *)




(** ** The gradual-sell schedule *)

(** C9. Enqueuing a total amount stores nothing.  The import of
    [add_to_sell_queue] at the head of the [try] block raises, the
    handler returns [False], and the store -- its sell queue in
    particular -- is as before: none of the five entries of the
    schedule (5%, 10%, 15%, 20% and 50% of the total, after 5, 15, 30,
    60 and 120 minutes) is created, for 1000 tokens as for any other
    amount. *)
Theorem C9_gradual_sell_queues_nothing
    (now : nat -> Z) (token_address token_symbol : string)
    (token_decimals : N) (total_amount : Q) (d : DB) :
  Sell.queue_token_for_gradual_selling now token_address token_symbol
    token_decimals total_amount d = (false, d) /\
  fst (Sell.queue_token_for_gradual_selling Scenario.clock Scenario.TOKEN
         "TKN" 18 1000 Database.empty) = false /\
  sell_queue (snd (Sell.queue_token_for_gradual_selling Scenario.clock
                     Scenario.TOKEN "TKN" 18 1000 Database.empty)) = [] /\
  List.map fst Sell.sell_schedule = [5; 10; 15; 20; 50]%Q /\
  List.map snd Sell.sell_schedule = [5; 15; 30; 60; 120]%Z.
Proof. repeat split. Qed.

(** ** Reduction of the sell amount across retries *)

(** C2. A sell of 1000 tokens whose three swaps all revert with a reason
    that mentions neither gas nor "exceed": the second retry (attempt
    index 2) submits 512 tokens, that is 1000 * 0.8 * 0.8^2, because the
    factor [0.8 ** attempt] is applied to the amount already reduced by
    the first retry; 1000 * 0.8^2 would be 640 tokens. *)
Theorem C2_second_retry_compounds_the_reduction :
  let run := Sell.execute_sell Config.default Scenario.TOKEN "TKN" 18
               None false 3
               (fun _ => Scenario.selling (Ok Scenario.reverted))
               Scenario.clock (Some 1000%Q) Database.empty in
  fst run = Ok (Sell.Failed
                  ["Unknown reason"; "Unknown reason"; "Unknown reason"]
                  Scenario.TOKEN "TKN") /\
  Py.any_mentions "gas" (Sell.failure_reasons (snd run)) = false /\
  Py.any_mentions "exceed" (Sell.failure_reasons (snd run)) = false /\
  Sell.submitted_amounts (Sell.calls (snd run))
  = [ 1000 * 10 ^ 18; 800 * 10 ^ 18; 512 * 10 ^ 18 ]%Z /\
  Py.int (1000 * 0.8 ^ 2 * Py.pow10 18) = (640 * 10 ^ 18)%Z.
Proof. vm_compute. repeat split; reflexivity. Qed.

(** ** Tiered profit taking and the position status *)

(** C1. A position of 1000 tokens bought for 1 BNB and now worth 2 BNB
    (100% profit): the tiered strategy sells 750 tokens, the sell
    succeeds, and [execute_sell], which received the position id, sets
    the position to ['sold'].  The 250 tokens left are no longer in the
    active portfolio. *)
Theorem C1_partial_sell_closes_the_position :
  let run := ProfitManagement.execute_take_profit_strategy Config.default
               Scenario.TOKEN "TKN" 18 (Some 1%Z)
               (Sell.w_getAmountsOut (Scenario.selling (Ok Scenario.succeeded)))
               (fun _ => Scenario.selling (Ok Scenario.succeeded))
               Scenario.clock 1000 1 Scenario.one_position in
  List.map fst (get_active_portfolio Scenario.one_position) = [1%Z] /\
  match fst (fst run) with
  | ProfitManagement.Success profit_percentage tokens_sold _ =>
      (profit_percentage == 100 /\ tokens_sold == 750)%Q
  | _ => False
  end /\
  Sell.submitted_amounts (snd run) = [(750 * 10 ^ 18)%Z] /\
  pf_status <$> portfolio (snd (fst run)) !! 1%Z = Some "sold" /\
  get_active_portfolio (snd (fst run)) = [].
Proof. vm_compute. repeat split; reflexivity. Qed.

(** [execute_sell] always returns: after the loop the hand-over to the
    gradual-sell queue stops at its import, which is caught. *)
Lemma exhausted_fails (token_address token_symbol : string)
    (token_decimals : N) (now : nat -> Z) (s : Sell.State) :
  Sell.exhausted token_address token_symbol token_decimals now s
  = (Ok (Sell.Failed (Sell.failure_reasons s) token_address token_symbol), s).
Proof. unfold Sell.exhausted. destruct (_ && _); reflexivity. Qed.

Lemma execute_sell_returns (cfg : Config.t)
    (token_address token_symbol : string) (token_decimals : N)
    (portfolio_id : option Z) (is_test : bool) (max_retries : nat)
    (world : nat -> Sell.AttemptWorld) (now : nat -> Z)
    (amount : option Q) (d : DB) :
  exists o,
    fst (Sell.execute_sell cfg token_address token_symbol token_decimals
           portfolio_id is_test max_retries world now amount d) = Ok o.
Proof.
  unfold Sell.execute_sell.
  destruct (Sell.attempts _ _ _ _ _ _ _ _ _ _ _) as [[o|] s].
  - exists o. reflexivity.
  - rewrite exhausted_fails. eexists. reflexivity.
Qed.

(** C5 as stated fails when the base target is above 50%: with a target
    of 60% and a position bought for 1 BNB that is valued at 1.55 BNB,
    the profit is 55% (55.00000000000001 in floats), below the target,
    and the strategy does not skip but sells half of the position. *)
Lemma C5_below_target_still_sells :
  let profit_percentage :=
    ProfitManagement.calculate_profit_percentage (Py.float 1.55) 1 in
  let run := ProfitManagement.execute_take_profit_strategy Scenario.target_60
               Scenario.TOKEN "TKN" 18 None
               (Scenario.valued_at 1550000000000000000)
               (fun _ => Scenario.selling (Ok Scenario.succeeded))
               Scenario.clock 1000 1 Database.empty in
  (55 <= profit_percentage)%Q /\
  (profit_percentage < 55.0000001)%Q /\
  (profit_percentage < Config.TAKE_PROFIT_PERCENTAGE Scenario.target_60)%Q /\
  match fst (fst run) with
  | ProfitManagement.Success p tokens_sold _ =>
      (p == profit_percentage /\ tokens_sold == 500)%Q
  | _ => False
  end /\
  Sell.submitted_amounts (snd run) = [(500 * 10 ^ 18)%Z].
Proof. vm_compute. repeat split; (reflexivity || discriminate). Qed.

(** C5 (amended). Once the position is valued, with [p] the profit
    percentage that [calculate_profit_percentage] computes in floats:
    [p >= 100] hands 75% of the held amount to [execute_sell] (three
    attempts, tied to the position, not a test); [50 <= p < 100] hands
    50%; [target <= p < 50] hands 25%; the strategy then reports
    success with [p], the amount handed over and the proceeds when the
    sell succeeds, and failure otherwise.  [p] below both the base
    target and 50 performs no sell and returns [skipped], leaving the
    store untouched. *)
Theorem C5_take_profit_tiers
    (cfg : Config.t) (token_address token_symbol : string)
    (token_decimals : N) (portfolio_id : option Z)
    (quote : Z -> nat -> Res Z) (world : nat -> Sell.AttemptWorld)
    (now : nat -> Z) (amount_tokens investment_amount : Q) (d : DB)
    (current_value : Q) :
  Sell.estimate_bnb_output quote amount_tokens token_decimals 3
  = Some current_value ->
  let p := ProfitManagement.calculate_profit_percentage
             current_value investment_amount in
  let run := ProfitManagement.execute_take_profit_strategy cfg
               token_address token_symbol token_decimals portfolio_id
               quote world now amount_tokens investment_amount d in
  let sold (share : Q) :=
    let sell_amount := Py.fmul amount_tokens share in
    let sell := Sell.execute_sell cfg token_address token_symbol
                  token_decimals portfolio_id false 3 world now
                  (Some sell_amount) d in
    (match fst sell with
     | Ok (Sell.Success _ _ bnb_received) =>
         ProfitManagement.Success p sell_amount bnb_received
     | _ => ProfitManagement.Failed "Sell execution failed"
     end, Sell.db (snd sell), Sell.calls (snd sell)) in
  ((100 <= p)%Q -> run = sold 0.75%Q) /\
  ((50 <= p)%Q -> (p < 100)%Q -> run = sold 0.5%Q) /\
  ((Config.TAKE_PROFIT_PERCENTAGE cfg <= p)%Q -> (p < 50)%Q ->
   run = sold 0.25%Q) /\
  ((p < Config.TAKE_PROFIT_PERCENTAGE cfg)%Q -> (p < 50)%Q ->
   run = (ProfitManagement.Skipped "Profit threshold not met", d, [])).
Proof.
  intros Hest p run sold. subst run.
  unfold ProfitManagement.execute_take_profit_strategy.
  rewrite Hest. fold p.
  assert (Hle : forall x y, (x < y)%Q -> Qle_bool y x = false).
  { intros x y Hlt. destruct (Qle_bool y x) eqn:E; [|reflexivity].
    apply Qle_bool_iff in E. exfalso. exact (Qlt_not_le _ _ Hlt E). }
  assert (Hsold : forall share,
            ProfitManagement.sell_share cfg token_address token_symbol
              token_decimals portfolio_id world now p
              (Py.fmul amount_tokens share) d = sold share).
  { intros share. subst sold. cbv beta zeta.
    unfold ProfitManagement.sell_share.
    destruct (execute_sell_returns cfg token_address token_symbol
                token_decimals portfolio_id false 3 world now
                (Some (Py.fmul amount_tokens share)) d) as [o Ho].
    destruct (Sell.execute_sell _ _ _ _ _ _ _ _ _ _ _) as [r s].
    cbn [fst snd] in *. subst r. destruct o; reflexivity. }
  repeat split.
  - intros H100. apply Qle_bool_iff in H100. rewrite H100. apply Hsold.
  - intros H50 H100. apply Qle_bool_iff in H50.
    rewrite (Hle _ _ H100), H50. apply Hsold.
  - intros Ht H50. apply Qle_bool_iff in Ht.
    assert (H100 : (p < 100)%Q).
    { eapply Qlt_trans; [exact H50|]. reflexivity. }
    rewrite (Hle _ _ H100), (Hle _ _ H50), Ht. apply Hsold.
  - intros Ht H50.
    assert (H100 : (p < 100)%Q).
    { eapply Qlt_trans; [exact H50|]. reflexivity. }
    rewrite (Hle _ _ H100), (Hle _ _ H50), (Hle _ _ Ht). reflexivity.
Qed.

Lemma C5_take_profit_tiers_witness :
  Sell.estimate_bnb_output (Scenario.valued_at 1220000000000000000)
    1000 18 3 = Some (Py.float (Sell.from_wei_ether 1220000000000000000)) /\
  Sell.submitted_amounts
    (snd (ProfitManagement.execute_take_profit_strategy Config.default
            Scenario.TOKEN "TKN" 18 None
            (Scenario.valued_at 1220000000000000000)
            (fun _ => Scenario.selling (Ok Scenario.succeeded))
            Scenario.clock 1000 1 Database.empty))
  = [(250 * 10 ^ 18)%Z].
Proof.
  split; [reflexivity|].
  rewrite (proj1 (proj2 (proj2
    (C5_take_profit_tiers Config.default Scenario.TOKEN "TKN" 18 None
       (Scenario.valued_at 1220000000000000000)
       (fun _ => Scenario.selling (Ok Scenario.succeeded))
       Scenario.clock 1000 1 Database.empty
       (Py.float (Sell.from_wei_ether 1220000000000000000)) eq_refl)))).
  - vm_compute. reflexivity.
  - vm_compute. discriminate.
  - vm_compute. reflexivity.
Defined.

(** The tiers are decided on the float.  A position bought for 1 BNB
    and valued at 1.2 BNB shows a profit of 19.999999999999996%, below
    the default target of 20: nothing is sold.  A valuation of
    1999999999999999999 wei is the float 2.0, a profit of 100%: three
    quarters are sold. *)
Example take_profit_is_decided_on_the_float :
  let strategy wei :=
    ProfitManagement.execute_take_profit_strategy Config.default
      Scenario.TOKEN "TKN" 18 None (Scenario.valued_at wei)
      (fun _ => Scenario.selling (Ok Scenario.succeeded))
      Scenario.clock 1000 1 Database.empty in
  (ProfitManagement.calculate_profit_percentage (Py.float 1.2) 1
   == 5629499534213119 # 281474976710656)%Q /\
  strategy 1200000000000000000%Z
  = (ProfitManagement.Skipped "Profit threshold not met",
     Database.empty, []) /\
  Sell.submitted_amounts (snd (strategy 1999999999999999999%Z))
  = [(750 * 10 ^ 18)%Z].
Proof. vm_compute. repeat split; reflexivity. Qed.

(** ** Screening *)

Lemma blacklisted_patterns_are_lowercase :
  Forall (fun pattern => Py.lower pattern = pattern) Config.BLACKLISTED_PATTERNS.
Proof. repeat (constructor; [vm_compute; reflexivity|]). constructor. Qed.

(** The [for] loop over the patterns stops at a matching pattern as soon
    as the list has one. *)
Lemma first_blacklisted_pattern_finds
    (patterns : list string) (name_lower symbol_lower pattern : string) :
  In pattern patterns ->
  Py.contains pattern name_lower || Py.contains pattern symbol_lower = true ->
  exists found,
    Analysis.first_blacklisted_pattern patterns name_lower symbol_lower
    = Some found /\
    In found patterns /\
    Py.contains found name_lower || Py.contains found symbol_lower = true.
Proof.
  induction patterns as [|q rest IH]; intros Hin Hmatch; [destruct Hin|].
  simpl.
  destruct (Py.contains q name_lower || Py.contains q symbol_lower) eqn:Hq.
  - exists q. repeat split; [left; reflexivity | exact Hq].
  - destruct Hin as [->|Hin]; [congruence|].
    destruct (IH Hin Hmatch) as (found & Hf & Hfin & Hfm).
    exists found. repeat split; [exact Hf | right; exact Hfin | exact Hfm].
Qed.

Section Fetch.

Variable w : Analysis.World.
Variable address : string.
Hypothesis Hsum : Analysis.w_to_checksum_address w address = Ok address.
Hypothesis Hnonempty : address <> EmptyString.
Hypothesis Hcontract : Analysis.w_token_contract w = true.

(** Iterations whose metadata reads raise are retried: the loop moves on
    to the first iteration that gets an answer. *)
Lemma fetch_loop_skips_raises (d : DB) (k attempt fuel : nat) :
  is_token_blacklisted address d = false ->
  (forall i, (i < k)%nat -> exists e, Analysis.w_metadata w (attempt + i) = Raise e) ->
  Analysis.fetch_loop w address attempt (k + fuel) d
  = Analysis.fetch_loop w address (attempt + k) fuel d.
Proof.
  intros Hbl. revert attempt.
  induction k as [|k IH]; intros attempt Hraise.
  - rewrite Nat.add_0_r. reflexivity.
  - cbn [Nat.add Analysis.fetch_loop]. rewrite Hsum.
    apply String.eqb_neq in Hnonempty. rewrite Hnonempty, Hbl, Hcontract.
    cbn [negb].
    destruct (Hraise 0%nat ltac:(lia)) as [e He].
    rewrite Nat.add_0_r in He. rewrite He.
    rewrite IH.
    + f_equal. lia.
    + intros i Hi. destruct (Hraise (S i) ltac:(lia)) as [e' He'].
      exists e'. rewrite <- He'. f_equal. lia.
Qed.

End Fetch.

(** A token that [fetch_token_data] returns was not blacklisted by it. *)
Lemma fetch_loop_some (w : Analysis.World) (fuel : nat) :
  forall (address : string) (attempt : nat) (d d1 : DB)
         (td : Analysis.TokenData) (log : list Analysis.LogLine),
  Analysis.fetch_loop w address attempt fuel d = (Some td, d1, log) ->
  d1 = d /\ log = [].
Proof.
  induction fuel as [|fuel IH]; intros address attempt d d1 td log H.
  - discriminate H.
  - cbn [Analysis.fetch_loop] in H.
    destruct (Analysis.w_to_checksum_address w address) as [a|e];
      [|exact (IH _ _ _ _ _ _ H)].
    destruct (String.eqb a EmptyString); [discriminate H|].
    destruct (is_token_blacklisted a d); [discriminate H|].
    destruct (negb (Analysis.w_token_contract w)); [discriminate H|].
    destruct (Analysis.w_metadata w attempt) as [md|e];
      [|exact (IH _ _ _ _ _ _ H)].
    destruct (Analysis.first_blacklisted_pattern _ _ _); [discriminate H|].
    injection H as _ <- <-. split; reflexivity.
Qed.

(** The same for the reads of the reserves. *)
Lemma liquidity_loop_skips_raises
    (cfg : Config.t) (WBNB_ADDRESS : string) (w : Analysis.World)
    (k attempt fuel : nat) :
  Analysis.w_pair_contract w = true ->
  (forall i, (i < k)%nat ->
             exists e, Analysis.w_reserves w (attempt + i) = Raise e) ->
  Analysis.liquidity_loop cfg WBNB_ADDRESS w attempt (k + fuel)
  = Analysis.liquidity_loop cfg WBNB_ADDRESS w (attempt + k) fuel.
Proof.
  intros Hpair. revert attempt.
  induction k as [|k IH]; intros attempt Hraise.
  - rewrite Nat.add_0_r. reflexivity.
  - cbn [Nat.add Analysis.liquidity_loop]. rewrite Hpair. cbn [negb].
    destruct (Hraise 0%nat ltac:(lia)) as [e He].
    rewrite Nat.add_0_r in He. rewrite He.
    rewrite IH.
    + f_equal. lia.
    + intros i Hi. destruct (Hraise (S i) ltac:(lia)) as [e' He'].
      exists e'. rewrite <- He'. f_equal. lia.
Qed.

(** C6. A token that is not yet blacklisted and whose metadata is fetched
    (at the first iteration [k] whose reads do not raise), with a name or
    symbol that contains a configured pattern case-insensitively: the
    screening returns [None], the log carries the lexical reason, and
    the token is blacklisted with the reason "Contains blacklisted
    pattern: p" for a configured pattern [p] found in the name or symbol.
    Nothing is assumed about the pair, the liquidity or the bytecode. *)
Theorem C6_lexical_match_blacklists
    (cfg : Config.t) (WBNB_ADDRESS : string) (w : Analysis.World)
    (token_address address : string) (d : DB)
    (k : nat) (md : Analysis.Metadata) (pattern : string) :
  Analysis.w_get_instance w = Ok tt ->
  Analysis.w_to_checksum_address w token_address = Ok address ->
  Analysis.w_to_checksum_address w address = Ok address ->
  address <> EmptyString ->
  is_token_blacklisted address d = false ->
  Analysis.w_token_contract w = true ->
  (k < 3)%nat ->
  (forall i, (i < k)%nat -> exists e, Analysis.w_metadata w i = Raise e) ->
  Analysis.w_metadata w k = Ok md ->
  In pattern Config.BLACKLISTED_PATTERNS ->
  Py.contains (Py.lower pattern) (Py.lower (Analysis.md_name md)) = true \/
  Py.contains (Py.lower pattern) (Py.lower (Analysis.md_symbol md)) = true ->
  exists found,
    In found Config.BLACKLISTED_PATTERNS /\
    (Py.contains found (Py.lower (Analysis.md_name md)) = true \/
     Py.contains found (Py.lower (Analysis.md_symbol md)) = true) /\
    let reason := "Contains blacklisted pattern: " ++ found in
    let run := Analysis.analyze_token cfg WBNB_ADDRESS w token_address d in
    run = (Ok None,
           add_to_blacklist address (Analysis.md_symbol md) reason d,
           [ Analysis.ContainsBlacklistedPattern (Analysis.md_symbol md) found;
             Analysis.FailedToFetchTokenData address ]) /\
    blacklisted_tokens (snd (fst run)) !! address
    = Some {| bl_token_symbol := Analysis.md_symbol md; bl_reason := reason |}.
Proof.
  intros Hinst Hsum Hidem Hne Hbl Hcontract Hk Hraise Hmd Hin Hmatch.
  assert (Hlow : Py.lower pattern = pattern).
  { pose proof blacklisted_patterns_are_lowercase as Hall.
    rewrite Forall_forall in Hall. apply Hall.
    apply list_elem_of_In. exact Hin. }
  rewrite Hlow in Hmatch.
  assert (Hor : Py.contains pattern (Py.lower (Analysis.md_name md))
                || Py.contains pattern (Py.lower (Analysis.md_symbol md)) = true).
  { apply orb_true_iff. exact Hmatch. }
  destruct (first_blacklisted_pattern_finds _ _ _ _ Hin Hor)
    as (found & Hfound & Hfin & Hfm).
  exists found. split; [exact Hfin|]. split; [apply orb_true_iff; exact Hfm|].
  cbv zeta.
  assert (Hrun : Analysis.analyze_token cfg WBNB_ADDRESS w token_address d
    = (Ok None,
       add_to_blacklist address (Analysis.md_symbol md)
         ("Contains blacklisted pattern: " ++ found) d,
       [ Analysis.ContainsBlacklistedPattern (Analysis.md_symbol md) found;
         Analysis.FailedToFetchTokenData address ])).
  { unfold Analysis.analyze_token. rewrite Hinst, Hsum.
    pose proof Hne as Hne'. apply String.eqb_neq in Hne'. rewrite Hne', Hbl.
    unfold Analysis.fetch_token_data.
    replace 3%nat with (k + S (2 - k))%nat by lia.
    rewrite (fetch_loop_skips_raises w address Hidem Hne Hcontract d k 0 _ Hbl Hraise).
    cbn [Nat.add Analysis.fetch_loop].
    rewrite Hidem, Hne', Hbl, Hcontract. cbn [negb]. rewrite Hmd, Hfound.
    reflexivity. }
  split; [exact Hrun|].
  rewrite Hrun. cbn [fst snd add_to_blacklist blacklisted_tokens].
  apply lookup_insert_eq.
Qed.

Lemma C6_lexical_match_blacklists_witness :
  is_token_blacklisted Scenario.TOKEN
    (snd (fst (Analysis.analyze_token Config.default Scenario.WBNB
                 (Scenario.listing "SafeMoon Inu" "SMI" (10 ^ 20))
                 Scenario.TOKEN Database.empty))) = true.
Proof.
  destruct (C6_lexical_match_blacklists Config.default Scenario.WBNB
              (Scenario.listing "SafeMoon Inu" "SMI" (10 ^ 20))
              Scenario.TOKEN Scenario.TOKEN Database.empty 0
              {| Analysis.md_name := "SafeMoon Inu";
                 Analysis.md_symbol := "SMI";
                 Analysis.md_decimals := 18;
                 Analysis.md_total_supply := 10 ^ 27 |}
              "safe")
    as (found & _ & _ & _ & Hentry).
  - reflexivity.
  - reflexivity.
  - reflexivity.
  - discriminate.
  - reflexivity.
  - reflexivity.
  - lia.
  - intros i Hi. lia.
  - reflexivity.
  - simpl. tauto.
  - left. reflexivity.
  - unfold is_token_blacklisted. cbv zeta in Hentry. rewrite Hentry.
    reflexivity.
Defined.

(** The comparison is the one of [str.lower()]: the Kelvin sign U+212A
    lowers to [k], so a token named "FAKE moon" with that sign for its
    third letter is blacklisted for the pattern "fake", which stands
    before "moon" in the configured list. *)
Example lexical_match_through_the_kelvin_sign :
  let name := "FA" ++ Py.encode 8490 ++ "E moon" in
  let run := Analysis.analyze_token Config.default Scenario.WBNB
               (Scenario.listing name "FKM" (10 ^ 20))
               Scenario.TOKEN Database.empty in
  Py.lower name = "fake moon" /\
  fst (fst run) = Ok None /\
  blacklisted_tokens (snd (fst run)) !! Scenario.TOKEN
  = Some {| bl_token_symbol := "FKM";
            bl_reason := "Contains blacklisted pattern: fake" |}.
Proof. vm_compute. repeat split; reflexivity. Qed.

(** C7 as stated fails for a candidate that does not reach the liquidity
    stage: "SafeMoon" with 1 BNB in its pool (below the minimum of 5) is
    rejected by the lexical stage, which blacklists it. *)
Lemma C7_low_liquidity_token_blacklisted :
  let w := Scenario.listing "SafeMoon" "SAFEMOON" (10 ^ 18) in
  let run := Analysis.analyze_token Config.default Scenario.WBNB w
               Scenario.TOKEN Database.empty in
  Analysis.check_token_liquidity Config.default Scenario.WBNB w 3
  = (None, [Analysis.InsufficientLiquidityBelowMinimum
              (Sell.from_wei_ether (10 ^ 18)) 5]) /\
  (Sell.from_wei_ether (10 ^ 18) < Config.MIN_LIQUIDITY Config.default)%Q /\
  fst (fst run) = Ok None /\
  snd run = [ Analysis.ContainsBlacklistedPattern "SAFEMOON" "moon";
              Analysis.FailedToFetchTokenData Scenario.TOKEN ] /\
  is_token_blacklisted Scenario.TOKEN Database.empty = false /\
  is_token_blacklisted Scenario.TOKEN (snd (fst run)) = true.
Proof. vm_compute. repeat split; reflexivity. Qed.

(** C7 (amended). A candidate that reaches the liquidity stage (it is
    not blacklisted, [fetch_token_data] returns its data, a pair exists)
    and whose pooled BNB, read at the first iteration [k] that gets the
    reserves, is strictly below the configured minimum: the screening
    returns [None] with the liquidity reason in the log and leaves the
    store, hence the blacklist, as it was. *)
Theorem C7_low_liquidity_rejects_without_blacklisting
    (cfg : Config.t) (WBNB_ADDRESS : string) (w : Analysis.World)
    (token_address address : string) (d d1 : DB)
    (token_data : Analysis.TokenData) (log : list Analysis.LogLine)
    (pair_address : string) (k : nat) (reserve0 reserve1 : Z)
    (token0 : string) :
  Analysis.w_get_instance w = Ok tt ->
  Analysis.w_to_checksum_address w token_address = Ok address ->
  address <> EmptyString ->
  is_token_blacklisted address d = false ->
  Analysis.fetch_token_data w address 3 d = (Some token_data, d1, log) ->
  Analysis.get_pair_address w 3 = Some pair_address ->
  pair_address <> EmptyString ->
  Analysis.w_pair_contract w = true ->
  (k < 3)%nat ->
  (forall i, (i < k)%nat -> exists e, Analysis.w_reserves w i = Raise e) ->
  Analysis.w_reserves w k = Ok (reserve0, reserve1, token0) ->
  let bnb_liquidity :=
    Sell.from_wei_ether
      (if String.eqb (Py.lower token0) (Py.lower WBNB_ADDRESS)
       then reserve0 else reserve1) in
  (bnb_liquidity < Config.MIN_LIQUIDITY cfg)%Q ->
  let run := Analysis.analyze_token cfg WBNB_ADDRESS w token_address d in
  run = (Ok None, d,
         [ Analysis.InsufficientLiquidityBelowMinimum bnb_liquidity
             (Config.MIN_LIQUIDITY cfg);
           Analysis.InsufficientLiquidityFor (Analysis.td_symbol token_data) ])
  /\ blacklisted_tokens (snd (fst run)) = blacklisted_tokens d
  /\ is_token_blacklisted address (snd (fst run)) = false.
Proof.
  intros Hinst Hsum Hne Hbl Hfetch Hpair Hpne Hpc Hk Hraise Hres liq Hlow run.
  assert (Hrun : run = (Ok None, d,
         [ Analysis.InsufficientLiquidityBelowMinimum liq
             (Config.MIN_LIQUIDITY cfg);
           Analysis.InsufficientLiquidityFor (Analysis.td_symbol token_data) ])).
  { subst run. unfold Analysis.analyze_token. rewrite Hinst, Hsum.
    apply String.eqb_neq in Hne. rewrite Hne, Hbl, Hfetch.
    destruct (fetch_loop_some _ _ _ _ _ _ _ _ Hfetch) as [-> ->].
    rewrite Hpair. apply String.eqb_neq in Hpne. rewrite Hpne.
    unfold Analysis.check_token_liquidity.
    replace 3%nat with (k + S (2 - k))%nat by lia.
    rewrite (liquidity_loop_skips_raises cfg WBNB_ADDRESS w k 0 _ Hpc Hraise).
    cbn [Nat.add Analysis.liquidity_loop]. rewrite Hpc. cbn [negb].
    rewrite Hres. fold liq.
    assert (Hb : Qle_bool (Config.MIN_LIQUIDITY cfg) liq = false).
    { destruct (Qle_bool (Config.MIN_LIQUIDITY cfg) liq) eqn:E; [|reflexivity].
      apply Qle_bool_iff in E. exfalso. exact (Qlt_not_le _ _ Hlow E). }
    rewrite Hb. reflexivity. }
  rewrite Hrun. repeat split. exact Hbl.
Qed.

Lemma C7_low_liquidity_rejects_without_blacklisting_witness :
  Analysis.analyze_token Config.default Scenario.WBNB
    (Scenario.listing "Plain Token" "PLN" (10 ^ 18))
    Scenario.TOKEN Database.empty
  = (Ok None, Database.empty,
     [ Analysis.InsufficientLiquidityBelowMinimum
         (Sell.from_wei_ether (10 ^ 18)) 5;
       Analysis.InsufficientLiquidityFor "PLN" ]).
Proof.
  refine (proj1 (C7_low_liquidity_rejects_without_blacklisting
    Config.default Scenario.WBNB
    (Scenario.listing "Plain Token" "PLN" (10 ^ 18))
    Scenario.TOKEN Scenario.TOKEN Database.empty Database.empty
    {| Analysis.td_name := "Plain Token";
       Analysis.td_symbol := "PLN";
       Analysis.td_decimals := 18;
       Analysis.td_total_supply := 10 ^ 27;
       Analysis.td_address := Scenario.TOKEN |}
    [] Scenario.PAIR 0 (10 ^ 18) (10 ^ 24) Scenario.WBNB
    _ _ _ _ _ _ _ _ _ _ _ _)).
  - reflexivity.
  - reflexivity.
  - discriminate.
  - reflexivity.
  - reflexivity.
  - reflexivity.
  - discriminate.
  - reflexivity.
  - lia.
  - intros i Hi. lia.
  - reflexivity.
  - vm_compute. reflexivity.
Defined.

(** ** The retry loop of [execute_sell] *)

(** Case analysis over one iteration: unfold the monadic code, split on
    the innermost undetermined answer of the chain, repeat. *)
Ltac sell_simpl :=
  cbv beta iota zeta delta
      [ Sell.run_attempt Sell.try_block Sell.prepare_amount
        Sell.approve_if_needed Sell.estimation_failed Sell.submit
        Sell.except_clause Sell.bind Sell.ret Sell.throw Sell.return_
        Sell.ask Sell.call Sell.append_reason Sell.set_amount_tokens
        Sell.update_db Sell.get_failure_reasons Sell.get_amount_tokens
        Sell.failure_reasons Sell.amount_tokens Sell.db Sell.calls
        fst snd negb ].

Ltac sell_case :=
  match goal with
  | |- context [match ?x with _ => _ end] =>
      lazymatch x with
      | context [match _ with _ => _ end] => fail
      | _ => destruct x eqn:?
      end
  end.

Ltac sell_cases := sell_simpl; repeat (sell_case; sell_simpl).

Section SellProofs.

Variable cfg : Config.t.
Variables (token_address token_symbol : string) (token_decimals : N).
Variable portfolio_id : option Z.
Variable is_test : bool.
Variable max_retries : nat.

Local Abbreviation run_attempt :=
  (Sell.run_attempt cfg token_address token_symbol token_decimals
     portfolio_id is_test).
Local Abbreviation attempts :=
  (Sell.attempts cfg token_address token_symbol token_decimals
     portfolio_id is_test max_retries).
Local Abbreviation backoff := (Sell.backoff max_retries).
Local Abbreviation exhausted := (Sell.exhausted token_address token_symbol token_decimals).
Local Abbreviation execute_sell :=
  (Sell.execute_sell cfg token_address token_symbol token_decimals
     portfolio_id is_test max_retries).

(** One iteration only appends to the failure history and to the calls;
    an iteration that does not return appends at least one reason; a
    known amount stays known. *)
Lemma run_attempt_grows (attempt : nat) (w : Sell.AttemptWorld)
    (s : Sell.State) :
  let r := Sell.run_attempt cfg token_address token_symbol token_decimals
    portfolio_id is_test attempt w s in
  exists rs cs,
    Sell.failure_reasons (snd r) = (Sell.failure_reasons s ++ rs)%list /\
    Sell.calls (snd r) = (Sell.calls s ++ cs)%list /\
    (fst r = None -> rs <> []) /\
    (Sell.amount_tokens s <> None -> Sell.amount_tokens (snd r) <> None).
Proof.
  destruct s as [reasons amount d cs0].
  sell_cases.
  all: repeat rewrite <- app_assoc; cbn [app].
  all: eexists; eexists;
    (split; [first [reflexivity | symmetry; apply app_nil_r]|]);
    (split; [first [reflexivity | symmetry; apply app_nil_r]|]);
    split; congruence.
Qed.

(** A zero estimate is falsy. *)
Lemma truthy_zero (q : Q) : (q == 0)%Q -> Py.truthy q = false.
Proof.
  intros H. unfold Py.truthy. apply Qeq_bool_iff in H. rewrite H. reflexivity.
Qed.

Ltac tail_of H :=
  repeat rewrite <- app_assoc in H; cbn [app] in H;
  first [ apply app_inv_head in H
        | rewrite <- (app_nil_r _) in H at 1; apply app_inv_head in H ].

(** An iteration that asks for an estimate and gets none, or zero,
    returns at once. *)
Lemma run_attempt_estimate (attempt : nat) (w : Sell.AttemptWorld)
    (s : Sell.State) (cs : list Sell.Call) (a : Q) (est : option Q) :
  let r := Sell.run_attempt cfg token_address token_symbol token_decimals
    portfolio_id is_test attempt w s in
  Sell.calls (snd r) = (Sell.calls s ++ cs)%list ->
  In (Sell.CallEstimate a) cs ->
  Sell.estimate_bnb_output (Sell.w_getAmountsOut w) a token_decimals 3 = est ->
  match est with
  | None => True
  | Some estimated_bnb => (estimated_bnb == 0)%Q
  end ->
  fst r = Some (Sell.FailedReason "Failed to estimate BNB output") /\
  Sell.failure_reasons (snd r)
  = (Sell.failure_reasons s ++ ["ESTIMATION_FAILED"])%list /\
  (exists before, cs = (before ++ [Sell.CallEstimate a])%list) /\
  Sell.db (snd r) = Sell.db s.
Proof.
  destruct s as [reasons amount d cs0].
  sell_cases.
  all: intros Hcalls Hin Hest Hzero; tail_of Hcalls; subst cs.
  all: cbn [In] in Hin;
    repeat match goal with
           | H : _ \/ _ |- _ => destruct H as [H|H]
           end;
    try discriminate Hin; try contradiction.
  all: injection Hin as Hin; subst a.
  all: try (rewrite Hest in *; subst est).
  all: try match goal with
           | H : None = Some _ |- _ => discriminate H
           | H : Some _ = None |- _ => discriminate H
           | H1 : Some ?x = Some ?y, H2 : Py.truthy ?y = true |- _ =>
               injection H1 as H1; subst;
               rewrite (truthy_zero _ Hzero) in H2; discriminate H2
           end.
  all: (split; [reflexivity|]); (split; [reflexivity|]);
    (split; [|reflexivity]).
  all: first [ exists []; reflexivity
             | eexists [_]; reflexivity
             | eexists [_; _]; reflexivity
             | eexists [_; _; _]; reflexivity
             | eexists [_; _; _; _]; reflexivity ].
Qed.


(** The backoff between two iterations only sleeps. *)
Lemma backoff_keeps (attempt : nat) (s : Sell.State) :
  Sell.failure_reasons (backoff attempt s) = Sell.failure_reasons s /\
  Sell.amount_tokens (backoff attempt s) = Sell.amount_tokens s /\
  Sell.db (backoff attempt s) = Sell.db s.
Proof.
  unfold Sell.backoff. destruct (_ <? _)%Z; repeat split; reflexivity.
Qed.

(** The loop can be cut after [n] iterations. *)
Lemma attempts_app (world : nat -> Sell.AttemptWorld) (n m : nat) :
  forall (attempt : nat) (s : Sell.State),
  attempts world attempt (n + m) s
  = match attempts world attempt n s with
    | (Some o, s') => (Some o, s')
    | (None, s') => attempts world (attempt + n) m s'
    end.
Proof.
  induction n as [|n IH]; intros attempt s.
  - cbn [Nat.add Sell.attempts]. rewrite Nat.add_0_r. reflexivity.
  - cbn [Nat.add Sell.attempts].
    destruct (run_attempt attempt (world attempt) s) as [[o|] s'];
      [reflexivity|].
    rewrite IH. replace (S attempt + n)%nat with (attempt + S n)%nat by lia.
    reflexivity.
Qed.

(** A loop that runs out of iterations has appended at least one
    reason per iteration. *)
Lemma attempts_exhausted_grows (world : nat -> Sell.AttemptWorld) (fuel : nat) :
  forall (attempt : nat) (s s' : Sell.State),
  attempts world attempt fuel s = (None, s') ->
  (exists rs, Sell.failure_reasons s' = (Sell.failure_reasons s ++ rs)%list /\
              (fuel <= length rs)%nat) /\
  (Sell.amount_tokens s <> None -> Sell.amount_tokens s' <> None).
Proof.
  induction fuel as [|fuel IH]; intros attempt s s' H.
  - cbn [Sell.attempts] in H. injection H as <-.
    split; [exists []; rewrite app_nil_r; split; [reflexivity|apply Nat.le_refl]|auto].
  - cbn [Sell.attempts] in H.
    pose proof (run_attempt_grows attempt (world attempt) s) as Hstep.
    cbv zeta in Hstep.
    destruct (run_attempt attempt (world attempt) s) as [[o|] s1];
      [discriminate H|].
    cbn [fst snd] in Hstep.
    destruct Hstep as (rs1 & cs1 & Hr1 & _ & Hne & Hamt).
    destruct (IH _ _ _ H) as [(rs2 & Hr2 & Hlen) Hamt2].
    destruct (backoff_keeps attempt s1) as (Hbr & Hba & _).
    rewrite Hbr in Hr2. rewrite Hba in Hamt2.
    split.
    + exists (rs1 ++ rs2)%list. rewrite Hr2, Hr1, app_assoc.
      split; [reflexivity|].
      rewrite length_app. specialize (Hne eq_refl).
      destruct rs1; [contradiction|]. cbn [length]. lia.
    + intros Hknown. apply Hamt2, Hamt, Hknown.
Qed.



(** C10. Suppose the first [k] iterations failed and iteration [k]
    (below the ceiling) asks for the estimate of amount [a].  When the
    estimate is zero -- or is missing: both take the same branch -- the
    call returns the failed outcome "Failed to estimate BNB output" with
    the state of that iteration: "ESTIMATION_FAILED" is the last reason
    recorded, the estimate is the last call made (no swap, no backoff,
    no further iteration), and the store is untouched. *)
Theorem C10_zero_estimate_fails_without_retry
    (world : nat -> Sell.AttemptWorld) (now : nat -> Z)
    (amount : option Q) (d : DB) (k : nat) (sk : Sell.State)
    (cs : list Sell.Call) (a : Q) (est : option Q) :
  (k < max_retries)%nat ->
  attempts world 0 k
    {| Sell.failure_reasons := []; Sell.amount_tokens := amount;
       Sell.db := d; Sell.calls := [] |} = (None, sk) ->
  let r := run_attempt k (world k) sk in
  Sell.calls (snd r) = (Sell.calls sk ++ cs)%list ->
  In (Sell.CallEstimate a) cs ->
  Sell.estimate_bnb_output (Sell.w_getAmountsOut (world k)) a token_decimals 3
  = est ->
  match est with
  | None => True
  | Some estimated_bnb => (estimated_bnb == 0)%Q
  end ->
  execute_sell world now amount d
  = (Ok (Sell.FailedReason "Failed to estimate BNB output"), snd r) /\
  Sell.failure_reasons (snd r)
  = (Sell.failure_reasons sk ++ ["ESTIMATION_FAILED"])%list /\
  (exists before,
     Sell.calls (snd r)
     = (Sell.calls sk ++ before ++ [Sell.CallEstimate a])%list) /\
  Sell.db (snd r) = Sell.db sk.
Proof.
  intros Hk Hprefix r Hcalls Hin Hest Hzero.
  destruct (run_attempt_estimate k (world k) sk cs a est Hcalls Hin Hest Hzero)
    as (Hout & Hreasons & (before & ->) & Hdb).
  fold r in Hout, Hreasons, Hdb.
  split; [|split; [exact Hreasons|split; [exists before; exact Hcalls|exact Hdb]]].
  unfold Sell.execute_sell.
  match goal with
  | |- context [attempts world 0 max_retries ?s0] =>
      replace (attempts world 0 max_retries s0)
        with (attempts world 0 (k + S (max_retries - S k)) s0)
        by (f_equal; lia)
  end.
  rewrite attempts_app, Hprefix. cbn [Nat.add Sell.attempts].
  fold r. destruct r as [o s']. cbn [fst snd] in *. subst o. reflexivity.
Qed.
End SellProofs.

(** C4 (amended). When every iteration of [execute_sell] has failed
    (the loop ends without a [return]), the call returns the failed
    outcome carrying the accumulated failure reasons, at least one per
    iteration.  When every iteration of [execute_buy] ends in one of
    its [except] clauses, the call returns [None]: no outcome and no
    reason list. *)
Theorem C4_exhausted_retries :
  (forall (cfg : Config.t) (token_address token_symbol : string)
          (token_decimals : N) (portfolio_id : option Z) (is_test : bool)
          (max_retries : nat) (world : nat -> Sell.AttemptWorld)
          (now : nat -> Z) (amount : option Q) (d : DB) (s : Sell.State),
     Sell.attempts cfg token_address token_symbol token_decimals
       portfolio_id is_test max_retries world 0 max_retries
       {| Sell.failure_reasons := []; Sell.amount_tokens := amount;
          Sell.db := d; Sell.calls := [] |} = (None, s) ->
     fst (Sell.execute_sell cfg token_address token_symbol token_decimals
            portfolio_id is_test max_retries world now amount d)
     = Ok (Sell.Failed (Sell.failure_reasons s) token_address token_symbol) /\
     (max_retries <= length (Sell.failure_reasons s))%nat) /\
  (forall (cfg : Config.t) (token_address : string) (bnb_amount : Q)
          (is_test : bool) (max_retries : nat)
          (world : nat -> Buy.AttemptWorld) (d : DB),
     (forall i d0, (i < max_retries)%nat ->
        exists e d1,
          Buy.try_block cfg token_address bnb_amount is_test (world i) d0
          = Buy.Caught e d1) ->
     fst (Buy.execute_buy cfg token_address bnb_amount is_test max_retries
            world d) = Buy.NoResult).
Proof.
  split.
  - intros cfg token_address token_symbol token_decimals portfolio_id
      is_test max_retries world now amount d s Hloop.
    unfold Sell.execute_sell. rewrite Hloop, exhausted_fails.
    split; [reflexivity|].
    destruct (attempts_exhausted_grows cfg token_address token_symbol
                token_decimals portfolio_id is_test max_retries world
                max_retries _ _ _ Hloop) as [(rs & Hrs & Hlen) _].
    rewrite Hrs. cbn [Sell.failure_reasons app]. exact Hlen.
  - intros cfg token_address bnb_amount is_test max_retries world d Hall.
    unfold Buy.execute_buy.
    assert (Hloop : forall fuel attempt d0,
              (attempt + fuel <= max_retries)%nat ->
              fst (Buy.attempts cfg token_address bnb_amount is_test world
                     attempt fuel d0) = None).
    { induction fuel as [|fuel IH]; intros attempt d0 Hle; [reflexivity|].
      cbn [Buy.attempts].
      destruct (Hall attempt d0 ltac:(lia)) as (e & d1 & ->).
      apply IH. lia. }
    specialize (Hloop max_retries 0%nat d (Nat.le_refl _)).
    destruct (Buy.attempts _ _ _ _ _ _ _ _) as [[o|] d']; [discriminate Hloop|].
    reflexivity.
Qed.

(** A sell that never learns the amount: the balance cannot be read in
    any of the three iterations, none was given, and the reasons
    recorded allow the hand-over to the gradual-sell queue.  The call
    still returns the failed outcome with its reasons. *)
Lemma C4_exhausted_retries_witness :
  fst (Sell.execute_sell Config.default Scenario.TOKEN "TKN" 18 None false 3
         (fun _ => Cases.unreadable) Scenario.clock None Database.empty)
  = Ok (Sell.Failed
          [ "execution reverted"; "EXECUTION_REVERTED";
            "execution reverted"; "EXECUTION_REVERTED";
            "execution reverted"; "EXECUTION_REVERTED" ]
          Scenario.TOKEN "TKN") /\
  fst (Buy.execute_buy Config.default Scenario.TOKEN 0.05 false 3
         (fun _ => Scenario.buying (Raise Scenario.timed_out))
         Database.empty) = Buy.NoResult.
Proof.
  destruct C4_exhausted_retries as [Hsell Hbuy]. split.
  - refine (eq_trans
      (proj1 (Hsell Config.default Scenario.TOKEN "TKN" 18%N None false 3%nat
                (fun _ => Cases.unreadable)
                Scenario.clock None Database.empty
                (snd (Sell.attempts Config.default Scenario.TOKEN "TKN" 18
                        None false 3
                        (fun _ => Cases.unreadable)
                        0 3
                        {| Sell.failure_reasons := [];
                           Sell.amount_tokens := None;
                           Sell.db := Database.empty;
                           Sell.calls := [] |}))
                _)) _).
    + vm_compute. reflexivity.
    + vm_compute. reflexivity.
  - apply Hbuy. intros i d0 _. exists Scenario.timed_out, d0.
    vm_compute. reflexivity.
Defined.

(** C4 as stated fails for [execute_buy]: when all three broadcasts time
    out the function returns [None], not a failed outcome with reasons. *)
Lemma C4_buy_exhaustion_returns_none :
  let run := Buy.execute_buy Config.default Scenario.TOKEN 0.05 false 3
               (fun _ => Scenario.buying (Raise Scenario.timed_out))
               Database.empty in
  fst run = Buy.NoResult /\
  Buy.status (fst run) = None /\
  Buy.status (fst run) <> Some "failed".
Proof. vm_compute. repeat split. discriminate. Qed.



Lemma C10_zero_estimate_fails_without_retry_witness :
  fst (Sell.execute_sell Config.default Scenario.TOKEN "TKN" 18 None false 3
         (fun _ => Scenario.worthless) Scenario.clock (Some 1000%Q)
         Database.empty)
  = Ok (Sell.FailedReason "Failed to estimate BNB output").
Proof.
  destruct (C10_zero_estimate_fails_without_retry
              Config.default Scenario.TOKEN "TKN" 18 None false 3
              (fun _ => Scenario.worthless) Scenario.clock (Some 1000%Q)
              Database.empty 0
              {| Sell.failure_reasons := [];
                 Sell.amount_tokens := Some 1000%Q;
                 Sell.db := Database.empty;
                 Sell.calls := [] |}
              [ Sell.CallGetTokenContract; Sell.CallAllowance;
                Sell.CallEstimate 1000 ]
              1000 (Some (Py.float (Sell.from_wei_ether 0))))
    as (Hrun & _).
  - lia.
  - reflexivity.
  - vm_compute. reflexivity.
  - right. right. left. reflexivity.
  - vm_compute. reflexivity.
  - vm_compute. reflexivity.
  - rewrite Hrun. reflexivity.
Defined.

(* ===================================================================== *)
(** * Further properties *)
(* ===================================================================== *)

(** ** Comparisons on rationals *)

Lemma Qle_bool_false (x y : Q) : Qle_bool x y = false <-> (y < x)%Q.
Proof.
  split; intros H.
  - apply Qnot_le_lt. intros Hle. apply Qle_bool_iff in Hle. congruence.
  - destruct (Qle_bool x y) eqn:E; [|reflexivity].
    apply Qle_bool_iff in E. exfalso. exact (Qlt_not_le _ _ H E).
Qed.

Lemma Qeq_bool_false (x y : Q) : Qeq_bool x y = false <-> ~ (x == y)%Q.
Proof.
  split; intros H.
  - intros E. apply Qeq_bool_iff in E. congruence.
  - destruct (Qeq_bool x y) eqn:E; [|reflexivity].
    apply Qeq_bool_iff in E. contradiction.
Qed.

Lemma truthy_nonzero (q : Q) : Py.truthy q = true -> ~ (q == 0)%Q.
Proof.
  unfold Py.truthy. intros H. apply Qeq_bool_false.
  destruct (Qeq_bool q 0); [discriminate H|reflexivity].
Qed.

(** * Floats *)

(** ** Powers of two *)

Lemma pow2_pos (k : Z) : (0 < 2 ^ k)%Q.
Proof. apply Qpower_0_lt. reflexivity. Qed.

Lemma pow2_le (a b : Z) : (a <= b)%Z -> (2 ^ a <= 2 ^ b)%Q.
Proof. intros H. apply Qpower_le_compat_l; [exact H|discriminate]. Qed.

Lemma pow2_lt (a b : Z) : (a < b)%Z -> (2 ^ a < 2 ^ b)%Q.
Proof. intros H. apply Qpower_lt_compat_l; [exact H|reflexivity]. Qed.

Lemma pow2_add (a b : Z) : (2 ^ (a + b) == 2 ^ a * 2 ^ b)%Q.
Proof. apply Qpower_plus. discriminate. Qed.

Lemma pow2_sub (a b : Z) : (2 ^ (a - b) == 2 ^ a / 2 ^ b)%Q.
Proof. apply Qpower_minus. discriminate. Qed.

Lemma pow2_Z (n : Z) : (0 <= n)%Z -> (inject_Z (2 ^ n) == 2 ^ n)%Q.
Proof. intros H. apply (Zpower_Qpower 2 n H). Qed.

(** Division by a positive number, as a multiplication. *)
Lemma Qdiv_le_iff (x y z : Q) : (0 < z)%Q -> (x / z <= y <-> x <= y * z)%Q.
Proof.
  intros Hz. split; intros H.
  - apply (Qmult_le_r _ _ (/ z)); [apply Qinv_lt_0_compat, Hz|].
    rewrite <- Qmult_assoc, Qmult_inv_r, Qmult_1_r; [exact H|lra].
  - apply (Qmult_le_r _ _ (/ z)) in H; [|apply Qinv_lt_0_compat, Hz].
    rewrite <- (Qmult_assoc y), Qmult_inv_r, Qmult_1_r in H; [exact H|lra].
Qed.

Lemma Qdiv_ge_iff (x y z : Q) : (0 < z)%Q -> (y <= x / z <-> y * z <= x)%Q.
Proof.
  intros Hz. split; intros H.
  - apply (Qmult_le_r _ _ (/ z)); [apply Qinv_lt_0_compat, Hz|].
    rewrite <- Qmult_assoc, Qmult_inv_r, Qmult_1_r; [exact H|lra].
  - apply (Qmult_le_r _ _ (/ z)) in H; [|apply Qinv_lt_0_compat, Hz].
    rewrite <- (Qmult_assoc y), Qmult_inv_r, Qmult_1_r in H; [exact H|lra].
Qed.

Lemma Qdiv_lt_iff (x y z : Q) : (0 < z)%Q -> (x / z < y <-> x < y * z)%Q.
Proof.
  intros Hz. split; intros H.
  - apply Qnot_le_lt. intros C. apply Qdiv_ge_iff in C; [lra|exact Hz].
  - apply Qnot_le_lt. intros C. apply Qdiv_ge_iff in C; [lra|exact Hz].
Qed.

Lemma Qdiv_gt_iff (x y z : Q) : (0 < z)%Q -> (y < x / z <-> y * z < x)%Q.
Proof.
  intros Hz. split; intros H.
  - apply Qnot_le_lt. intros C. apply Qdiv_le_iff in C; [lra|exact Hz].
  - apply Qnot_le_lt. intros C. apply Qdiv_le_iff in C; [lra|exact Hz].
Qed.

(** ** The binary exponent *)

Lemma ilog2_spec (x : Q) :
  (0 < x)%Q -> (2 ^ Py.ilog2 x <= x)%Q /\ (x < 2 ^ (Py.ilog2 x + 1))%Q.
Proof.
  intros Hx. unfold Py.ilog2.
  destruct x as [n d]. cbn [Qnum Qden].
  assert (Hn : (0 < n)%Z) by (unfold Qlt in Hx; simpl in Hx; lia).
  set (a := Z.log2 n). set (b := Z.log2 (Z.pos d)).
  destruct (Z.log2_spec n Hn) as [Ha1 Ha2]. fold a in Ha1, Ha2.
  destruct (Z.log2_spec (Z.pos d) (Pos2Z.is_pos d)) as [Hb1 Hb2].
  fold b in Hb1, Hb2.
  assert (Ha0 : (0 <= a)%Z) by apply Z.log2_nonneg.
  assert (Hb0 : (0 <= b)%Z) by apply Z.log2_nonneg.
  assert (Hlow : (2 ^ (a - b - 1) < n # d)%Q).
  { replace (a - b - 1)%Z with (a - (b + 1))%Z by lia.
    rewrite pow2_sub. apply Qdiv_lt_iff; [apply pow2_pos|].
    rewrite <- !pow2_Z by lia.
    unfold Qlt, Qmult, inject_Z. simpl. rewrite !Z.mul_1_r.
    replace (Z.succ b) with (b + 1)%Z in Hb2 by lia.
    nia. }
  assert (Hhigh : (n # d < 2 ^ (a - b + 1))%Q).
  { replace (a - b + 1)%Z with (a + 1 - b)%Z by lia.
    rewrite pow2_sub. apply Qdiv_gt_iff; [apply pow2_pos|].
    rewrite <- !pow2_Z by lia.
    unfold Qlt, Qmult, inject_Z. simpl. rewrite !Z.mul_1_r.
    replace (Z.succ a) with (a + 1)%Z in Ha2 by lia.
    nia. }
  destruct (Qle_bool (2 ^ (a - b)) (n # d)) eqn:E.
  - apply Qle_bool_iff in E. split; [exact E|exact Hhigh].
  - split; [apply Qlt_le_weak, Hlow|].
    replace (a - b - 1 + 1)%Z with (a - b)%Z by lia.
    apply Qnot_le_lt. intros C. apply Qle_bool_iff in C. congruence.
Qed.

Lemma ilog2_unique (x : Q) (e : Z) :
  (2 ^ e <= x)%Q -> (x < 2 ^ (e + 1))%Q -> Py.ilog2 x = e.
Proof.
  intros H1 H2.
  assert (Hx : (0 < x)%Q) by (pose proof (pow2_pos e); lra).
  destruct (ilog2_spec x Hx) as [H3 H4].
  assert (Py.ilog2 x < e + 1)%Z.
  { apply (Qpower_lt_compat_l_inv 2); [lra|reflexivity]. }
  assert (e < Py.ilog2 x + 1)%Z.
  { apply (Qpower_lt_compat_l_inv 2); [lra|reflexivity]. }
  lia.
Qed.

Lemma ilog2_le (x y : Q) : (0 < x)%Q -> (x <= y)%Q -> (Py.ilog2 x <= Py.ilog2 y)%Z.
Proof.
  intros Hx Hxy.
  destruct (ilog2_spec x Hx) as [H1 _].
  destruct (ilog2_spec y) as [_ H2]; [lra|].
  assert (Py.ilog2 x < Py.ilog2 y + 1)%Z; [|lia].
  apply (Qpower_lt_compat_l_inv 2); [lra|reflexivity].
Qed.

Lemma ilog2_comp (x y : Q) : (0 < x)%Q -> (x == y)%Q -> Py.ilog2 x = Py.ilog2 y.
Proof.
  intros Hx E. symmetry. destruct (ilog2_spec x Hx) as [H1 H2].
  apply ilog2_unique; rewrite <- E; assumption.
Qed.

(** ** Rounding to an integer *)

Lemma rint_comp (x y : Q) : (x == y)%Q -> Py.rint x = Py.rint y.
Proof.
  intros E. unfold Py.rint. rewrite (Qfloor_comp x y E).
  assert (E' : (x - inject_Z (Qfloor y) == y - inject_Z (Qfloor y))%Q)
    by (rewrite E; reflexivity).
  rewrite (Qcompare_comp _ _ E' (1 # 2) (1 # 2) (Qeq_refl _)). reflexivity.
Qed.

Lemma rint_floor (x : Q) :
  (Qfloor x <= Py.rint x)%Z /\ (Py.rint x <= Qfloor x + 1)%Z.
Proof.
  unfold Py.rint. destruct (_ ?= _)%Q; [destruct (Z.even _)| |]; lia.
Qed.

Lemma rint_Z (n : Z) : Py.rint (inject_Z n) = n.
Proof.
  unfold Py.rint. rewrite Qfloor_Z.
  assert (E : (inject_Z n - inject_Z n ?= 1 # 2)%Q = Lt).
  { apply Qlt_alt. ring_simplify (inject_Z n - inject_Z n)%Q. reflexivity. }
  rewrite E. reflexivity.
Qed.

Lemma rint_le (x y : Q) : (x <= y)%Q -> (Py.rint x <= Py.rint y)%Z.
Proof.
  intros Hxy. pose proof (Qfloor_resp_le x y Hxy) as Hf.
  destruct (Z.eq_dec (Qfloor x) (Qfloor y)) as [E|N].
  - unfold Py.rint. rewrite <- E. set (n := Qfloor x).
    destruct (Qcompare_spec (x - inject_Z n) (1 # 2)) as [H1|H1|H1];
      destruct (Qcompare_spec (y - inject_Z n) (1 # 2)) as [H2|H2|H2];
      try destruct (Z.even n); try lia; exfalso; lra.
  - pose proof (rint_floor x). pose proof (rint_floor y). lia.
Qed.

Lemma rint_nonneg (x : Q) : (0 <= x)%Q -> (0 <= Py.rint x)%Z.
Proof.
  intros H. apply rint_le in H. change 0%Q with (inject_Z 0) in H.
  rewrite rint_Z in H. exact H.
Qed.

Lemma rint_upper (x : Q) (n : Z) : (x <= inject_Z n)%Q -> (Py.rint x <= n)%Z.
Proof. intros H. apply rint_le in H. rewrite rint_Z in H. exact H. Qed.

Lemma rint_lower (x : Q) (n : Z) : (inject_Z n <= x)%Q -> (n <= Py.rint x)%Z.
Proof. intros H. apply rint_le in H. rewrite rint_Z in H. exact H. Qed.

(** ** Rounding a positive number to binary64 *)

Lemma ulp_exponent_comp (x y : Q) :
  (0 < x)%Q -> (x == y)%Q -> Py.ulp_exponent x = Py.ulp_exponent y.
Proof.
  intros Hx E. unfold Py.ulp_exponent. rewrite (ilog2_comp x y Hx E).
  reflexivity.
Qed.

Lemma nearest_comp (x y : Q) :
  (0 < x)%Q -> (x == y)%Q -> (Py.nearest x == Py.nearest y)%Q.
Proof.
  intros Hx E. unfold Py.nearest. rewrite (ulp_exponent_comp x y Hx E).
  cbv zeta. rewrite (rint_comp (x / 2 ^ Py.ulp_exponent y)
                               (y / 2 ^ Py.ulp_exponent y)).
  - reflexivity.
  - rewrite E. reflexivity.
Qed.

Lemma nearest_nonneg (x : Q) : (0 < x)%Q -> (0 <= Py.nearest x)%Q.
Proof.
  intros Hx. unfold Py.nearest. cbv zeta.
  pose proof (pow2_pos (Py.ulp_exponent x)) as Hp.
  apply Qmult_le_0_compat; [|lra].
  change 0%Q with (inject_Z 0). rewrite <- Zle_Qle. apply rint_nonneg.
  apply Qdiv_ge_iff; [exact Hp|]. lra.
Qed.

(** The two ends of the binade of [x] bound the rounded value. *)
Lemma nearest_binade (x : Q) :
  (0 < x)%Q ->
  let E := Z.max (Py.ilog2 x) (-1022) in
  (Py.nearest x <= 2 ^ (E + 1))%Q /\
  ((-1022 <= Py.ilog2 x)%Z -> (2 ^ E <= Py.nearest x)%Q).
Proof.
  intros Hx E. destruct (ilog2_spec x Hx) as [H1 H2].
  unfold Py.nearest, Py.ulp_exponent. fold E. cbv zeta.
  pose proof (pow2_pos (E - 52)) as Hp.
  split.
  - assert (Hr : (Py.rint (x / 2 ^ (E - 52)) <= 2 ^ 53)%Z).
    { apply rint_upper. rewrite pow2_Z by lia.
      apply Qdiv_le_iff; [exact Hp|]. rewrite <- pow2_add.
      replace (53 + (E - 52))%Z with (E + 1)%Z by lia.
      apply Qlt_le_weak. eapply Qlt_le_trans; [exact H2|].
      apply pow2_le. lia. }
    rewrite Zle_Qle in Hr. rewrite pow2_Z in Hr by lia.
    replace (E + 1)%Z with (53 + (E - 52))%Z by lia. rewrite pow2_add.
    apply Qmult_le_compat_r; [exact Hr|lra].
  - intros Hn. assert (HE : E = Py.ilog2 x) by lia.
    assert (Hr : (2 ^ 52 <= Py.rint (x / 2 ^ (E - 52)))%Z).
    { apply rint_lower. rewrite pow2_Z by lia.
      apply Qdiv_ge_iff; [exact Hp|]. rewrite <- pow2_add.
      replace (52 + (E - 52))%Z with E by lia. rewrite HE. exact H1. }
    rewrite Zle_Qle in Hr. rewrite pow2_Z in Hr by lia.
    replace E with (52 + (E - 52))%Z at 1 by lia. rewrite pow2_add.
    apply Qmult_le_compat_r; [exact Hr|lra].
Qed.

Lemma nearest_le (x y : Q) :
  (0 < x)%Q -> (x <= y)%Q -> (Py.nearest x <= Py.nearest y)%Q.
Proof.
  intros Hx Hxy. assert (Hy : (0 < y)%Q) by lra.
  pose proof (ilog2_le x y Hx Hxy) as He.
  destruct (Z.eq_dec (Py.ulp_exponent x) (Py.ulp_exponent y)) as [E|N].
  - unfold Py.nearest. cbv zeta. rewrite E.
    pose proof (pow2_pos (Py.ulp_exponent y)) as Hp.
    apply Qmult_le_compat_r; [|lra].
    rewrite <- Zle_Qle. apply rint_le.
    apply Qmult_le_compat_r; [exact Hxy|].
    apply Qlt_le_weak, Qinv_lt_0_compat, Hp.
  - unfold Py.ulp_exponent in N.
    destruct (nearest_binade x Hx) as [Hup _].
    destruct (nearest_binade y Hy) as [_ Hlow].
    cbv zeta in Hup, Hlow.
    eapply Qle_trans; [exact Hup|].
    eapply Qle_trans; [|apply Hlow; lia].
    apply pow2_le. lia.
Qed.

(** A number that has no digit below the last place of its binade is
    left as it is. *)
Lemma nearest_exact (x : Q) (m : Z) :
  (0 < x)%Q -> (x == inject_Z m * 2 ^ Py.ulp_exponent x)%Q ->
  (Py.nearest x == x)%Q.
Proof.
  intros Hx E. unfold Py.nearest. cbv zeta.
  pose proof (pow2_pos (Py.ulp_exponent x)) as Hp.
  rewrite (rint_comp _ (inject_Z m)).
  - rewrite rint_Z. symmetry. exact E.
  - rewrite E at 1. field. lra.
Qed.

(** ** [float] *)

Lemma float_comp (x y : Q) : (x == y)%Q -> (Py.float x == Py.float y)%Q.
Proof.
  intros E. unfold Py.float.
  rewrite (Qcompare_comp x y E 0%Q 0%Q (Qeq_refl 0%Q)).
  destruct (Qcompare_spec y 0) as [H|H|H].
  - reflexivity.
  - rewrite (nearest_comp (- x) (- y)); [reflexivity|lra|rewrite E; reflexivity].
  - apply nearest_comp; [lra|exact E].
Qed.

#[global] Instance float_proper : Proper (Qeq ==> Qeq) Py.float.
Proof. intros x y E. apply float_comp, E. Qed.

Lemma float_opp (x : Q) : (Py.float (- x) == - Py.float x)%Q.
Proof.
  unfold Py.float.
  destruct (Qcompare_spec x 0) as [H|H|H];
    destruct (Qcompare_spec (- x) 0) as [H'|H'|H']; try (exfalso; lra).
  - reflexivity.
  - ring.
  - rewrite (nearest_comp (- - x) x); [reflexivity|lra|ring].
Qed.

Lemma float_nonneg (x : Q) : (0 <= x)%Q -> (0 <= Py.float x)%Q.
Proof.
  intros H. unfold Py.float.
  destruct (Qcompare_spec x 0) as [H'|H'|H']; [lra|exfalso; lra|].
  apply nearest_nonneg, H'.
Qed.

Lemma float_nonpos (x : Q) : (x <= 0)%Q -> (Py.float x <= 0)%Q.
Proof.
  intros H. assert (H' : (0 <= - x)%Q) by lra.
  apply float_nonneg in H'. rewrite float_opp in H'. lra.
Qed.

Lemma float_le (x y : Q) : (x <= y)%Q -> (Py.float x <= Py.float y)%Q.
Proof.
  intros Hxy.
  destruct (Qlt_le_dec 0 x) as [Hx|Hx].
  - unfold Py.float.
    destruct (Qcompare_spec x 0) as [H|H|H]; try (exfalso; lra).
    destruct (Qcompare_spec y 0) as [H'|H'|H']; try (exfalso; lra).
    apply nearest_le; assumption.
  - destruct (Qlt_le_dec y 0) as [Hy|Hy].
    + unfold Py.float.
      destruct (Qcompare_spec x 0) as [H|H|H]; try (exfalso; lra).
      destruct (Qcompare_spec y 0) as [H'|H'|H']; try (exfalso; lra).
      assert (Py.nearest (- y) <= Py.nearest (- x))%Q
        by (apply nearest_le; lra).
      lra.
    + pose proof (float_nonpos x Hx). pose proof (float_nonneg y Hy). lra.
Qed.

Lemma float_pos_inv (x : Q) : (0 < Py.float x)%Q -> (0 < x)%Q.
Proof.
  intros H. apply Qnot_le_lt. intros C. apply float_nonpos in C. lra.
Qed.

Lemma float_neg_inv (x : Q) : (Py.float x < 0)%Q -> (x < 0)%Q.
Proof.
  intros H. apply Qnot_le_lt. intros C. apply float_nonneg in C. lra.
Qed.

(** Integers of at most 53 bits are binary64 numbers. *)
Lemma float_Z (n : Z) :
  (Z.abs n <= 2 ^ 53)%Z -> (Py.float (inject_Z n) == inject_Z n)%Q.
Proof.
  assert (Hpos : forall n, (0 < n)%Z -> (n <= 2 ^ 53)%Z ->
                           (Py.nearest (inject_Z n) == inject_Z n)%Q).
  { clear n. intros n H0 Hn.
    assert (Hq : (0 < inject_Z n)%Q)
      by (change 0%Q with (inject_Z 0); rewrite <- Zlt_Qlt; exact H0).
    destruct (ilog2_spec _ Hq) as [H1 H2].
    assert (He0 : (0 <= Py.ilog2 (inject_Z n))%Z).
    { assert (Py.ilog2 (inject_Z 1) <= Py.ilog2 (inject_Z n))%Z.
      { apply ilog2_le; [reflexivity|]. rewrite <- Zle_Qle. lia. }
      assert (Py.ilog2 (inject_Z 1) = 0%Z) by reflexivity. lia. }
    assert (He : (Py.ilog2 (inject_Z n) <= 53)%Z).
    { assert (Py.ilog2 (inject_Z n) <= Py.ilog2 (inject_Z (2 ^ 53)))%Z.
      { apply ilog2_le; [exact Hq|]. rewrite <- Zle_Qle. exact Hn. }
      assert (Py.ilog2 (inject_Z (2 ^ 53)) = 53%Z) by reflexivity. lia. }
    set (e := Py.ilog2 (inject_Z n)) in *.
    assert (Hu : Py.ulp_exponent (inject_Z n) = (e - 52)%Z)
      by (unfold Py.ulp_exponent; fold e; lia).
    destruct (Z.eq_dec e 53%Z) as [E53|N53].
    - assert (En : n = (2 ^ 53)%Z).
      { rewrite E53 in H1. rewrite <- pow2_Z in H1 by lia.
        rewrite <- Zle_Qle in H1. lia. }
      subst n. apply (nearest_exact _ (2 ^ 52)); [exact Hq|].
      rewrite Hu, E53. reflexivity.
    - apply (nearest_exact _ (n * 2 ^ (52 - e))); [exact Hq|].
      rewrite Hu. rewrite inject_Z_mult, pow2_Z by lia.
      rewrite <- Qmult_assoc, <- pow2_add.
      replace (52 - e + (e - 52))%Z with 0%Z by lia.
      rewrite Qmult_1_r. reflexivity. }
  intros Hn. destruct (Z.lt_trichotomy n 0) as [H|[->|H]].
  - assert (E : (inject_Z n == - inject_Z (- n))%Q)
      by (rewrite inject_Z_opp; ring).
    rewrite E, float_opp. apply Qopp_comp.
    unfold Py.float.
    assert (Hq : (0 < inject_Z (- n))%Q)
      by (change 0%Q with (inject_Z 0); rewrite <- Zlt_Qlt; lia).
    destruct (Qcompare_spec (inject_Z (- n)) 0) as [H'|H'|H'];
      try (exfalso; lra).
    apply Hpos; lia.
  - reflexivity.
  - unfold Py.float.
    assert (Hq : (0 < inject_Z n)%Q)
      by (change 0%Q with (inject_Z 0); rewrite <- Zlt_Qlt; lia).
    destruct (Qcompare_spec (inject_Z n) 0) as [H'|H'|H'];
      try (exfalso; lra).
    apply Hpos; lia.
Qed.

(** ** Percentages

    [(x / i) * 100] on floats, for the float [x] of a difference. *)

Lemma percentage_opp (a b i : Q) :
  (Py.fmul (Py.fdiv (Py.fsub b a) i) 100
   == - Py.fmul (Py.fdiv (Py.fsub a b) i) 100)%Q.
Proof.
  unfold Py.fmul, Py.fdiv, Py.fsub.
  assert (E1 : (Py.float (b - a) == - Py.float (a - b))%Q).
  { rewrite <- float_opp. apply float_comp. ring. }
  assert (E2 : (Py.float (Py.float (b - a) / i)
                == - Py.float (Py.float (a - b) / i))%Q).
  { rewrite <- float_opp. apply float_comp. rewrite E1.
    unfold Qdiv. ring. }
  rewrite <- float_opp. apply float_comp. rewrite E2. ring.
Qed.

Lemma percentage_le (x y i : Q) :
  (0 < i)%Q -> (x <= y)%Q ->
  (Py.fmul (Py.fdiv (Py.float x) i) 100
   <= Py.fmul (Py.fdiv (Py.float y) i) 100)%Q.
Proof.
  intros Hi Hxy. unfold Py.fmul, Py.fdiv.
  apply float_le. apply Qmult_le_compat_r; [|discriminate].
  apply float_le. apply Qmult_le_compat_r.
  - apply float_le, Hxy.
  - apply Qlt_le_weak, Qinv_lt_0_compat, Hi.
Qed.

Lemma percentage_pos_inv (x i : Q) :
  (0 < i)%Q -> (0 < Py.fmul (Py.fdiv (Py.float x) i) 100)%Q -> (0 < x)%Q.
Proof.
  intros Hi H. unfold Py.fmul, Py.fdiv in H.
  apply float_pos_inv in H.
  assert (H1 : (0 < Py.float (Py.float x / i))%Q) by lra.
  apply float_pos_inv in H1.
  assert (H2 : (0 < Py.float x)%Q).
  { apply Qnot_le_lt. intros C.
    assert (Py.float x / i <= 0)%Q; [|lra].
    apply Qdiv_le_iff; [exact Hi|]. lra. }
  apply float_pos_inv, H2.
Qed.

Lemma percentage_zero (i : Q) :
  (Py.fmul (Py.fdiv (Py.float 0) i) 100 == 0)%Q.
Proof.
  unfold Py.fmul, Py.fdiv. change (Py.float 0) with 0%Q.
  assert (E : (Py.float (0 / i) == 0)%Q).
  { rewrite (float_comp (0 / i) 0); [reflexivity|]. unfold Qdiv. ring. }
  rewrite (float_comp (Py.float (0 / i) * 100) 0); [reflexivity|].
  rewrite E. ring.
Qed.

(** ** trading/profit_management.py: the exit rules *)

Lemma loss_is_zero_in_profit (current_value investment_amount : Q) :
  (0 <= ProfitManagement.calculate_profit_percentage current_value
          investment_amount)%Q ->
  (ProfitManagement.calculate_loss_percentage current_value investment_amount
   == 0)%Q.
Proof.
  unfold ProfitManagement.calculate_profit_percentage,
    ProfitManagement.calculate_loss_percentage, Py.max.
  destruct (Qeq_bool investment_amount 0) eqn:Hz; [reflexivity|].
  pose proof (percentage_opp current_value investment_amount
                investment_amount) as E.
  intros Hp. destruct (Qle_bool _ 0) eqn:Hl; [reflexivity|].
  apply Qle_bool_false in Hl. lra.
Qed.

(** X6. The loss percentage is the profit percentage mirrored and
    clamped at zero: it is never negative, it is the opposite of the
    profit percentage when the position is not in profit, and zero when
    the position is not in loss (in particular when the investment is
    zero, where both are zero). *)
Theorem X6_loss_percentage_mirrors_profit
    (current_value investment_amount : Q) :
  let profit :=
    ProfitManagement.calculate_profit_percentage current_value
      investment_amount in
  let loss :=
    ProfitManagement.calculate_loss_percentage current_value
      investment_amount in
  (0 <= loss)%Q /\
  (profit <= 0 -> loss == - profit)%Q /\
  (0 <= profit -> loss == 0)%Q.
Proof.
  unfold ProfitManagement.calculate_profit_percentage,
    ProfitManagement.calculate_loss_percentage, Py.max.
  destruct (Qeq_bool investment_amount 0) eqn:Hz; cbv zeta.
  - repeat split; intros; lra.
  - pose proof (percentage_opp current_value investment_amount
                  investment_amount) as E.
    destruct (Qle_bool _ 0) eqn:Hl.
    + apply Qle_bool_iff in Hl. repeat split; intros; lra.
    + apply Qle_bool_false in Hl. repeat split; intros; lra.
Qed.

(** X7. With a positive investment the two percentage rules are
    monotone in the current value: when take-profit fires at a value
    it fires at every larger one, and when stop-loss fires at a value
    it fires at every smaller one.  With a positive target,
    take-profit fires only on a value above the investment and
    stop-loss only on a value below it.  The percentages are computed
    in floats: 1.2 BNB on 1 BNB is a profit of 19.999999999999996%,
    which does not reach a target of 20, and 0.9 BNB on 1 BNB a loss
    of 9.999999999999998%, which does not reach a target of 10. *)
Theorem X7_exit_rules_are_monotone
    (value larger investment_amount target : Q) :
  (0 < investment_amount)%Q -> (value <= larger)%Q ->
  (ProfitManagement.should_take_profit (Some value)
     investment_amount target = true ->
   ProfitManagement.should_take_profit (Some larger)
     investment_amount target = true) /\
  (ProfitManagement.should_stop_loss (Some larger)
     investment_amount target = true ->
   ProfitManagement.should_stop_loss (Some value)
     investment_amount target = true) /\
  ((0 < target)%Q ->
   ProfitManagement.should_take_profit (Some value)
     investment_amount target = true ->
   (investment_amount < value)%Q) /\
  ((0 < target)%Q ->
   ProfitManagement.should_stop_loss (Some value)
     investment_amount target = true ->
   (value < investment_amount)%Q) /\
  ProfitManagement.should_take_profit (Some (Py.float 1.2)) 1 20 = false /\
  ProfitManagement.should_stop_loss (Some (Py.float 0.9)) 1 10 = false.
Proof.
  intros Hi Hle.
  assert (Hz : Qeq_bool investment_amount 0 = false)
    by (apply Qeq_bool_false; lra).
  unfold ProfitManagement.should_take_profit,
    ProfitManagement.should_stop_loss,
    ProfitManagement.calculate_profit_percentage,
    ProfitManagement.calculate_loss_percentage.
  rewrite Hz. cbv zeta. unfold Py.fsub at 1 2 3 4 5 6.
  pose proof (percentage_le (value - investment_amount)
                (larger - investment_amount) investment_amount Hi
                ltac:(lra)) as Hup.
  pose proof (percentage_le (investment_amount - larger)
                (investment_amount - value) investment_amount Hi
                ltac:(lra)) as Hdown.
  pose proof (percentage_pos_inv (value - investment_amount)
                investment_amount Hi) as Hgain.
  pose proof (percentage_pos_inv (investment_amount - value)
                investment_amount Hi) as Hloss.
  set (P := Py.fmul (Py.fdiv (Py.float (value - investment_amount))
                       investment_amount) 100) in *.
  set (P' := Py.fmul (Py.fdiv (Py.float (larger - investment_amount))
                        investment_amount) 100) in *.
  set (L := Py.fmul (Py.fdiv (Py.float (investment_amount - value))
                       investment_amount) 100) in *.
  set (L' := Py.fmul (Py.fdiv (Py.float (investment_amount - larger))
                        investment_amount) 100) in *.
  assert (Hmax : forall x y, (x <= y)%Q -> (Py.max 0 x <= Py.max 0 y)%Q).
  { intros x y Hxy. unfold Py.max.
    destruct (Qle_bool x 0) eqn:E1; destruct (Qle_bool y 0) eqn:E2;
      try apply Qle_bool_iff in E1; try apply Qle_bool_iff in E2;
      try apply Qle_bool_false in E1; try apply Qle_bool_false in E2; lra. }
  split; [|split; [|split; [|split; [|split]]]].
  - rewrite !Qle_bool_iff. intros H. lra.
  - rewrite !Qle_bool_iff. intros H. pose proof (Hmax _ _ Hdown). lra.
  - intros Ht H. apply Qle_bool_iff in H.
    assert (0 < value - investment_amount)%Q by (apply Hgain; lra). lra.
  - intros Ht H. apply Qle_bool_iff in H.
    assert (0 < L)%Q.
    { unfold Py.max in H. destruct (Qle_bool L 0) eqn:E; [lra|].
      apply Qle_bool_false in E. exact E. }
    assert (0 < investment_amount - value)%Q by (apply Hloss; assumption).
    lra.
  - vm_compute. reflexivity.
  - vm_compute. reflexivity.
Qed.

Lemma X7_exit_rules_are_monotone_witness :
  ProfitManagement.should_take_profit (Some 1.5%Q) 1 20 = true /\
  (1 < 1.25)%Q.
Proof.
  destruct (X7_exit_rules_are_monotone 1.25 1.5 1 20)
    as (Hup & _ & Habove & _); [reflexivity|vm_compute; discriminate|].
  split.
  - apply Hup. vm_compute. reflexivity.
  - apply Habove; [reflexivity|vm_compute; reflexivity].
Defined.

(** X8. With positive targets the two rules exclude each other: a
    valuation for which take-profit fires never fires stop-loss. *)
Theorem X8_take_profit_excludes_stop_loss
    (current_value : option Q) (investment_amount tp sl : Q) :
  (0 < tp)%Q -> (0 < sl)%Q ->
  ProfitManagement.should_take_profit current_value investment_amount tp
  = true ->
  ProfitManagement.should_stop_loss current_value investment_amount sl
  = false.
Proof.
  intros Htp Hsl Htake.
  destruct current_value as [v|]; [|reflexivity].
  pose proof (loss_is_zero_in_profit v investment_amount) as Hzero.
  unfold ProfitManagement.should_take_profit in Htake.
  unfold ProfitManagement.should_stop_loss.
  apply Qle_bool_iff in Htake. apply Qle_bool_false.
  cbv zeta in *. lra.
Qed.

Lemma X8_take_profit_excludes_stop_loss_witness :
  ProfitManagement.should_stop_loss (Some 1.5%Q) 1 10 = false.
Proof.
  apply (X8_take_profit_excludes_stop_loss (Some 1.5%Q) 1 20 10);
    reflexivity.
Defined.

(** X9. The trailing stop.  A new high only raises the recorded high
    and never sells.  At or below a positive high the recorded high is
    kept, and the rule sells when the decline from the high, computed
    in floats as a percentage of the high, has reached the trailing
    percentage: with a positive trailing percentage it sells only
    strictly below the high, and once it sells at a value it sells at
    every smaller one.  A decline from 2.0 to 1.8 is
    9.999999999999998% in floats and does not reach a trailing
    percentage of 10.  With a recorded high of zero and a value not
    above it, the decline divides by zero and the function raises.
    Without a valuation, or without a recorded high, nothing is
    sold. *)
Theorem X9_trailing_stop (highest current lower trailing : Q) :
  ((highest < current)%Q ->
   ProfitManagement.implement_trailing_stop_loss (Some highest) (Some current)
     trailing
   = Ok (false, Some current)) /\
  ((current <= highest)%Q -> (0 < highest)%Q ->
   exists should_sell,
     ProfitManagement.implement_trailing_stop_loss (Some highest)
       (Some current) trailing
     = Ok (should_sell, Some highest) /\
     should_sell
     = Qle_bool trailing
         (Py.fmul (Py.fdiv (Py.fsub highest current) highest) 100) /\
     (should_sell = true -> (0 < trailing)%Q -> (current < highest)%Q) /\
     (should_sell = true -> (lower <= current)%Q ->
      ProfitManagement.implement_trailing_stop_loss (Some highest)
        (Some lower) trailing
      = Ok (true, Some highest))) /\
  ((current <= highest)%Q -> (highest == 0)%Q ->
   ProfitManagement.implement_trailing_stop_loss (Some highest) (Some current)
     trailing
   = Raise ProfitManagement.ZeroDivisionError) /\
  (forall h,
     ProfitManagement.implement_trailing_stop_loss h None trailing
     = Ok (false, h)) /\
  (forall c,
     ProfitManagement.implement_trailing_stop_loss None c trailing
     = Ok (false, None)) /\
  ProfitManagement.implement_trailing_stop_loss (Some 2%Q)
    (Some (Py.float 1.8)) 10
  = Ok (false, Some 2%Q).
Proof.
  unfold ProfitManagement.implement_trailing_stop_loss.
  split; [|split; [|split; [|split; [|split]]]].
  - intros H. apply Qle_bool_false in H. rewrite H. reflexivity.
  - intros Hle Hpos. apply Qle_bool_iff in Hle as Hb. rewrite Hb. cbn [negb].
    assert (Hz : Qeq_bool highest 0 = false) by (apply Qeq_bool_false; lra).
    rewrite Hz. cbv zeta.
    exists (Qle_bool trailing
              (Py.fmul (Py.fdiv (Py.fsub highest current) highest) 100)).
    split; [destruct (Qle_bool trailing _); reflexivity|].
    split; [reflexivity|]. unfold Py.fsub. split.
    + intros Hsell Ht. apply Qle_bool_iff in Hsell.
      assert (0 < highest - current)%Q; [|lra].
      apply (percentage_pos_inv _ highest Hpos). lra.
    + intros Hsell Hlow. apply Qle_bool_iff in Hsell.
      assert (Hb' : Qle_bool lower highest = true)
        by (apply Qle_bool_iff; lra).
      rewrite Hb'. cbn [negb].
      pose proof (percentage_le (highest - current) (highest - lower)
                    highest Hpos ltac:(lra)) as Hmono.
      assert (Hd : Qle_bool trailing
                (Py.fmul (Py.fdiv (Py.float (highest - lower)) highest) 100)
              = true) by (apply Qle_bool_iff; lra).
      rewrite Hd. reflexivity.
  - intros Hle Hz. apply Qle_bool_iff in Hle. rewrite Hle. cbn [negb].
    apply Qeq_bool_iff in Hz. rewrite Hz. reflexivity.
  - intros [h|]; reflexivity.
  - intros [c|]; reflexivity.
  - vm_compute. reflexivity.
Qed.

Lemma X9_trailing_stop_witness :
  ProfitManagement.implement_trailing_stop_loss (Some 2%Q) (Some 1.5%Q) 10
  = Ok (true, Some 2%Q) /\
  ProfitManagement.implement_trailing_stop_loss (Some 0%Q) (Some 0%Q) 10
  = Raise ProfitManagement.ZeroDivisionError.
Proof.
  destruct (X9_trailing_stop 2 1.75 1.5 10) as (_ & Hbelow & _).
  destruct (X9_trailing_stop 0 0 0 10) as (_ & _ & Hzero & _).
  split.
  - destruct Hbelow as (b & _ & Hb & _ & Hlower);
      [vm_compute; discriminate|reflexivity|].
    apply Hlower; [|vm_compute; discriminate].
    rewrite Hb. vm_compute. reflexivity.
  - apply Hzero; [vm_compute; discriminate|reflexivity].
Defined.

(** ** database/operations.py and security/blacklist.py: the store *)

(** Membership in the result of [get_active_portfolio]. *)
Lemma active_portfolio_spec (d : DB) (id : Z) (e : PositionEntry) :
  In (id, e) (get_active_portfolio d)
  <-> portfolio d !! id = Some e /\ pf_status e = "active".
Proof.
  unfold get_active_portfolio. rewrite filter_In. cbn [snd].
  rewrite <- list_elem_of_In, elem_of_map_to_list.
  rewrite String.eqb_eq. reflexivity.
Qed.

Lemma empty_ids_below_next : Safety.ids_below_next Database.empty.
Proof. intros id e H. cbn in H. rewrite lookup_empty in H. discriminate H. Qed.

(** X1. In a store whose ids are all below the next id,
    [add_to_portfolio] returns an id that was not in use, the new row
    is listed as active with the data given, every other row is listed
    as before, the ids stay below the next id, and the blacklist is not
    touched. *)
Theorem X1_add_to_portfolio_opens_a_fresh_position
    (token_address token_symbol : string)
    (amount price investment take_profit stop_loss : Q) (d : DB) :
  Safety.ids_below_next d ->
  let r := add_to_portfolio token_address token_symbol amount price
             investment take_profit stop_loss d in
  let id := fst r in
  let d' := snd r in
  portfolio d !! id = None /\
  (exists e, In (id, e) (get_active_portfolio d') /\
             pf_token_address e = token_address /\
             pf_amount_tokens e = amount /\
             pf_investment_amount_bnb e = investment) /\
  (forall id' e', id' <> id ->
     (In (id', e') (get_active_portfolio d')
      <-> In (id', e') (get_active_portfolio d))) /\
  Safety.ids_below_next d' /\
  blacklisted_tokens d' = blacklisted_tokens d.
Proof.
  intros Hwf r id d'. subst r id d'. cbn [fst snd add_to_portfolio].
  assert (Hfresh : portfolio d !! portfolio_next_id d = None).
  { destruct (portfolio d !! portfolio_next_id d) as [e|] eqn:E; [|reflexivity].
    apply Hwf in E. lia. }
  split; [exact Hfresh|]. split; [|split; [|split; [|reflexivity]]].
  - eexists. split.
    + apply active_portfolio_spec. cbn [portfolio]. split.
      * apply lookup_insert_eq.
      * reflexivity.
    + repeat split.
  - intros id' e' Hne. rewrite !active_portfolio_spec. cbn [portfolio].
    rewrite lookup_insert_ne by congruence. reflexivity.
  - intros id' e'. cbn [portfolio portfolio_next_id].
    destruct (decide (portfolio_next_id d = id')) as [<-|Hne].
    + intros _. lia.
    + rewrite lookup_insert_ne by exact Hne. intros H. apply Hwf in H. lia.
Qed.

Lemma X1_add_to_portfolio_opens_a_fresh_position_witness :
  Safety.ids_below_next Scenario.one_position /\
  blacklisted_tokens Scenario.one_position = blacklisted_tokens Database.empty.
Proof.
  destruct (X1_add_to_portfolio_opens_a_fresh_position Scenario.TOKEN "TKN"
              1000 0.001 1 20 10 Database.empty empty_ids_below_next)
    as (_ & _ & _ & Hids & Hbl).
  split; [exact Hids|exact Hbl].
Defined.

(** X2. [update_portfolio_status] changes the status of the row with the
    given id and nothing else: an unknown id leaves the store as it
    was; a row moved to a status other than ['active'] is no longer
    listed by [get_active_portfolio]; every other row is listed as
    before. *)
Theorem X2_update_portfolio_status_is_local
    (portfolio_id : Z) (status : string) (d : DB) :
  let d' := update_portfolio_status portfolio_id status d in
  (portfolio d !! portfolio_id = None -> d' = d) /\
  (forall e, portfolio d !! portfolio_id = Some e ->
     portfolio d' !! portfolio_id = Some (set_status status e)) /\
  (status <> "active" ->
     forall e, ~ In (portfolio_id, e) (get_active_portfolio d')) /\
  (forall id e, id <> portfolio_id ->
     (In (id, e) (get_active_portfolio d')
      <-> In (id, e) (get_active_portfolio d))) /\
  (Safety.ids_below_next d -> Safety.ids_below_next d').
Proof.
  cbv zeta. unfold update_portfolio_status.
  split; [|split; [|split; [|split]]].
  - intros Hnone. destruct d as [bl pf nid tr ft sq]. cbn in *. f_equal.
    apply map_eq. intros i. rewrite lookup_alter.
    case_decide; [subst; rewrite Hnone; reflexivity | reflexivity].
  - intros e He. cbn [portfolio]. rewrite lookup_alter.
    case_decide; [rewrite He; reflexivity | congruence].
  - intros Hst e Hin. apply active_portfolio_spec in Hin as [Hl Ha].
    cbn [portfolio] in Hl. rewrite lookup_alter in Hl.
    case_decide; [|congruence].
    destruct (portfolio d !! portfolio_id) as [e0|]; [|discriminate Hl].
    injection Hl as <-. cbn in Ha. congruence.
  - intros id e Hne. rewrite !active_portfolio_spec. cbn [portfolio].
    rewrite lookup_alter. case_decide; [congruence|reflexivity].
  - intros Hwf id e. cbn [portfolio portfolio_next_id]. rewrite lookup_alter.
    case_decide as Hid.
    + rewrite Hid.
      destruct (portfolio d !! id) as [e0|] eqn:E;
        [|intros Hc; discriminate Hc].
      intros _. exact (Hwf _ _ E).
    + apply Hwf.
Qed.

(** X3. The blacklist is a map keyed by the address: an added token is
    blacklisted; adding it again replaces the symbol and the reason;
    adding or removing it leaves every other address as it was; a
    removed token is not blacklisted; and removing a token right after
    adding it to a store that did not have it restores the store. *)
Theorem X3_blacklist_add_and_remove
    (token_address other symbol reason symbol' reason' : string) (d : DB) :
  let d1 := add_to_blacklist token_address symbol reason d in
  is_token_blacklisted token_address d1 = true /\
  blacklisted_tokens (add_to_blacklist token_address symbol' reason' d1)
    !! token_address
  = Some {| bl_token_symbol := symbol'; bl_reason := reason' |} /\
  (other <> token_address ->
   is_token_blacklisted other d1 = is_token_blacklisted other d /\
   is_token_blacklisted other (Blacklist.remove_from_blacklist token_address d)
   = is_token_blacklisted other d) /\
  is_token_blacklisted token_address
    (Blacklist.remove_from_blacklist token_address d1) = false /\
  (is_token_blacklisted token_address d = false ->
   Blacklist.remove_from_blacklist token_address d1 = d).
Proof.
  cbv zeta. unfold is_token_blacklisted, add_to_blacklist,
    Blacklist.remove_from_blacklist. cbn [blacklisted_tokens].
  split; [|split; [|split; [|split]]].
  - rewrite lookup_insert_eq. reflexivity.
  - rewrite lookup_insert_eq. reflexivity.
  - intros Hne. rewrite lookup_insert_ne by congruence.
    rewrite lookup_delete_ne by congruence. split; reflexivity.
  - rewrite lookup_delete_eq. reflexivity.
  - intros Hnot. destruct d as [bl pf nid tr ft sq]. cbn in *. f_equal.
    rewrite delete_insert_eq. apply delete_id.
    destruct (bl !! token_address); [discriminate|reflexivity].
Qed.

Lemma X3_blacklist_add_and_remove_witness :
  Blacklist.remove_from_blacklist Scenario.TOKEN
    (add_to_blacklist Scenario.TOKEN "TKN" "Honeypot detected" Database.empty)
  = Database.empty.
Proof.
  apply (X3_blacklist_add_and_remove Scenario.TOKEN Scenario.PAIR "TKN"
           "Honeypot detected" "TKN" "Honeypot detected" Database.empty).
  reflexivity.
Defined.

(** ** security/blacklist.py: the lexical patterns *)

Lemma prefix_has_upper (p s : string) :
  String.prefix p s = true -> Safety.has_upper p = true ->
  Safety.has_upper s = true.
Proof.
  revert s. induction p as [|c p IH]; intros s Hp Hu; [discriminate Hu|].
  destruct s as [|c' s]; [discriminate Hp|]. cbn in Hp.
  destruct (Ascii.ascii_dec c c') as [E|E]; [subst c'|discriminate Hp].
  cbn [Safety.has_upper] in *. apply orb_true_iff in Hu as [Hu|Hu].
  - rewrite Hu. reflexivity.
  - rewrite (IH s Hp Hu). apply orb_true_r.
Qed.

Lemma contains_has_upper (p s : string) :
  Py.contains p s = true -> Safety.has_upper p = true ->
  Safety.has_upper s = true.
Proof.
  induction s as [|c s IH]; cbn [Py.contains]; intros Hc Hu.
  - rewrite orb_false_r in Hc. exact (prefix_has_upper p EmptyString Hc Hu).
  - apply orb_true_iff in Hc as [Hc|Hc].
    + exact (prefix_has_upper p (String c s) Hc Hu).
    + cbn [Safety.has_upper]. rewrite (IH Hc Hu). apply orb_true_r.
Qed.

Lemma contains_empty (s : string) : Py.contains EmptyString s = true.
Proof. destruct s; reflexivity. Qed.

(** The loop over the patterns returns the first pattern that occurs. *)
Lemma first_blacklisted_pattern_spec (patterns : list string)
    (name_lower symbol_lower : string) :
  match Analysis.first_blacklisted_pattern patterns name_lower symbol_lower with
  | Some pattern =>
      exists before after,
        patterns = (before ++ pattern :: after)%list /\
        Py.contains pattern name_lower || Py.contains pattern symbol_lower
        = true /\
        Forall (fun p => Py.contains p name_lower || Py.contains p symbol_lower
                         = false) before
  | None =>
      Forall (fun p => Py.contains p name_lower || Py.contains p symbol_lower
                       = false) patterns
  end.
Proof.
  induction patterns as [|q rest IH]; cbn [Analysis.first_blacklisted_pattern].
  - constructor.
  - destruct (Py.contains q name_lower || Py.contains q symbol_lower) eqn:Hq.
    + exists [], rest. repeat split; [exact Hq|constructor].
    + destruct (Analysis.first_blacklisted_pattern rest name_lower symbol_lower)
        as [p|].
      * destruct IH as (before & after & -> & Hm & Hb).
        exists (q :: before), after. repeat split; [exact Hm|].
        constructor; assumption.
      * constructor; assumption.
Qed.

(** What [check_blacklisted_patterns] answers. *)
Lemma check_blacklisted_patterns_spec
    (token_name token_symbol : string) (patterns_list : list string) :
  let r := Blacklist.check_blacklisted_patterns token_name token_symbol
             patterns_list in
  (forall pattern,
     r = (true, Some pattern) <->
     exists before after,
       patterns_list = (before ++ pattern :: after)%list /\
       Safety.pattern_occurs pattern token_name token_symbol = true /\
       Forall (fun p => Safety.pattern_occurs p token_name token_symbol = false)
              before) /\
  (r = (false, None) <->
   Forall (fun p => Safety.pattern_occurs p token_name token_symbol = false)
          patterns_list) /\
  (r = (false, None) \/ exists pattern, r = (true, Some pattern)).
Proof.
  cbv zeta. unfold Blacklist.check_blacklisted_patterns, Safety.pattern_occurs.
  pose proof (first_blacklisted_pattern_spec patterns_list
                (Py.lower token_name) (Py.lower token_symbol)) as Hspec.
  destruct (Analysis.first_blacklisted_pattern _ _ _) as [found|].
  - destruct Hspec as (before & after & Hsplit & Hm & Hb).
    split; [|split].
    + intros pattern. split.
      * intros H. injection H as <-. exists before, after. auto.
      * intros (b2 & a2 & Hs2 & Hm2 & Hb2).
        assert (found = pattern); [|congruence].
        rewrite Hs2 in Hsplit. clear Hs2.
        revert before Hsplit Hb. induction b2 as [|x b2 IHb];
          intros before Hsplit Hb.
        -- destruct before as [|y before]; cbn in Hsplit.
           ++ congruence.
           ++ injection Hsplit as -> _. inversion Hb; subst. congruence.
        -- destruct before as [|y before]; cbn in Hsplit.
           ++ injection Hsplit as <- _. inversion Hb2; subst. congruence.
           ++ injection Hsplit as _ Hsplit. inversion Hb; subst.
              inversion Hb2; subst. exact (IHb H4 before Hsplit H2).
    + split; [discriminate|].
      intros Hall. rewrite Hsplit in Hall.
      apply Forall_app in Hall as [_ Hall]. inversion Hall; subst. congruence.
    + right. eexists. reflexivity.
  - split; [|split].
    + intros pattern. split; [discriminate|].
      intros (before & after & -> & Hm & _).
      apply Forall_app in Hspec as [_ Hall]. inversion Hall; subst. congruence.
    + split; auto.
    + left. reflexivity.
Qed.

(** X4. [check_blacklisted_patterns] answers with the first pattern of
    the list that occurs in the lowered name or symbol, and with
    [(False, None)] exactly when no pattern of the list occurs; it has
    no other answer.  The name and the symbol are lowered as
    [str.lower()] does it: in a name written with the Kelvin sign
    U+212A for the letter K the pattern "fake" occurs. *)
Theorem X4_check_blacklisted_patterns_returns_the_first_match
    (token_name token_symbol : string) (patterns_list : list string) :
  let r := Blacklist.check_blacklisted_patterns token_name token_symbol
             patterns_list in
  (forall pattern,
     r = (true, Some pattern) <->
     exists before after,
       patterns_list = (before ++ pattern :: after)%list /\
       Safety.pattern_occurs pattern token_name token_symbol = true /\
       Forall (fun p => Safety.pattern_occurs p token_name token_symbol = false)
              before) /\
  (r = (false, None) <->
   Forall (fun p => Safety.pattern_occurs p token_name token_symbol = false)
          patterns_list) /\
  (r = (false, None) \/ exists pattern, r = (true, Some pattern)) /\
  Blacklist.check_blacklisted_patterns ("FA" ++ Py.encode 8490 ++ "E Token")
    "FKT" ["fake"] = (true, Some "fake").
Proof.
  pose proof (check_blacklisted_patterns_spec token_name token_symbol
                patterns_list) as (H1 & H2 & H3).
  cbv zeta. split; [exact H1|]. split; [exact H2|]. split; [exact H3|].
  vm_compute. reflexivity.
Qed.

(** X5. Only the token's name and symbol are lowered, the patterns are
    not: a pattern with an upper-case letter matches no token at all,
    and the empty pattern matches every token. *)
Theorem X5_patterns_are_compared_as_written
    (token_name token_symbol pattern : string) :
  (Safety.has_upper pattern = true ->
   Blacklist.check_blacklisted_patterns token_name token_symbol [pattern]
   = (false, None)) /\
  Blacklist.check_blacklisted_patterns token_name token_symbol [EmptyString]
  = (true, Some EmptyString).
Proof.
  unfold Blacklist.check_blacklisted_patterns.
  cbn [Analysis.first_blacklisted_pattern]. split.
  - intros Hu.
    assert (Hno : forall s, Py.contains pattern (Py.lower s) = false).
    { intros s. destruct (Py.contains pattern (Py.lower s)) eqn:E; [|reflexivity].
      pose proof (contains_has_upper _ _ E Hu) as Hc.
      rewrite lower_has_no_upper in Hc. discriminate Hc. }
    rewrite !Hno. reflexivity.
  - rewrite contains_empty. reflexivity.
Qed.

Lemma X5_patterns_are_compared_as_written_witness :
  Blacklist.check_blacklisted_patterns "SCAM COIN" "SCAM" ["SCAM"]
  = (false, None).
Proof.
  apply (X5_patterns_are_compared_as_written "SCAM COIN" "SCAM" "SCAM").
  reflexivity.
Defined.

(** ** trading/sell.py: the estimate and the slippage *)

Lemma estimate_loop_first_answer (getAmountsOut : nat -> Res Z) (fuel : nat) :
  forall attempt : nat,
  match Sell.estimate_loop getAmountsOut attempt fuel with
  | Some estimate =>
      exists k amount_out,
        (k < fuel)%nat /\
        getAmountsOut (attempt + k)%nat = Ok amount_out /\
        estimate = Py.float (Sell.from_wei_ether amount_out) /\
        forall j, (j < k)%nat ->
          exists e, getAmountsOut (attempt + j)%nat = Raise e
  | None =>
      forall j, (j < fuel)%nat ->
        exists e, getAmountsOut (attempt + j)%nat = Raise e
  end.
Proof.
  induction fuel as [|fuel IH]; intros attempt; cbn [Sell.estimate_loop].
  - intros j Hj. lia.
  - destruct (getAmountsOut attempt) as [amount_out|e] eqn:Hq.
    + exists 0%nat, amount_out. rewrite Nat.add_0_r.
      split; [lia|]. split; [exact Hq|]. split; [reflexivity|].
      intros j Hj. lia.
    + specialize (IH (S attempt)).
      destruct (Sell.estimate_loop getAmountsOut (S attempt) fuel).
      * destruct IH as (k & amount_out & Hk & Hok & Hv & Hbefore).
        exists (S k), amount_out. split; [lia|].
        replace (attempt + S k)%nat with (S attempt + k)%nat by lia.
        split; [exact Hok|]. split; [exact Hv|].
        intros [|j] Hj.
        -- rewrite Nat.add_0_r. exists e. exact Hq.
        -- replace (attempt + S j)%nat with (S attempt + j)%nat by lia.
           apply Hbefore. lia.
      * intros [|j] Hj.
        -- rewrite Nat.add_0_r. exists e. exact Hq.
        -- replace (attempt + S j)%nat with (S attempt + j)%nat by lia.
           apply IH. lia.
Qed.


Lemma min_le_l (x y : Q) : (Py.min x y <= x)%Q.
Proof.
  unfold Py.min. destruct (Qle_bool x y) eqn:E; [lra|].
  apply Qle_bool_false in E. lra.
Qed.

Lemma min_le_r (x y : Q) : (Py.min x y <= y)%Q.
Proof.
  unfold Py.min. destruct (Qle_bool x y) eqn:E; [|lra].
  apply Qle_bool_iff in E. exact E.
Qed.

Lemma min_glb (x y z : Q) : (z <= x)%Q -> (z <= y)%Q -> (z <= Py.min x y)%Q.
Proof. intros Hx Hy. unfold Py.min. destruct (Qle_bool x y); assumption. Qed.

Lemma attempt_nonneg (attempt : nat) : (0 <= inject_Z (Z.of_nat attempt))%Q.
Proof. change 0%Q with (inject_Z 0). rewrite <- Zle_Qle. lia. Qed.

Lemma attempt_mono (n m : nat) :
  (n <= m)%nat -> (inject_Z (Z.of_nat n) <= inject_Z (Z.of_nat m))%Q.
Proof. intros H. rewrite <- Zle_Qle. lia. Qed.

(** X11. The slippage added on a retry is never negative, never
    decreases from one attempt to a later one with the same failure
    history, is at least the base value of the attempt, and never
    exceeds 45 points: the cap of 49 written in the code is out of
    reach, since the base value is capped at 30 before 15 is added. *)
Theorem X11_extra_slippage_is_bounded_and_monotone
    (attempt later : nat) (failure_reasons : list string) :
  (0 <= Sell.extra_slippage attempt failure_reasons)%Q /\
  (Sell.extra_slippage attempt failure_reasons <= 45)%Q /\
  (Sell.base_extra_slippage attempt
   <= Sell.extra_slippage attempt failure_reasons)%Q /\
  ((attempt <= later)%nat ->
   (Sell.extra_slippage attempt failure_reasons
    <= Sell.extra_slippage later failure_reasons)%Q).
Proof.
  pose proof (attempt_nonneg attempt) as Ha.
  assert (Hb0 : forall n, (0 <= Sell.base_extra_slippage n)%Q).
  { intros n. unfold Sell.base_extra_slippage.
    pose proof (attempt_nonneg n). apply min_glb; lra. }
  assert (Hb30 : forall n, (Sell.base_extra_slippage n <= 30)%Q).
  { intros n. unfold Sell.base_extra_slippage. apply min_le_r. }
  assert (Hbm : forall n m, (n <= m)%nat ->
            (Sell.base_extra_slippage n <= Sell.base_extra_slippage m)%Q).
  { intros n m Hnm. unfold Sell.base_extra_slippage.
    pose proof (attempt_mono n m Hnm).
    apply min_glb.
    - apply Qle_trans with (10 * inject_Z (Z.of_nat n))%Q;
        [apply min_le_l|lra].
    - apply min_le_r. }
  unfold Sell.extra_slippage.
  destruct (_ || _).
  - pose proof (Hb0 attempt). pose proof (Hb30 attempt).
    assert (E : forall n, (Py.min (Sell.base_extra_slippage n + 15) 49
                           == Sell.base_extra_slippage n + 15)%Q).
    { intros n. unfold Py.min. pose proof (Hb30 n).
      destruct (Qle_bool (Sell.base_extra_slippage n + 15) 49) eqn:E;
        [reflexivity|]. apply Qle_bool_false in E. lra. }
    rewrite !E. repeat split; try lra.
    intros Hl. pose proof (Hbm attempt later Hl). lra.
  - repeat split; auto; try lra.
    pose proof (Hb30 attempt). lra.
Qed.

Lemma X11_extra_slippage_is_bounded_and_monotone_witness :
  (Sell.extra_slippage 1 ["Slippage too high"]
   <= Sell.extra_slippage 2 ["Slippage too high"])%Q.
Proof.
  apply (X11_extra_slippage_is_bounded_and_monotone 1 2 ["Slippage too high"]).
  lia.
Defined.

(** ** trading/sell.py: what [execute_sell] sends and writes *)





Lemma swaps_app (l1 l2 : list Sell.Call) :
  Sell.swaps (l1 ++ l2) = (Sell.swaps l1 ++ Sell.swaps l2)%list.
Proof.
  induction l1 as [|c l1 IH]; [reflexivity|].
  destruct c; cbn [app Sell.swaps]; rewrite IH; reflexivity.
Qed.

Lemma exhausted_calls (token_address token_symbol : string)
    (token_decimals : N) (now : nat -> Z) (s : Sell.State) :
  Sell.calls (snd (Sell.exhausted token_address token_symbol token_decimals
                     now s))
  = Sell.calls s.
Proof. rewrite exhausted_fails. reflexivity. Qed.

Section SellExtras.

Variable cfg : Config.t.
Variables (token_address token_symbol : string) (token_decimals : N).
Variable portfolio_id : option Z.
Variable is_test : bool.
Variable max_retries : nat.

(** One iteration sends at most one swap, and only a guarded one; a
    known amount is kept or reduced. *)
Lemma run_attempt_swaps (attempt : nat) (w : Sell.AttemptWorld)
    (s : Sell.State) :
  let r := Sell.run_attempt cfg token_address token_symbol token_decimals
    portfolio_id is_test attempt w s in
  exists cs,
    Sell.calls (snd r) = (Sell.calls s ++ cs)%list /\
    (forall req, Sell.amount_tokens s = Some req ->
       Sell.amount_tokens (snd r) = Some req \/
       Sell.amount_tokens (snd r)
       = Some (req * Sell.reduction_factor attempt (Sell.failure_reasons s))%Q) /\
    match Sell.swaps cs with
    | [] => True
    | [tx] =>
        Safety.guarded token_decimals attempt w tx /\
        (Sell.amount_tokens s <> None ->
         exists a, Sell.amount_tokens (snd r) = Some a /\
           Sell.tx_amount_tokens_wei tx
           = Py.int (a * Py.pow10 token_decimals))
    | _ => False
    end.
Proof.
  destruct s as [reasons amount d cs0].
  sell_cases.
  all: repeat rewrite <- app_assoc; cbn [app].
  all: eexists;
    (split; [first [reflexivity | symmetry; apply app_nil_r]|]).
  all: split;
    [intros req Hreq;
     first [ discriminate Hreq | left; exact Hreq
           | injection Hreq as <-; auto ]|].
  all: cbn [Sell.swaps]; try exact I.
  all: split;
    [|first [ intros Hn; exfalso; apply Hn; reflexivity
            | intros _; eexists; split; reflexivity ]].
  all: unfold Safety.guarded; cbn [Sell.tx_amount_tokens_wei Sell.tx_deadline].
  all: repeat match goal with
       | H : (_ <? _)%Z = false |- _ => apply Z.ltb_ge in H
       | H : (_ <? _)%Z = true |- _ => apply Z.ltb_lt in H
       | H : (_ =? _)%Z = true |- _ => apply Z.eqb_eq in H
       end.
  all: split; [lia|].
  all: split;
    [eexists; split;
       [eassumption
       |first [left; lia | right; eexists; split; eassumption]]|].
  all: split; [|reflexivity].
  all: eexists; eexists; split;
    [eassumption|apply truthy_nonzero; assumption].
Qed.

(** One iteration writes a sale and closes the position when it
    succeeds; otherwise it only logs failed transactions. *)
Lemma run_attempt_store (attempt : nat) (w : Sell.AttemptWorld)
    (s : Sell.State) :
  match Sell.run_attempt cfg token_address token_symbol token_decimals
          portfolio_id is_test attempt w s with
  | (o, s') =>
      Safety.sell_footprint token_address token_symbol portfolio_id is_test
        o (Sell.db s) (Sell.db s') /\
      sell_queue (Sell.db s') = sell_queue (Sell.db s)
  end.
Proof.
  destruct s as [reasons amount d cs0].
  sell_cases.
  all: cbv [Safety.sell_footprint Safety.closed Safety.sale_row].
  all: repeat match goal with
       | H : portfolio_id = _ |- _ => rewrite H
       | H : is_test = _ |- _ => rewrite H
       end.
  all: (split; [|reflexivity]); (split; [reflexivity|]);
    (split; [reflexivity|]); split; reflexivity.
Qed.

(** A success is a confirmed swap, reported with the quote asked for
    before it; the loop body never returns the outcome of
    exhaustion. *)
Lemma run_attempt_success (attempt : nat) (w : Sell.AttemptWorld)
    (s : Sell.State) :
  match Sell.run_attempt cfg token_address token_symbol token_decimals
          portfolio_id is_test attempt w s with
  | (Some (Sell.Success tx_hash tokens_sold bnb_received), s') =>
      Safety.confirmed token_decimals w tx_hash tokens_sold bnb_received /\
      Sell.amount_tokens s' = Some tokens_sold /\
      exists cs tx,
        Sell.calls s' = (Sell.calls s ++ cs ++ [Sell.CallSell tx])%list
  | (Some (Sell.Failed _ _ _), _) => False
  | _ => True
  end.
Proof.
  destruct s as [reasons amount d cs0].
  sell_cases.
  all: try exact I.
  all: repeat match goal with
       | H : (_ =? _)%Z = true |- _ => apply Z.eqb_eq in H
       end.
  all: split;
    [split; [eexists; split; [eassumption|split; [assumption|reflexivity]]
            |assumption]|].
  all: split; [reflexivity|].
  all: repeat rewrite <- app_assoc; cbn [app].
  all: first [ eexists [_; _]; eexists; reflexivity
             | eexists [_; _; _]; eexists; reflexivity
             | eexists [_; _; _; _]; eexists; reflexivity
             | eexists [_; _; _; _; _]; eexists; reflexivity ].
Qed.

Lemma sell_footprint_failed_step (o : option Sell.Outcome) (d d1 d2 : DB) :
  Safety.sell_footprint token_address token_symbol portfolio_id is_test
    None d d1 ->
  Safety.sell_footprint token_address token_symbol portfolio_id is_test
    o d1 d2 ->
  Safety.sell_footprint token_address token_symbol portfolio_id is_test
    o d d2.
Proof.
  unfold Safety.sell_footprint.
  intros (Hb & Hn & Ht & Hp) (Hb' & Hn' & H).
  rewrite Hb', Hn', Hb, Hn. repeat split.
  destruct o as [[]|]; rewrite <- ?Ht, <- ?Hp; exact H.
Qed.

Lemma sell_attempts_store (world : nat -> Sell.AttemptWorld) (fuel : nat) :
  forall (attempt : nat) (s : Sell.State),
  match Sell.attempts cfg token_address token_symbol token_decimals
          portfolio_id is_test max_retries world attempt fuel s with
  | (o, s') =>
      Safety.sell_footprint token_address token_symbol portfolio_id is_test
        o (Sell.db s) (Sell.db s') /\
      sell_queue (Sell.db s') = sell_queue (Sell.db s)
  end.
Proof.
  induction fuel as [|fuel IH]; intros attempt s; cbn [Sell.attempts].
  - repeat split; reflexivity.
  - pose proof (run_attempt_store attempt (world attempt) s) as Hstep.
    destruct (Sell.run_attempt _ _ _ _ _ _ attempt (world attempt) s)
      as [[o|] s1]; [exact Hstep|].
    destruct Hstep as [Hstep Hq].
    specialize (IH (S attempt) (Sell.backoff max_retries attempt s1)).
    destruct (Sell.attempts _ _ _ _ _ _ _ world (S attempt) fuel _)
      as [o s2].
    destruct (backoff_keeps max_retries attempt s1) as (_ & _ & Hdb).
    rewrite Hdb in IH. destruct IH as [IH Hq2]. split.
    + exact (sell_footprint_failed_step o _ _ _ Hstep IH).
    + rewrite Hq2. exact Hq.
Qed.

(** The gradual-sell fallback only appends to the sell queue. *)
(** X12. What a sell writes.  Whatever the chain answers,
    [execute_sell] returns an outcome -- it never raises -- and it
    never touches the blacklist, never creates a position and never
    writes to the sell queue: the gradual-sell fallback of an exhausted
    call stops at the import of [add_to_sell_queue], which
    [database/operations.py] does not define.  It records a sale (type
    "sell", or "test_sell" for a test, with no profit figure) and marks
    the position it is tied to as sold only when it returns success --
    and on a test it leaves the position open; with any other outcome
    the transactions and the positions are as before. *)
Theorem X12_execute_sell_store_footprint
    (world : nat -> Sell.AttemptWorld) (now : nat -> Z)
    (amount : option Q) (d : DB) :
  let r := Sell.execute_sell cfg token_address token_symbol token_decimals
             portfolio_id is_test max_retries world now amount d in
  let d' := Sell.db (snd r) in
  exists o,
    fst r = Ok o /\
    Safety.sell_footprint token_address token_symbol portfolio_id is_test
      (Some o) d d' /\
    sell_queue d' = sell_queue d.
Proof.
  cbv zeta. unfold Sell.execute_sell.
  match goal with
  | |- context [Sell.attempts _ _ _ _ _ _ _ world 0 max_retries ?s0] =>
      pose proof (sell_attempts_store world max_retries 0%nat s0) as Hloop;
      destruct (Sell.attempts cfg token_address token_symbol token_decimals
                  portfolio_id is_test max_retries world 0 max_retries s0)
        as [[o|] s1]
  end; cbn [Sell.db] in Hloop; destruct Hloop as [Hfoot Hq].
  - exists o. cbn [fst snd]. split; [reflexivity|]. split; assumption.
  - rewrite exhausted_fails. eexists. cbn [fst snd].
    split; [reflexivity|]. split; [|exact Hq].
    destruct Hfoot as (Hb0 & Hn0 & Ht0 & Hp0).
    unfold Safety.sell_footprint. auto.
Qed.

(** What a sell does to the blacklist and to the positions. *)
Lemma execute_sell_positions
    (world : nat -> Sell.AttemptWorld) (now : nat -> Z)
    (amount : option Q) (d : DB) :
  let d' := Sell.db (snd (Sell.execute_sell cfg token_address token_symbol
                            token_decimals portfolio_id is_test max_retries
                            world now amount d)) in
  blacklisted_tokens d' = blacklisted_tokens d /\
  portfolio_next_id d' = portfolio_next_id d /\
  (portfolio d' = portfolio d \/
   portfolio d' = Safety.closed portfolio_id is_test (portfolio d)).
Proof.
  cbv zeta. unfold Sell.execute_sell.
  match goal with
  | |- context [Sell.attempts _ _ _ _ _ _ _ world 0 max_retries ?s0] =>
      pose proof (sell_attempts_store world max_retries 0%nat s0) as Hloop;
      destruct (Sell.attempts cfg token_address token_symbol token_decimals
                  portfolio_id is_test max_retries world 0 max_retries s0)
        as [[o|] s1]
  end; cbn [Sell.db] in Hloop; destruct Hloop as [(Hb & Hn & Hfoot) _].
  - cbn [snd]. split; [exact Hb|]. split; [exact Hn|].
    destruct o; try (left; exact (proj2 Hfoot)). right. exact (proj2 Hfoot).
  - rewrite exhausted_fails. cbn [snd]. split; [exact Hb|].
    split; [exact Hn|]. left. exact (proj2 Hfoot).
Qed.

Lemma backoff_calls (attempt : nat) (s : Sell.State) :
  exists cs,
    Sell.calls (Sell.backoff max_retries attempt s)
    = (Sell.calls s ++ cs)%list /\
    Sell.swaps cs = [].
Proof.
  unfold Sell.backoff. destruct (_ <? _)%Z.
  - eexists [_]. split; reflexivity.
  - exists []. rewrite app_nil_r. split; reflexivity.
Qed.

Lemma attempts_swaps_guarded (world : nat -> Sell.AttemptWorld) (fuel : nat) :
  forall (attempt : nat) (s : Sell.State),
  let r := Sell.attempts cfg token_address token_symbol token_decimals
             portfolio_id is_test max_retries world attempt fuel s in
  exists cs,
    Sell.calls (snd r) = (Sell.calls s ++ cs)%list /\
    (length (Sell.swaps cs) <= fuel)%nat /\
    forall tx, In tx (Sell.swaps cs) ->
      exists k, (attempt <= k < attempt + fuel)%nat /\
                Safety.guarded token_decimals k (world k) tx.
Proof.
  induction fuel as [|fuel IH]; intros attempt s; cbn [Sell.attempts].
  - exists []. cbn [snd]. rewrite app_nil_r.
    split; [reflexivity|]. split; [apply Nat.le_refl|]. intros tx [].
  - pose proof (run_attempt_swaps attempt (world attempt) s) as Hstep.
    cbv zeta in Hstep. destruct Hstep as (cs1 & Hc1 & _ & Hsw).
    assert (Hone : (length (Sell.swaps cs1) <= 1)%nat /\
                   forall tx, In tx (Sell.swaps cs1) ->
                     Safety.guarded token_decimals attempt (world attempt) tx).
    { destruct (Sell.swaps cs1) as [|tx [|tx' rest]]; [| |contradiction].
      - split; [cbn; lia|intros tx []].
      - split; [cbn; lia|]. intros tx' [<-|[]]. exact (proj1 Hsw). }
    clear Hsw. destruct Hone as [Hlen1 Hg1].
    destruct (Sell.run_attempt _ _ _ _ _ _ attempt (world attempt) s)
      as [[o|] s1]; cbn [snd] in *.
    + exists cs1. split; [exact Hc1|]. split; [lia|].
      intros tx Hin. exists attempt. split; [lia|exact (Hg1 tx Hin)].
    + destruct (backoff_calls attempt s1) as (cb & Hcb & Hsb).
      specialize (IH (S attempt) (Sell.backoff max_retries attempt s1)).
      cbv zeta in IH. destruct IH as (cs2 & Hc2 & Hlen2 & Hg2).
      exists (cs1 ++ cb ++ cs2)%list. split.
      * rewrite Hc2, Hcb, Hc1. rewrite <- !app_assoc. reflexivity.
      * rewrite !swaps_app, Hsb. cbn [app]. split.
        -- rewrite length_app. lia.
        -- intros tx Hin. apply in_app_or in Hin as [Hin|Hin].
           ++ exists attempt. split; [lia|exact (Hg1 tx Hin)].
           ++ destruct (Hg2 tx Hin) as (k & Hk & Hg).
              exists k. split; [lia|exact Hg].
Qed.

(** X13. What a sell sends.  Whatever the chain answers, one call of
    [execute_sell] sends at most [max_retries] swaps, and every swap it
    sends was sent in an iteration in which the amount was at least
    1000 units, the router's allowance covered the amount or the
    approval had just been confirmed with status 1, and the router had
    quoted a non-zero amount of BNB; its deadline is 300 seconds plus
    300 seconds per earlier attempt after the time read in that
    iteration. *)
Theorem X13_every_swap_is_guarded
    (world : nat -> Sell.AttemptWorld) (now : nat -> Z)
    (amount : option Q) (d : DB) :
  let r := Sell.execute_sell cfg token_address token_symbol token_decimals
             portfolio_id is_test max_retries world now amount d in
  (length (Sell.swaps (Sell.calls (snd r))) <= max_retries)%nat /\
  forall tx, In tx (Sell.swaps (Sell.calls (snd r))) ->
    exists k, (k < max_retries)%nat /\
              Safety.guarded token_decimals k (world k) tx.
Proof.
  cbv zeta. unfold Sell.execute_sell.
  match goal with
  | |- context [Sell.attempts _ _ _ _ _ _ _ world 0 max_retries ?s0] =>
      pose proof (attempts_swaps_guarded world max_retries 0%nat s0) as Hloop;
      cbv zeta in Hloop; destruct Hloop as (cs & Hcs & Hlen & Hg);
      destruct (Sell.attempts cfg token_address token_symbol token_decimals
                  portfolio_id is_test max_retries world 0 max_retries s0)
        as [[o|] s1]
  end; cbn [snd Sell.calls app] in Hcs.
  - cbn [snd]. rewrite Hcs. split; [exact Hlen|].
    intros tx Hin. destruct (Hg tx Hin) as (k & Hk & Hgk).
    exists k. split; [lia|exact Hgk].
  - rewrite exhausted_calls, Hcs. split; [exact Hlen|].
    intros tx Hin. destruct (Hg tx Hin) as (k & Hk & Hgk).
    exists k. split; [lia|exact Hgk].
Qed.






Lemma attempts_success (world : nat -> Sell.AttemptWorld) (fuel : nat) :
  forall (attempt : nat) (s : Sell.State),
  match Sell.attempts cfg token_address token_symbol token_decimals
          portfolio_id is_test max_retries world attempt fuel s with
  | (Some (Sell.Success tx_hash tokens_sold bnb_received), s') =>
      (exists k, (attempt <= k < attempt + fuel)%nat /\
         Safety.confirmed token_decimals (world k) tx_hash tokens_sold
           bnb_received) /\
      Sell.amount_tokens s' = Some tokens_sold /\
      exists cs tx,
        Sell.calls s' = (Sell.calls s ++ cs ++ [Sell.CallSell tx])%list
  | (Some (Sell.Failed _ _ _), _) => False
  | _ => True
  end.
Proof.
  induction fuel as [|fuel IH]; intros attempt s; cbn [Sell.attempts];
    [exact I|].
  pose proof (run_attempt_success attempt (world attempt) s) as Hstep.
  pose proof (run_attempt_grows cfg token_address token_symbol token_decimals
                portfolio_id is_test attempt (world attempt) s) as Hgrow.
  cbv zeta in Hgrow. destruct Hgrow as (_ & cs1 & _ & Hc1 & _).
  destruct (Sell.run_attempt _ _ _ _ _ _ attempt (world attempt) s)
    as [[o|] s1]; cbn [snd] in Hc1.
  - destruct o; try exact I; [|exact Hstep].
    destruct Hstep as (Hconf & Hamt & Hcalls).
    split; [exists attempt; split; [lia|exact Hconf]|]. auto.
  - specialize (IH (S attempt) (Sell.backoff max_retries attempt s1)).
    destruct (backoff_calls attempt s1) as (cb & Hcb & _).
    destruct (Sell.attempts _ _ _ _ _ _ _ world (S attempt) fuel _)
      as [[o|] s2]; [|exact I].
    destruct o; try exact I; [|exact IH].
    destruct IH as ((k & Hk & Hconf) & Hamt & (cs2 & tx & Hcalls)).
    split; [exists k; split; [lia|exact Hconf]|]. split; [exact Hamt|].
    exists (cs1 ++ cb ++ cs2)%list, tx.
    rewrite Hcalls, Hcb, Hc1. rewrite <- !app_assoc. reflexivity.
Qed.

(** X15. What a reported success stands for.  When [execute_sell]
    returns success with a transaction hash, an amount sold and an
    amount of BNB received, some iteration below [max_retries] got a
    receipt with status 1 and that hash for its swap; the swap is the
    last call the function made; the amount sold is the amount of that
    iteration; and the BNB "received" is the router's quote for that
    amount, asked for before the swap was sent -- nothing is read back
    from the receipt or from the wallet. *)
Theorem X15_success_reports_the_quote
    (world : nat -> Sell.AttemptWorld) (now : nat -> Z)
    (amount : option Q) (d : DB)
    (tx_hash : string) (tokens_sold bnb_received : Q) :
  let r := Sell.execute_sell cfg token_address token_symbol token_decimals
             portfolio_id is_test max_retries world now amount d in
  fst r = Ok (Sell.Success tx_hash tokens_sold bnb_received) ->
  (exists k, (k < max_retries)%nat /\
     Safety.confirmed token_decimals (world k) tx_hash tokens_sold
       bnb_received) /\
  Sell.amount_tokens (snd r) = Some tokens_sold /\
  exists cs tx, Sell.calls (snd r) = (cs ++ [Sell.CallSell tx])%list.
Proof.
  cbv zeta. unfold Sell.execute_sell.
  match goal with
  | |- context [Sell.attempts _ _ _ _ _ _ _ world 0 max_retries ?s0] =>
      pose proof (attempts_success world max_retries 0%nat s0) as Hloop;
      destruct (Sell.attempts cfg token_address token_symbol token_decimals
                  portfolio_id is_test max_retries world 0 max_retries s0)
        as [[o|] s1]
  end.
  - cbn [fst snd]. intros Ho. injection Ho as ->.
    destruct Hloop as ((k & Hk & Hconf) & Hamt & (cs & tx & Hcalls)).
    split; [exists k; split; [lia|exact Hconf]|].
    split; [exact Hamt|].
    exists cs, tx. exact Hcalls.
  - unfold Sell.exhausted. destruct (_ && _); [|intros Ho; discriminate Ho].
    destruct (Sell.amount_tokens s1); intros Ho; discriminate Ho.
Qed.

End SellExtras.


Lemma X15_success_reports_the_quote_witness :
  exists k, (k < 3)%nat /\
    Safety.confirmed 18 (Scenario.selling (Ok Scenario.succeeded)) "0xbeef"
      1000 (Py.float (Sell.from_wei_ether (2 * 10 ^ 18))).
Proof.
  refine (proj1 (X15_success_reports_the_quote Config.default Scenario.TOKEN
                   "TKN" 18 None false 3
                   (fun _ => Scenario.selling (Ok Scenario.succeeded))
                   Scenario.clock (Some 1000%Q) Database.empty
                   "0xbeef" 1000
                   (Py.float (Sell.from_wei_ether (2 * 10 ^ 18))) _)).
  vm_compute. reflexivity.
Defined.

(** ** trading/buy.py *)

(** Rounding to an integer moves a number by at most one half. *)
Lemma rint_near (x : Q) : (inject_Z (Py.rint x) <= x + (1 # 2))%Q.
Proof.
  unfold Py.rint. pose proof (Qfloor_le x) as Hf.
  destruct (Qcompare_spec (x - inject_Z (Qfloor x)) (1 # 2)) as [H|H|H].
  - destruct (Z.even (Qfloor x)); [lra|].
    rewrite inject_Z_plus. change (inject_Z 1) with 1%Q. lra.
  - lra.
  - rewrite inject_Z_plus. change (inject_Z 1) with 1%Q. lra.
Qed.

(** Rounding a number that is at least 1 to binary64 adds at most the
    fraction 2^-53 of it. *)
Lemma float_near (x : Q) :
  (1 <= x)%Q -> (Py.float x <= x * (1 + (1 # 2 ^ 53)))%Q.
Proof.
  intros H1. unfold Py.float.
  destruct (Qcompare_spec x 0) as [H|H|H]; try (exfalso; lra).
  destruct (ilog2_spec x H) as [Hlow _].
  assert (He : (0 <= Py.ilog2 x)%Z).
  { assert (Py.ilog2 1 <= Py.ilog2 x)%Z by (apply ilog2_le; [reflexivity|lra]).
    assert (Py.ilog2 1 = 0%Z) by reflexivity. lia. }
  unfold Py.nearest, Py.ulp_exponent.
  replace (Z.max (Py.ilog2 x) (-1022)) with (Py.ilog2 x) by lia.
  set (e := Py.ilog2 x) in *. cbv zeta.
  pose proof (pow2_pos (e - 52)) as Hp.
  pose proof (rint_near (x / 2 ^ (e - 52))) as Hr.
  assert (Hm : (inject_Z (Py.rint (x / 2 ^ (e - 52))) * 2 ^ (e - 52)
                <= (x / 2 ^ (e - 52) + (1 # 2)) * 2 ^ (e - 52))%Q).
  { apply Qmult_le_compat_r; [exact Hr|lra]. }
  assert (Ex : ((x / 2 ^ (e - 52) + (1 # 2)) * 2 ^ (e - 52)
                == x + (1 # 2) * 2 ^ (e - 52))%Q) by (field; lra).
  assert (Eu : ((1 # 2) * 2 ^ (e - 52) == 2 ^ e * (1 # 2 ^ 53))%Q).
  { replace (e - 52)%Z with (e + - 52)%Z by lia. rewrite pow2_add.
    assert (E52 : (2 ^ (- 52) == 1 # 2 ^ 52)%Q) by reflexivity.
    rewrite E52. assert (E : ((1 # 2) * (1 # 2 ^ 52) == 1 # 2 ^ 53)%Q)
      by reflexivity.
    rewrite <- E. ring. }
  assert (Hu : (2 ^ e * (1 # 2 ^ 53) <= x * (1 # 2 ^ 53))%Q).
  { apply Qmult_le_compat_r; [exact Hlow|discriminate]. }
  lra.
Qed.

(** X16. The minimum accepted by a buy and the quote.  With a slippage
    setting between 0 and 100 and a non-negative quote, the minimum
    that [calculate_min_tokens] returns is not negative; it is at most
    the quote when the slippage setting is at least 1, and also when
    the quote is at most 90071992547409 units (the quote times 100 is
    then exact in a float).  The product and the division are float
    operations, so with a slippage of 0 the minimum can exceed a
    larger quote: for a quote of 9007199254740995 units it is
    9007199254740996. *)
Theorem X16_min_tokens_and_the_quote
    (cfg : Config.t) (bnb_amount : Q) (w : Buy.AttemptWorld)
    (amount_out min_tokens : Z) :
  (0 <= Config.SLIPPAGE cfg)%Q -> (Config.SLIPPAGE cfg <= 100)%Q ->
  Buy.w_getAmountsOut w = Ok amount_out -> (0 <= amount_out)%Z ->
  Buy.calculate_min_tokens cfg bnb_amount w = Some min_tokens ->
  (0 <= min_tokens)%Z /\
  ((1 <= Config.SLIPPAGE cfg)%Q -> (min_tokens <= amount_out)%Z) /\
  ((amount_out <= 90071992547409)%Z -> (min_tokens <= amount_out)%Z) /\
  Buy.calculate_min_tokens Cases.no_slippage 0.05
    (Cases.quoted 9007199254740995)
  = Some 9007199254740996%Z.
Proof.
  intros Hs0 Hs1 Hq Ha Hmin. unfold Buy.calculate_min_tokens in Hmin.
  rewrite Hq in Hmin.
  destruct (Sell.to_wei_ether bnb_amount) as [wei|e]; [|discriminate Hmin].
  injection Hmin as <-.
  set (a := inject_Z amount_out).
  set (F := Py.fsub 100 (Config.SLIPPAGE cfg)).
  set (A := Py.float a).
  set (P := Py.fmul A F).
  set (R := Py.fdiv P 100).
  assert (Ha' : (0 <= a)%Q)
    by (unfold a; change 0%Q with (inject_Z 0); rewrite <- Zle_Qle; exact Ha).
  assert (HF0 : (0 <= F)%Q) by (apply float_nonneg; lra).
  assert (HA0 : (0 <= A)%Q) by (apply float_nonneg, Ha').
  assert (HP0 : (0 <= P)%Q)
    by (apply float_nonneg, Qmult_le_0_compat; assumption).
  assert (HR0 : (0 <= R)%Q).
  { apply float_nonneg. unfold Qdiv. apply Qmult_le_0_compat; [exact HP0|].
    discriminate. }
  assert (Hint : forall b : Z, (R <= inject_Z b)%Q -> (Py.int R <= b)%Z).
  { intros b Hb. unfold Py.int. apply Qle_bool_iff in HR0 as Hb0.
    rewrite Hb0. rewrite <- (Qfloor_Z b). apply Qfloor_resp_le, Hb. }
  split; [|split; [|split]].
  - unfold Py.int. apply Qle_bool_iff in HR0 as Hb0. rewrite Hb0.
    change 0%Z with (Qfloor (inject_Z 0)). apply Qfloor_resp_le, HR0.
  - intros Hs. apply Hint. fold a.
    assert (HF : (F <= 99)%Q).
    { assert (E99 : (Py.float 99 == 99)%Q) by reflexivity.
      rewrite <- E99. apply float_le. lra. }
    destruct (Z.eq_dec amount_out 0%Z) as [->|Hnz].
    { assert (E : (R == 0)%Q) by reflexivity. rewrite E. exact Ha'. }
    assert (Ha1 : (1 <= a)%Q).
    { unfold a. change 1%Q with (inject_Z 1). rewrite <- Zle_Qle. lia. }
    destruct (Qlt_le_dec 100 P) as [Hbig|Hsmall].
    + assert (HAF : (1 <= A * F)%Q).
      { apply Qnot_lt_le. intros C.
        assert (P <= Py.float 1)%Q by (apply float_le; lra).
        assert (E1 : (Py.float 1 == 1)%Q) by reflexivity. lra. }
      pose proof (float_near a Ha1) as HA. fold A in HA.
      pose proof (float_near (A * F) HAF) as HP. fold (Py.fmul A F) in HP.
      fold P in HP.
      assert (HP1 : (1 <= P / 100)%Q).
      { apply Qdiv_ge_iff; [reflexivity|]. lra. }
      pose proof (float_near (P / 100) HP1) as HR. fold (Py.fdiv P 100) in HR.
      fold R in HR.
      assert (HAF99 : (A * F <= A * 99)%Q).
      { rewrite !(Qmult_comm A). apply Qmult_le_compat_r; assumption. }
      unfold Qdiv in HR. change (/ 100)%Q with (1 # 100)%Q in HR.
      set (K := (1 + (1 # 2 ^ 53))%Q) in *.
      assert (HK : (K * (K * (K * 99)) * (1 # 100) <= 1)%Q)
        by (vm_compute; discriminate).
      assert (H1 : (P <= a * (K * (K * 99)))%Q).
      { eapply Qle_trans; [exact HP|].
        assert (A * F * K <= a * K * 99 * K)%Q; [|lra].
        apply Qmult_le_compat_r; [|vm_compute; discriminate].
        eapply Qle_trans; [exact HAF99|].
        apply Qmult_le_compat_r; [exact HA|discriminate]. }
      assert (H2 : (R <= a * (K * (K * (K * 99)) * (1 # 100)))%Q).
      { eapply Qle_trans; [exact HR|].
        assert (P * (1 # 100) * K <= a * (K * (K * 99)) * (1 # 100) * K)%Q;
          [|lra].
        apply Qmult_le_compat_r; [|vm_compute; discriminate].
        apply Qmult_le_compat_r; [exact H1|discriminate]. }
      eapply Qle_trans; [exact H2|].
      rewrite <- (Qmult_1_r a) at 2.
      rewrite !(Qmult_comm a). apply Qmult_le_compat_r; assumption.
    + assert (R <= Py.float 1)%Q.
      { apply float_le. apply Qdiv_le_iff; [reflexivity|]. lra. }
      assert (E1 : (Py.float 1 == 1)%Q) by reflexivity. lra.
  - intros Hsmall. apply Hint. fold a.
    assert (HF : (F <= 100)%Q).
    { assert (E100 : (Py.float 100 == 100)%Q) by reflexivity.
      rewrite <- E100. apply float_le. lra. }
    assert (EA : (A == a)%Q) by (apply float_Z; lia).
    assert (HP : (P <= a * 100)%Q).
    { assert (E : (Py.float (a * 100) == a * 100)%Q).
      { unfold a. change 100%Q with (inject_Z 100).
        rewrite <- inject_Z_mult. apply float_Z. lia. }
      rewrite <- E. apply float_le. rewrite EA.
      rewrite !(Qmult_comm a). apply Qmult_le_compat_r; assumption. }
    assert (E : (Py.float a == a)%Q) by (apply float_Z; lia).
    rewrite <- E. apply float_le.
    apply Qdiv_le_iff; [reflexivity|]. exact HP.
  - vm_compute. reflexivity.
Qed.

Lemma X16_min_tokens_and_the_quote_witness :
  exists min_tokens,
    Buy.calculate_min_tokens Config.default 0.1
      (Scenario.buying (Raise Scenario.timed_out)) = Some min_tokens /\
    (0 <= min_tokens)%Z /\ (min_tokens <= 10 ^ 21)%Z.
Proof.
  exists (9 * 10 ^ 20)%Z. split; [vm_compute; reflexivity|].
  destruct (X16_min_tokens_and_the_quote Config.default 0.1
              (Scenario.buying (Raise Scenario.timed_out)) (10 ^ 21)
              (9 * 10 ^ 20)) as (H0 & H1 & _).
  - vm_compute. discriminate.
  - vm_compute. discriminate.
  - reflexivity.
  - vm_compute. discriminate.
  - vm_compute. reflexivity.
  - split; [exact H0|]. apply H1. vm_compute. discriminate.
Defined.

Lemma zero_balance (token_decimals : N) :
  Qeq_bool (inject_Z 0 / Py.pow10 token_decimals) 0 = true.
Proof. apply Qeq_bool_iff. unfold Qdiv. rewrite Qmult_0_l. reflexivity. Qed.

Section BuyExtras.

Variable cfg : Config.t.
Variable token_address : string.
Variable bnb_amount : Q.
Variable is_test : bool.
Variable max_retries : nat.

(** What one iteration of [execute_buy] writes. *)
Lemma try_block_store (w : Buy.AttemptWorld) (d : DB) :
  match Buy.try_block cfg token_address bnb_amount is_test w d with
  | Buy.Caught _ d' =>
      (sell_queue d' = sell_queue d /\
       failed_transactions d' = failed_transactions d) /\
      Safety.buy_footprint cfg token_address bnb_amount is_test
        Buy.NoResult d d' /\
      (transactions d' = transactions d \/
       is_test = false /\
       exists token_symbol tx_hash token_balance,
         (token_balance == 0)%Q /\
         transactions d'
         = (transactions d
            ++ [Safety.bought_row token_address token_symbol is_test tx_hash
                  token_balance bnb_amount])%list)
  | Buy.Return o d' =>
      (sell_queue d' = sell_queue d /\
       failed_transactions d' = failed_transactions d) /\
      Safety.buy_footprint cfg token_address bnb_amount is_test o d d' /\
      match o with
      | Buy.Success tx_hash token_balance _ =>
          exists token_symbol,
            transactions d'
            = (transactions d
               ++ [Safety.bought_row token_address token_symbol is_test
                     tx_hash token_balance bnb_amount])%list
      | _ => transactions d' = transactions d
      end
  end.
Proof.
  unfold Buy.try_block.
  destruct is_test eqn:Htest; cbn [negb].
  all: repeat match goal with
  | |- context [match ?x with _ => _ end] =>
      lazymatch x with
      | context [match _ with _ => _ end] => fail
      | _ => destruct x eqn:?
      end
  end.
  all: (split; [split; reflexivity|]).
  all: unfold Safety.buy_footprint.
  all: try (split; [repeat split; reflexivity|]).
  all: try reflexivity.
  all: try (left; reflexivity).
  all: try (eexists; reflexivity).
  - right. split; [reflexivity|].
    eexists _, _, _. split; [|reflexivity].
    apply Qeq_bool_iff. assumption.
  - split; [|eexists; reflexivity].
    split; [reflexivity|]. split; [reflexivity|].
    split; [apply Qeq_bool_false; assumption|].
    split; [reflexivity|]. eexists. reflexivity.
  - split; [|reflexivity]. split; [reflexivity|]. split; [reflexivity|].
    eexists. reflexivity.
Qed.

Lemma buy_attempts_store (world : nat -> Buy.AttemptWorld) (fuel : nat) :
  forall (attempt : nat) (d : DB),
  match Buy.attempts cfg token_address bnb_amount is_test world attempt
          fuel d with
  | (o, d') =>
      (sell_queue d' = sell_queue d /\
       failed_transactions d' = failed_transactions d) /\
      Safety.buy_footprint cfg token_address bnb_amount is_test
        (match o with Some o => o | None => Buy.NoResult end) d d' /\
      exists rows,
        transactions d' = (transactions d ++ rows)%list /\
        (length rows <= fuel)%nat /\
        Forall (Safety.buy_row token_address bnb_amount is_test) rows /\
        match o with
        | Some (Buy.Success tx_hash token_balance _) =>
            exists before token_symbol,
              rows = (before
                      ++ [Safety.bought_row token_address token_symbol is_test
                            tx_hash token_balance bnb_amount])%list
        | _ => is_test = true -> rows = []
        end
  end.
Proof.
  induction fuel as [|fuel IH]; intros attempt d; cbn [Buy.attempts].
  - split; [split; reflexivity|]. split; [repeat split; reflexivity|].
    exists []. rewrite app_nil_r. repeat split; auto.
  - pose proof (try_block_store (world attempt) d) as Hstep.
    destruct (Buy.try_block cfg token_address bnb_amount is_test
                (world attempt) d) as [e d1|o d1].
    + destruct Hstep as ((Hq & Hf) & (Hb & Hp & Hn) & Hrow).
      specialize (IH (S attempt) d1).
      destruct (Buy.attempts cfg token_address bnb_amount is_test world
                  (S attempt) fuel d1) as [o d2].
      destruct IH as ((Hq2 & Hf2) & Hfoot & (rows & Ht & Hlen & Hall & Hlast)).
      split; [split; congruence|]. split.
      * unfold Safety.buy_footprint in *.
        destruct o as [[| |]|]; rewrite <- ?Hb, <- ?Hp, <- ?Hn; exact Hfoot.
      * destruct Hrow as [Hsame|(Htest & sym & h & bal & _ & Hadd)].
        -- exists rows. rewrite Ht, Hsame. split; [reflexivity|].
           split; [lia|]. split; [exact Hall|exact Hlast].
        -- eexists (_ :: rows). rewrite Ht, Hadd, <- app_assoc.
           split; [reflexivity|]. split; [cbn [length]; lia|].
           split; [constructor; [exists sym, h, bal; reflexivity|exact Hall]|].
           destruct o as [[| |]|]; try (intros Hc; congruence).
           destruct Hlast as (before & sym' & ->).
           eexists (_ :: before), sym'. reflexivity.
    + destruct Hstep as (Hqf & Hfoot & Hrow).
      split; [exact Hqf|]. split; [exact Hfoot|].
      destruct o as [| |].
      * exists []. rewrite app_nil_r. repeat split; auto. cbn; lia.
      * destruct Hrow as (sym & Hadd). eexists [_].
        split; [exact Hadd|]. split; [cbn [length]; lia|].
        split; [constructor; [eexists _, _, _; reflexivity|constructor]|].
        exists [], sym. reflexivity.
      * exists []. rewrite app_nil_r. repeat split; auto. cbn; lia.
Qed.


(** X18. The ledger of a buy.  [execute_buy] only appends to the
    transactions: at most one row per attempt, each of type "buy" (or
    "test_buy" for a test), for the token and the amount of BNB of the
    call, with no profit figure.  When the call returns success the
    last row carries the hash and the balance it reports; a test buy
    that does not return success writes no row at all. *)
Theorem X18_execute_buy_ledger
    (world : nat -> Buy.AttemptWorld) (d : DB) :
  let r := Buy.execute_buy cfg token_address bnb_amount is_test max_retries
             world d in
  exists rows,
    transactions (snd r) = (transactions d ++ rows)%list /\
    (length rows <= max_retries)%nat /\
    Forall (Safety.buy_row token_address bnb_amount is_test) rows /\
    match fst r with
    | Buy.Success tx_hash token_balance _ =>
        exists before token_symbol,
          rows = (before
                  ++ [Safety.bought_row token_address token_symbol is_test
                        tx_hash token_balance bnb_amount])%list
    | _ => is_test = true -> rows = []
    end.
Proof.
  cbv zeta. unfold Buy.execute_buy.
  pose proof (buy_attempts_store world max_retries 0%nat d) as H.
  destruct (Buy.attempts cfg token_address bnb_amount is_test world 0
              max_retries d) as [[o|] d'];
    destruct H as (_ & _ & H); cbn [fst snd]; exact H.
Qed.

End BuyExtras.

Lemma bought_nothing_step (cfg : Config.t) (token_address : string)
    (bnb_amount : Q) (w : Buy.AttemptWorld) (d : DB) :
  Safety.bought_nothing cfg bnb_amount w ->
  exists e row,
    Buy.try_block cfg token_address bnb_amount false w d
    = Buy.Caught e
        (record_transaction token_address (tr_token_symbol row) "buy"
           (tr_amount_tokens row) bnb_amount (tr_transaction_hash row) None d).
Proof.
  intros ([u Hi] & Hc & (sym & Hs) & (dcm & Hd) & (m & Hm & Hm0) & (g & Hg)
          & (n & Hn) & (rc & Hb & Hst) & Hbal).
  unfold Buy.try_block. rewrite Hi, Hc, Hs, Hd, Hm. cbn [negb].
  apply Z.eqb_neq in Hm0. rewrite Hm0.
  assert (Hwei : exists wei, Sell.to_wei_ether bnb_amount = Ok wei).
  { unfold Buy.calculate_min_tokens in Hm.
    destruct (Sell.to_wei_ether bnb_amount);
      [eexists; reflexivity|discriminate Hm]. }
  destruct Hwei as [wei ->]. rewrite Hg, Hn, Hb, Hst, Hbal.
  cbn [Z.eqb Pos.eqb negb]. rewrite zero_balance.
  exists ProfitManagement.ZeroDivisionError,
         {| tr_token_address := token_address; tr_token_symbol := sym;
            tr_transaction_type := "buy";
            tr_amount_tokens := inject_Z 0 / Py.pow10 dcm;
            tr_amount_bnb := bnb_amount;
            tr_transaction_hash := Buy.rc_tx_hash rc;
            tr_profit_loss_bnb := None |}.
  reflexivity.
Qed.

(** X19. A confirmed buy that leaves no balance is bought again.  On a
    chain where, in every attempt, the buy is confirmed with status 1
    and the balance read afterwards is zero, a regular [execute_buy]
    sends the buy in each of its [max_retries] attempts -- the price
    computation divides by the zero balance after the transaction was
    recorded, and the exception only leads to the next attempt -- and
    then returns no result: [max_retries] buys are recorded, no
    position is opened and the token is not blacklisted. *)
Theorem X19_buy_without_balance_is_repeated
    (cfg : Config.t) (token_address : string) (bnb_amount : Q)
    (max_retries : nat) (world : nat -> Buy.AttemptWorld) (d : DB) :
  (forall k, (k < max_retries)%nat ->
     Safety.bought_nothing cfg bnb_amount (world k)) ->
  let r := Buy.execute_buy cfg token_address bnb_amount false max_retries
             world d in
  fst r = Buy.NoResult /\
  length (transactions (snd r)) = (length (transactions d) + max_retries)%nat /\
  portfolio (snd r) = portfolio d /\
  blacklisted_tokens (snd r) = blacklisted_tokens d.
Proof.
  intros Hall. cbv zeta. unfold Buy.execute_buy.
  assert (Hloop : forall fuel attempt d0,
            (forall k, (attempt <= k < attempt + fuel)%nat ->
               Safety.bought_nothing cfg bnb_amount (world k)) ->
            exists d1,
              Buy.attempts cfg token_address bnb_amount false world attempt
                fuel d0 = (None, d1) /\
              length (transactions d1) = (length (transactions d0) + fuel)%nat /\
              portfolio d1 = portfolio d0 /\
              blacklisted_tokens d1 = blacklisted_tokens d0).
  { induction fuel as [|fuel IH]; intros attempt d0 Hw; cbn [Buy.attempts].
    - exists d0. rewrite Nat.add_0_r. repeat split; reflexivity.
    - destruct (bought_nothing_step cfg token_address bnb_amount
                  (world attempt) d0 (Hw attempt ltac:(lia))) as (e & row & ->).
      destruct (IH (S attempt)
                  (record_transaction token_address (tr_token_symbol row) "buy"
                     (tr_amount_tokens row) bnb_amount
                     (tr_transaction_hash row) None d0))
        as (d1 & -> & Hlen & Hp & Hb); [intros k Hk; apply Hw; lia|].
      exists d1. split; [reflexivity|].
      rewrite Hlen, Hp, Hb.
      cbn [record_transaction transactions portfolio blacklisted_tokens].
      rewrite length_app. cbn [length]. repeat split; lia. }
  destruct (Hloop max_retries 0%nat d) as (d1 & -> & Hlen & Hp & Hb);
    [intros k Hk; apply Hall; lia|].
  cbn [fst snd]. auto.
Qed.

Lemma X19_buy_without_balance_is_repeated_witness :
  length (transactions
            (snd (Buy.execute_buy Config.default Scenario.TOKEN 0.1 false 3
                    (fun _ => Cases.bought_but_empty) Database.empty)))
  = 3%nat.
Proof.
  apply (X19_buy_without_balance_is_repeated Config.default Scenario.TOKEN
           0.1 3 (fun _ => Cases.bought_but_empty) Database.empty).
  intros k _. unfold Safety.bought_nothing.
  split; [exists tt; reflexivity|].
  split; [reflexivity|].
  split; [exists "TKN"; reflexivity|].
  split; [exists 18%N; reflexivity|].
  split; [exists (9 * 10 ^ 20)%Z; split;
            [vm_compute; reflexivity|vm_compute; discriminate]|].
  split; [exists 5000000000%Z; reflexivity|].
  split; [exists 7%Z; reflexivity|].
  split; [exists {| Buy.rc_status := 1; Buy.rc_tx_hash := "0xb0b" |};
            split; reflexivity|].
  reflexivity.
Defined.

(** ** security/token_checks.py and tokendata/analysis.py *)

Lemma prefix_all_chars (P : ascii -> bool) (p s : string) :
  String.prefix p s = true -> Safety.all_chars P s = true ->
  Safety.all_chars P p = true.
Proof.
  revert s. induction p as [|c p IH]; intros s Hp Hs; [reflexivity|].
  destruct s as [|c' s]; [discriminate Hp|]. cbn in Hp.
  destruct (Ascii.ascii_dec c c') as [E|E]; [subst c'|discriminate Hp].
  cbn [Safety.all_chars] in *. apply andb_true_iff in Hs as [Hc Hs].
  rewrite Hc, (IH s Hp Hs). reflexivity.
Qed.

Lemma contains_all_chars (P : ascii -> bool) (p s : string) :
  Py.contains p s = true -> Safety.all_chars P s = true ->
  Safety.all_chars P p = true.
Proof.
  induction s as [|c s IH]; cbn [Py.contains]; intros Hc Hs.
  - rewrite orb_false_r in Hc. exact (prefix_all_chars P p EmptyString Hc Hs).
  - apply orb_true_iff in Hc as [Hc|Hc].
    + exact (prefix_all_chars P p (String c s) Hc Hs).
    + cbn [Safety.all_chars] in Hs. apply andb_true_iff in Hs as [_ Hs].
      exact (IH Hc Hs).
Qed.

Lemma hex_has_no_pattern (pattern code : string) :
  Safety.hex_string pattern = false -> Safety.hex_string code = true ->
  Py.contains pattern code = false.
Proof.
  intros Hp Hc. destruct (Py.contains pattern code) eqn:E; [|reflexivity].
  unfold Safety.hex_string in *.
  rewrite (contains_all_chars _ _ _ E Hc) in Hp. discriminate Hp.
Qed.

Lemma assembly_loop_first_answer (cfg : Config.t) (w : Analysis.World)
    (fuel : nat) :
  forall attempt : nat,
  (exists k contract_code,
     (k < fuel)%nat /\
     Analysis.w_get_code w (attempt + k)%nat = Ok contract_code /\
     (forall j, (j < k)%nat ->
        exists e, Analysis.w_get_code w (attempt + j)%nat = Raise e) /\
     Analysis.assembly_loop w attempt fuel
     = Py.contains "assembly" (Py.lower contract_code)
       || existsb (fun pattern => Py.contains pattern (Py.lower contract_code))
                  Analysis.suspicious_patterns) \/
  ((forall j, (j < fuel)%nat ->
      exists e, Analysis.w_get_code w (attempt + j)%nat = Raise e) /\
   Analysis.assembly_loop w attempt fuel = true).
Proof.
  induction fuel as [|fuel IH]; intros attempt; cbn [Analysis.assembly_loop].
  - right. split; [intros j Hj; lia|reflexivity].
  - destruct (Analysis.w_get_code w attempt) as [code|e] eqn:Hq.
    + left. exists 0%nat, code. rewrite Nat.add_0_r.
      split; [lia|]. split; [exact Hq|]. split; [intros j Hj; lia|reflexivity].
    + destruct (IH (S attempt)) as [(k & code & Hk & Hok & Hbefore & Hres)
                                   |[Hall Hres]].
      * left. exists (S k), code. split; [lia|].
        replace (attempt + S k)%nat with (S attempt + k)%nat by lia.
        split; [exact Hok|]. split; [|exact Hres].
        intros [|j] Hj.
        -- rewrite Nat.add_0_r. exists e. exact Hq.
        -- replace (attempt + S j)%nat with (S attempt + j)%nat by lia.
           apply Hbefore. lia.
      * right. split; [|exact Hres]. intros [|j] Hj.
        -- rewrite Nat.add_0_r. exists e. exact Hq.
        -- replace (attempt + S j)%nat with (S attempt + j)%nat by lia.
           apply Hall. lia.
Qed.

(** X20. The bytecode check.  With the check enabled,
    [detect_suspicious_assembly] decides on the first bytecode it
    manages to read: it flags the token when the lowered text contains
    "assembly" or one of the six listed patterns.  When every read
    raises it flags the token.  The patterns are searched in the
    hexadecimal rendering of the bytecode, and each of them contains a
    letter that is not a hexadecimal digit: for a bytecode made of
    hexadecimal digits (with or without the prefix 0x) the check never
    flags anything. *)
Theorem X20_bytecode_check
    (cfg : Config.t) (w : Analysis.World) (max_retries : nat) :
  Config.ASSEMBLY_CHECK_ENABLED cfg = true ->
  (exists k contract_code,
     (k < max_retries)%nat /\
     Analysis.w_get_code w k = Ok contract_code /\
     (forall j, (j < k)%nat -> exists e, Analysis.w_get_code w j = Raise e) /\
     Analysis.detect_suspicious_assembly cfg w max_retries
     = Py.contains "assembly" (Py.lower contract_code)
       || existsb (fun pattern => Py.contains pattern (Py.lower contract_code))
                  Analysis.suspicious_patterns /\
     (Safety.hex_string contract_code = true ->
      Analysis.detect_suspicious_assembly cfg w max_retries = false)) \/
  ((forall j, (j < max_retries)%nat ->
      exists e, Analysis.w_get_code w j = Raise e) /\
   Analysis.detect_suspicious_assembly cfg w max_retries = true).
Proof.
  intros Hen. unfold Analysis.detect_suspicious_assembly. rewrite Hen.
  cbn [negb].
  destruct (assembly_loop_first_answer cfg w max_retries 0%nat)
    as [(k & code & Hk & Hok & Hbefore & Hres)|[Hall Hres]].
  - left. exists k, code. cbn [Nat.add] in *.
    split; [exact Hk|]. split; [exact Hok|]. split; [exact Hbefore|].
    split; [exact Hres|].
    intros Hhex. rewrite Hres. apply lower_hex in Hhex.
    rewrite (hex_has_no_pattern "assembly" _ eq_refl Hhex).
    unfold Analysis.suspicious_patterns. cbn [existsb orb].
    rewrite !(fun p H => hex_has_no_pattern p _ H Hhex) by reflexivity.
    reflexivity.
  - right. split; [exact Hall|exact Hres].
Qed.

Lemma first_blacklisted_pattern_none (patterns : list string)
    (name_lower symbol_lower : string) :
  Analysis.first_blacklisted_pattern patterns name_lower symbol_lower = None ->
  Forall (fun pattern =>
            Py.contains pattern name_lower || Py.contains pattern symbol_lower
            = false) patterns.
Proof.
  induction patterns as [|q rest IH]; cbn [Analysis.first_blacklisted_pattern];
    intros H; [constructor|].
  destruct (Py.contains q name_lower || Py.contains q symbol_lower) eqn:Hq;
    [discriminate H|].
  constructor; [exact Hq|exact (IH H)].
Qed.

Lemma fetch_loop_footprint (w : Analysis.World) (fuel : nat) :
  forall (address : string) (attempt : nat) (d : DB),
  match Analysis.fetch_loop w address attempt fuel d with
  | (Some token_data, d1, _) =>
      d1 = d /\
      is_token_blacklisted (Analysis.td_address token_data) d = false /\
      Forall (fun pattern =>
                Safety.pattern_occurs pattern (Analysis.td_name token_data)
                  (Analysis.td_symbol token_data) = false)
             Config.BLACKLISTED_PATTERNS
  | (None, d1, _) => Safety.only_blacklisted d d1
  end.
Proof.
  induction fuel as [|fuel IH]; intros address attempt d;
    cbn [Analysis.fetch_loop]; [left; reflexivity|].
  destruct (Analysis.w_to_checksum_address w address) as [a|e] eqn:Hsum.
  - destruct (String.eqb a EmptyString); [left; reflexivity|].
    destruct (is_token_blacklisted a d) eqn:Hbl; [left; reflexivity|].
    destruct (negb (Analysis.w_token_contract w)); [left; reflexivity|].
    destruct (Analysis.w_metadata w attempt) as [md|e].
    + destruct (Analysis.first_blacklisted_pattern _ _ _) as [p|] eqn:Hp.
      * right. eexists _, _, _. reflexivity.
      * cbn [Analysis.td_address Analysis.td_name Analysis.td_symbol].
        split; [reflexivity|]. split; [exact Hbl|].
        exact (first_blacklisted_pattern_none _ _ _ Hp).
    + exact (IH a (S attempt) d).
  - exact (IH address (S attempt) d).
Qed.

Lemma pair_loop_some (w : Analysis.World) (fuel : nat) :
  forall (attempt : nat) (pair_address : string),
  Analysis.pair_loop w attempt fuel = Some pair_address ->
  pair_address <> Analysis.ZERO_ADDRESS /\
  exists k, Analysis.w_getPair w k = Ok pair_address.
Proof.
  induction fuel as [|fuel IH]; intros attempt pair_address;
    cbn [Analysis.pair_loop]; [intros H; discriminate H|].
  destruct (Analysis.w_getPair w attempt) as [p|e] eqn:Hq; [|apply IH].
  destruct (String.eqb p Analysis.ZERO_ADDRESS) eqn:Hz;
    intros H; [discriminate H|].
  injection H as <-. split; [apply String.eqb_neq, Hz|exists attempt; exact Hq].
Qed.

Lemma liquidity_loop_some (cfg : Config.t) (WBNB_ADDRESS : string)
    (w : Analysis.World) (fuel : nat) :
  forall (attempt : nat) (liquidity : Q) (log : list Analysis.LogLine),
  Analysis.liquidity_loop cfg WBNB_ADDRESS w attempt fuel
  = (Some liquidity, log) ->
  (Config.MIN_LIQUIDITY cfg <= liquidity)%Q /\
  exists k reserve0 reserve1 token0,
    Analysis.w_reserves w k = Ok (reserve0, reserve1, token0) /\
    liquidity
    = Sell.from_wei_ether
        (if String.eqb (Py.lower token0) (Py.lower WBNB_ADDRESS)
         then reserve0 else reserve1).
Proof.
  induction fuel as [|fuel IH]; intros attempt liquidity log;
    cbn [Analysis.liquidity_loop]; [intros H; discriminate H|].
  destruct (negb (Analysis.w_pair_contract w)); [intros H; discriminate H|].
  destruct (Analysis.w_reserves w attempt) as [[[r0 r1] t0]|e] eqn:Hq;
    [|apply IH].
  destruct (Qle_bool (Config.MIN_LIQUIDITY cfg) _) eqn:Hmin; cbn [negb];
    intros H; [|discriminate H].
  injection H as <- _. split; [apply Qle_bool_iff, Hmin|].
  exists attempt, r0, r1, t0. split; [exact Hq|reflexivity].
Qed.

Lemma add_to_blacklist_twice (a s1 r1 s2 r2 : string) (d : DB) :
  add_to_blacklist a s2 r2 (add_to_blacklist a s1 r1 d)
  = add_to_blacklist a s2 r2 d.
Proof.
  unfold add_to_blacklist. cbn [blacklisted_tokens portfolio portfolio_next_id
    transactions failed_transactions sell_queue].
  rewrite insert_insert_eq. reflexivity.
Qed.

Lemma only_blacklisted_grows (d d' : DB) (a : string) :
  Safety.only_blacklisted d d' ->
  is_token_blacklisted a d = true -> is_token_blacklisted a d' = true.
Proof.
  intros [->|(k & s & r & ->)] H; [exact H|].
  unfold is_token_blacklisted, add_to_blacklist in *.
  cbn [blacklisted_tokens].
  destruct (decide (k = a)) as [->|Hne].
  - rewrite lookup_insert_eq. reflexivity.
  - rewrite lookup_insert_ne by exact Hne. exact H.
Qed.

Lemma analyze_token_footprint (cfg : Config.t) (WBNB_ADDRESS : string)
    (w : Analysis.World) (token_address : string) (d : DB) :
  match Analysis.analyze_token cfg WBNB_ADDRESS w token_address d with
  | (Ok (Some result), d', _) =>
      d' = d /\
      is_token_blacklisted
        (Analysis.td_address (Analysis.ar_token_data result)) d = false /\
      Forall (fun pattern =>
                Safety.pattern_occurs pattern
                  (Analysis.td_name (Analysis.ar_token_data result))
                  (Analysis.td_symbol (Analysis.ar_token_data result)) = false)
             Config.BLACKLISTED_PATTERNS /\
      (Analysis.ar_pair_address result <> Analysis.ZERO_ADDRESS /\
       exists k, Analysis.w_getPair w k
                 = Ok (Analysis.ar_pair_address result)) /\
      ((Config.MIN_LIQUIDITY cfg <= Analysis.ar_liquidity_bnb result)%Q /\
       ~ (Analysis.ar_liquidity_bnb result == 0)%Q /\
       exists k reserve0 reserve1 token0,
         Analysis.w_reserves w k = Ok (reserve0, reserve1, token0) /\
         Analysis.ar_liquidity_bnb result
         = Sell.from_wei_ether
             (if String.eqb (Py.lower token0) (Py.lower WBNB_ADDRESS)
              then reserve0 else reserve1)) /\
      Analysis.detect_suspicious_assembly cfg w 3 = false /\
      Analysis.check_token_sell_history cfg w = true /\
      (Config.HONEYPOT_CHECK_ENABLED cfg = true ->
       Analysis.w_honeypot w = Analysis.ProbePassed)
  | (Ok None, d', _) => Safety.only_blacklisted d d'
  | (Raise _, d', _) => d' = d
  end.
Proof.
  unfold Analysis.analyze_token.
  destruct (Analysis.w_get_instance w) as [u|]; [|reflexivity].
  destruct (Analysis.w_to_checksum_address w token_address) as [address|];
    [|reflexivity].
  destruct (String.eqb address EmptyString); [left; reflexivity|].
  destruct (is_token_blacklisted address d); [left; reflexivity|].
  unfold Analysis.fetch_token_data.
  pose proof (fetch_loop_footprint w 3 address 0 d) as Hfetch.
  destruct (Analysis.fetch_loop w address 0 3 d) as [[[td|] d1] log];
    [|exact Hfetch].
  destruct Hfetch as (-> & Hbl & Hpat).
  unfold Analysis.get_pair_address.
  destruct (Analysis.pair_loop w 0 3) as [pair|] eqn:Hpair; [|left; reflexivity].
  destruct (String.eqb pair EmptyString); [left; reflexivity|].
  unfold Analysis.check_token_liquidity.
  destruct (Analysis.liquidity_loop cfg WBNB_ADDRESS w 0 3) as [[liq|] log']
    eqn:Hliq; [|left; reflexivity].
  destruct (Py.truthy liq) eqn:Htruthy; cbn [negb]; [|left; reflexivity].
  destruct (Analysis.detect_suspicious_assembly cfg w 3) eqn:Hasm;
    [right; eexists _, _, _; reflexivity|].
  destruct (Analysis.check_token_sell_history cfg w) eqn:Hhist; cbn [negb];
    [|right; eexists _, _, _; reflexivity].
  unfold Analysis.check_for_honeypot.
  destruct (Config.HONEYPOT_CHECK_ENABLED cfg) eqn:Hhp; cbn [negb].
  - destruct (Analysis.w_honeypot w) eqn:Hprobe.
    + cbn [Analysis.ar_token_data Analysis.ar_pair_address
           Analysis.ar_liquidity_bnb].
      split; [reflexivity|]. split; [exact Hbl|]. split; [exact Hpat|].
      split; [exact (pair_loop_some w 3 0 pair Hpair)|].
      split.
      { destruct (liquidity_loop_some cfg WBNB_ADDRESS w 3 0 liq log' Hliq)
          as [Hmin Hres].
        split; [exact Hmin|]. split; [|exact Hres].
        unfold Py.truthy in Htruthy. apply Qeq_bool_false.
        destruct (Qeq_bool liq 0); [discriminate Htruthy|reflexivity]. }
      split; [reflexivity|]. split; [reflexivity|]. intros _. reflexivity.
    + right. rewrite add_to_blacklist_twice. eexists _, _, _. reflexivity.
    + right. rewrite add_to_blacklist_twice. eexists _, _, _. reflexivity.
  - cbn [Analysis.ar_token_data Analysis.ar_pair_address
         Analysis.ar_liquidity_bnb].
    split; [reflexivity|]. split; [exact Hbl|]. split; [exact Hpat|].
    split; [exact (pair_loop_some w 3 0 pair Hpair)|].
    split.
    { destruct (liquidity_loop_some cfg WBNB_ADDRESS w 3 0 liq log' Hliq)
        as [Hmin Hres].
      split; [exact Hmin|]. split; [|exact Hres].
      unfold Py.truthy in Htruthy. apply Qeq_bool_false.
      destruct (Qeq_bool liq 0); [discriminate Htruthy|reflexivity]. }
    split; [reflexivity|]. split; [reflexivity|].
    intros Hc. discriminate Hc.
Qed.

(** X21. The screening only ever writes to the blacklist.  Whatever
    the chain answers, [analyze_token] leaves the store as it was or
    with one more (or one replaced) blacklist entry; it changes the
    store only when it rejects the token; and a token that was
    blacklisted before is blacklisted afterwards. *)
Theorem X21_analysis_only_blacklists
    (cfg : Config.t) (WBNB_ADDRESS : string) (w : Analysis.World)
    (token_address : string) (d : DB) :
  let run := Analysis.analyze_token cfg WBNB_ADDRESS w token_address d in
  let d' := snd (fst run) in
  Safety.only_blacklisted d d' /\
  (fst (fst run) <> Ok None -> d' = d) /\
  (forall a, is_token_blacklisted a d = true ->
             is_token_blacklisted a d' = true).
Proof.
  cbv zeta.
  pose proof (analyze_token_footprint cfg WBNB_ADDRESS w token_address d) as H.
  destruct (Analysis.analyze_token cfg WBNB_ADDRESS w token_address d)
    as [[[[r|]|e] d'] log]; cbn [fst snd].
  - destruct H as [-> _]. split; [left; reflexivity|]. split; auto.
  - split; [exact H|]. split; [intros Hc; congruence|].
    intros a. apply only_blacklisted_grows, H.
  - subst d'. split; [left; reflexivity|]. split; auto.
Qed.


Lemma X20_bytecode_check_witness :
  Analysis.detect_suspicious_assembly Config.default
    (Scenario.listing "Plain Token" "PLN" (10 ^ 20)) 3 = false.
Proof.
  destruct (X20_bytecode_check Config.default
              (Scenario.listing "Plain Token" "PLN" (10 ^ 20)) 3 eq_refl)
    as [(k & code & _ & Hcode & _ & _ & Hhex)|[Hall _]].
  - apply Hhex. injection Hcode as <-. reflexivity.
  - destruct (Hall 0%nat ltac:(lia)) as [e He]. discriminate He.
Defined.


(** ** tokendata/discovery.py *)




(** X24. A blacklisted token is never bought.  When the address the
    chain client normalises the token's address to is blacklisted,
    [handle_new_pair] returns [False] without calling [execute_buy] and
    leaves the store as it was, whatever else the chain answers. *)
Theorem X24_blacklisted_token_is_never_bought
    (cfg : Config.t) (WBNB_ADDRESS : string)
    (MAX_INVESTMENT_PER_TOKEN LIQUIDITY_SAFETY_MULTIPLIER : Q)
    (chain : Analysis.World) (buy_world : nat -> Buy.AttemptWorld)
    (token_address address : string) (d : DB) :
  Analysis.w_to_checksum_address chain token_address = Ok address ->
  is_token_blacklisted address d = true ->
  Discovery.handle_new_pair cfg WBNB_ADDRESS MAX_INVESTMENT_PER_TOKEN
    LIQUIDITY_SAFETY_MULTIPLIER chain buy_world token_address d
  = (false, d, None).
Proof.
  intros Hsum Hbl. unfold Discovery.handle_new_pair, Analysis.analyze_token.
  destruct (Analysis.w_get_instance chain); [|reflexivity].
  rewrite Hsum. destruct (String.eqb address EmptyString); [reflexivity|].
  rewrite Hbl. reflexivity.
Qed.

Lemma X24_blacklisted_token_is_never_bought_witness :
  Discovery.handle_new_pair Config.default Scenario.WBNB 0.1 10
    (Scenario.listing "Plain Token" "PLN" (10 ^ 20))
    (fun _ => Scenario.buying (Raise Scenario.timed_out)) Scenario.TOKEN
    (add_to_blacklist Scenario.TOKEN "PLN" "Honeypot detected" Database.empty)
  = (false,
     add_to_blacklist Scenario.TOKEN "PLN" "Honeypot detected" Database.empty,
     None).
Proof.
  apply (X24_blacklisted_token_is_never_bought Config.default Scenario.WBNB
           0.1 10 (Scenario.listing "Plain Token" "PLN" (10 ^ 20))
           (fun _ => Scenario.buying (Raise Scenario.timed_out))
           Scenario.TOKEN Scenario.TOKEN).
  - reflexivity.
  - reflexivity.
Defined.

(** ** portfolio/management.py *)

(** X25. The two copies of the exit rules.  With an investment that is
    not zero, the take-profit rule of the monitor answers as the one of
    [profit_management.py], and so does the stop-loss rule for a
    positive target.  With an investment of zero and a valuation, the
    rules of the monitor raise [ZeroDivisionError], where those of
    [profit_management.py] answer as for a profit and a loss of
    zero. *)
Theorem X25_monitor_rules_and_profit_rules
    (current_value : option Q) (investment_amount target value : Q) :
  (~ (investment_amount == 0)%Q ->
   Management.should_take_profit current_value investment_amount target
   = Ok (ProfitManagement.should_take_profit current_value investment_amount
           target)) /\
  (~ (investment_amount == 0)%Q -> (0 < target)%Q ->
   Management.should_stop_loss current_value investment_amount target
   = Ok (ProfitManagement.should_stop_loss current_value investment_amount
           target)) /\
  ((investment_amount == 0)%Q ->
   Management.should_take_profit (Some value) investment_amount target
   = Raise ProfitManagement.ZeroDivisionError /\
   Management.should_stop_loss (Some value) investment_amount target
   = Raise ProfitManagement.ZeroDivisionError /\
   ProfitManagement.should_take_profit (Some value) investment_amount target
   = Qle_bool target 0 /\
   ProfitManagement.should_stop_loss (Some value) investment_amount target
   = Qle_bool target 0).
Proof.
  unfold Management.should_take_profit, Management.should_stop_loss,
    ProfitManagement.should_take_profit, ProfitManagement.should_stop_loss,
    ProfitManagement.calculate_profit_percentage,
    ProfitManagement.calculate_loss_percentage, Py.max.
  split; [|split].
  - intros Hnz. apply Qeq_bool_false in Hnz.
    destruct current_value as [v|]; [|reflexivity].
    rewrite Hnz. reflexivity.
  - intros Hnz Hpos. apply Qeq_bool_false in Hnz.
    destruct current_value as [v|]; [|reflexivity].
    rewrite Hnz. cbv zeta. f_equal.
    destruct (Qle_bool _ 0) eqn:Hl; [|reflexivity].
    apply Qle_bool_iff in Hl.
    assert (H0 : Qle_bool target 0 = false) by (apply Qle_bool_false; lra).
    rewrite H0. apply Qle_bool_false. lra.
  - intros Hz. apply Qeq_bool_iff in Hz. rewrite Hz. repeat split.
Qed.

Lemma X25_monitor_rules_and_profit_rules_witness :
  Management.should_stop_loss (Some 0.75%Q) 1 10 = Ok true.
Proof.
  destruct (X25_monitor_rules_and_profit_rules (Some 0.75%Q) 1 10 0)
    as (_ & Hstop & _).
  rewrite Hstop; [reflexivity|vm_compute; discriminate|reflexivity].
Defined.

Lemma only_blacklisted_positions (d d' : DB) :
  Safety.only_blacklisted d d' ->
  portfolio d' = portfolio d /\ portfolio_next_id d' = portfolio_next_id d.
Proof. intros [->|(a & s & r & ->)]; split; reflexivity. Qed.

Section MonitorExtras.

Variable cfg : Config.t.
Variable MAX_HOLDING_TIME : Q.

(** X26. Holdings the monitor never sells.  When the investment
    recorded for the position is zero, or the address of its token (as
    the chain client normalises it) is blacklisted, or no quote can be
    obtained for it, the monitor makes no call of [execute_sell] for
    the position: nothing is sold, sent or approved, whichever targets
    are reached and however long the position has been held; the store
    differs from the one before by at most a blacklist entry. *)
Theorem X26_holdings_the_monitor_never_sells
    (ew : Management.EntryWorld) (id : Z) (entry : PositionEntry) (d : DB) :
  (pf_investment_amount_bnb entry == 0)%Q \/
  (exists address,
     Analysis.w_to_checksum_address (Management.ew_chain ew)
       (pf_token_address entry) = Ok address /\
     is_token_blacklisted address d = true) \/
  (forall wei j, exists e, Management.ew_quote ew wei j = Raise e) ->
  let r := Management.monitor_entry cfg MAX_HOLDING_TIME ew id entry d in
  snd r = [] /\ Safety.only_blacklisted d (fst r).
Proof.
  intros Hcase. cbv zeta. unfold Management.monitor_entry,
    Analysis.fetch_token_data.
  pose proof (fetch_loop_footprint (Management.ew_chain ew) 3
                (pf_token_address entry) 0 d) as Hfetch.
  destruct (Analysis.fetch_loop (Management.ew_chain ew)
              (pf_token_address entry) 0 3 d) as [[[td|] d1] log] eqn:Hrun;
    [|split; [reflexivity|exact Hfetch]].
  destruct Hfetch as (-> & _).
  destruct Hcase as [Hzero|[(address & Hsum & Hbl)|Hquote]].
  - destruct (Sell.estimate_bnb_output _ _ _ _) as [v|];
      [|split; [reflexivity|left; reflexivity]].
    unfold Management.should_take_profit.
    apply Qeq_bool_iff in Hzero. rewrite Hzero.
    split; [reflexivity|left; reflexivity].
  - exfalso. cbn [Analysis.fetch_loop] in Hrun. rewrite Hsum, Hbl in Hrun.
    destruct (String.eqb address EmptyString); discriminate Hrun.
  - pose proof (estimate_loop_first_answer
                  (Management.ew_quote ew
                     (Py.int (pf_amount_tokens entry
                              * Py.pow10 (Analysis.td_decimals td))))
                  3 0%nat) as Hest.
    unfold Sell.estimate_bnb_output.
    destruct (Sell.estimate_loop _ 0 3) as [v|];
      [|split; [reflexivity|left; reflexivity]].
    destruct Hest as (k & out & _ & Hok & _).
    destruct (Hquote (Py.int (pf_amount_tokens entry
                              * Py.pow10 (Analysis.td_decimals td)))
                     (0 + k)%nat) as [e He].
    rewrite He in Hok. discriminate Hok.
Qed.

(** X27. When the monitor sells.  For a position whose token data and
    valuation were obtained and whose recorded investment is not zero,
    the monitor calls [execute_sell] -- for the whole amount held, tied
    to the position, with three attempts -- exactly when the profit
    percentage has reached the take-profit target of the row, or the
    loss percentage its stop-loss target, or [datetime.now()] minus the
    purchase time of the row is at least
    [timedelta(hours=MAX_HOLDING_TIME)]; otherwise, and when that
    [timedelta] overflows, it does nothing.  The percentages are the
    ones the rules compute in floats: a position bought for 1 BNB is
    not sold at 1.2 BNB for a target of 20 (19.999999999999996%) nor at
    0.9 BNB for a stop-loss of 10 (9.999999999999998%). *)
Theorem X27_monitor_sells_on_its_rules
    (ew : Management.EntryWorld) (id : Z) (entry : PositionEntry) (d d1 : DB)
    (token_data : Analysis.TokenData) (log : list Analysis.LogLine)
    (value : Q) :
  Analysis.fetch_token_data (Management.ew_chain ew) (pf_token_address entry)
    3 d = (Some token_data, d1, log) ->
  Sell.estimate_bnb_output (Management.ew_quote ew) (pf_amount_tokens entry)
    (Analysis.td_decimals token_data) 3 = Some value ->
  ~ (pf_investment_amount_bnb entry == 0)%Q ->
  let invested := pf_investment_amount_bnb entry in
  let profit := Py.fmul (Py.fdiv (Py.fsub value invested) invested) 100 in
  let loss := Py.fmul (Py.fdiv (Py.fsub invested value) invested) 100 in
  let due :=
    (pf_take_profit_target entry <= profit)%Q \/
    (pf_stop_loss_target entry <= loss)%Q \/
    (exists microseconds,
       Py.timedelta_hours MAX_HOLDING_TIME = Some microseconds /\
       (inject_Z microseconds / 1000000
        <= Management.ew_now ew - Management.ew_purchase_time ew)%Q) in
  let sell :=
    Sell.execute_sell cfg (pf_token_address entry) (pf_token_symbol entry)
      (Analysis.td_decimals token_data) (Some id) false 3
      (Management.ew_sell ew) (Management.ew_clock ew)
      (Some (pf_amount_tokens entry)) d in
  (due ->
   Management.monitor_entry cfg MAX_HOLDING_TIME ew id entry d
   = (Sell.db (snd sell), Sell.calls (snd sell))) /\
  (~ due ->
   Management.monitor_entry cfg MAX_HOLDING_TIME ew id entry d = (d, [])) /\
  snd (Management.monitor_entry Config.default 24
         (Cases.holding 1200000000000000000) 1 Cases.position
         Scenario.one_position) = [] /\
  snd (Management.monitor_entry Config.default 24
         (Cases.holding 900000000000000000) 1 Cases.position
         Scenario.one_position) = [].
Proof.
  intros Hfetch Hest Hnz invested profit loss due sell.
  split; [|split; [|split; vm_compute; reflexivity]].
  all: destruct (fetch_loop_some _ _ _ _ _ _ _ _ Hfetch) as [-> _].
  all: unfold Management.monitor_entry; rewrite Hfetch, Hest.
  all: unfold Management.should_take_profit, Management.should_stop_loss,
         Management.should_sell_by_time, Management.sell_entry.
  all: apply Qeq_bool_false in Hnz; rewrite Hnz; cbv zeta.
  all: fold invested; fold profit; fold loss; fold sell.
  all: destruct (Qle_bool (pf_take_profit_target entry) profit) eqn:E1.
  1, 3: try (intros _; reflexivity).
  1: intros Hn; exfalso; apply Hn; left; apply Qle_bool_iff, E1.
  all: apply Qle_bool_false in E1.
  all: destruct (Qle_bool (pf_stop_loss_target entry) loss) eqn:E2.
  1, 3: try (intros _; reflexivity).
  1: intros Hn; exfalso; apply Hn; right; left; apply Qle_bool_iff, E2.
  all: apply Qle_bool_false in E2.
  all: destruct (Py.timedelta_hours MAX_HOLDING_TIME) as [us|] eqn:Et.
  all: try destruct (Qle_bool (inject_Z us / 1000000) _) eqn:E3.
  - intros _. reflexivity.
  - apply Qle_bool_false in E3.
    intros [H|[H|(us' & Hus & H)]]; exfalso; [lra|lra|].
    injection Hus as <-. lra.
  - intros [H|[H|(us' & Hus & H)]]; exfalso; [lra|lra|discriminate Hus].
  - intros Hn. exfalso. apply Hn. right. right. exists us.
    split; [reflexivity|]. apply Qle_bool_iff, E3.
  - intros _. reflexivity.
  - intros _. reflexivity.
Qed.

(** One entry of the sweep: the store after it. *)
Lemma monitor_entry_store
    (ew : Management.EntryWorld) (id : Z) (entry : PositionEntry) (d : DB) :
  let d' := fst (Management.monitor_entry cfg MAX_HOLDING_TIME ew id entry d) in
  portfolio_next_id d' = portfolio_next_id d /\
  (forall a, is_token_blacklisted a d = true ->
             is_token_blacklisted a d' = true) /\
  (portfolio d' = portfolio d \/
   portfolio d' = alter (set_status "sold") id (portfolio d)).
Proof.
  cbv zeta. unfold Management.monitor_entry, Analysis.fetch_token_data.
  pose proof (fetch_loop_footprint (Management.ew_chain ew) 3
                (pf_token_address entry) 0 d) as Hfetch.
  destruct (Analysis.fetch_loop (Management.ew_chain ew)
              (pf_token_address entry) 0 3 d) as [[[td|] d1] log].
  - destruct Hfetch as (-> & _).
    assert (Hsell : forall decimals,
              let d' := fst (Management.sell_entry cfg ew id entry decimals d) in
              portfolio_next_id d' = portfolio_next_id d /\
              (forall a, is_token_blacklisted a d = true ->
                         is_token_blacklisted a d' = true) /\
              (portfolio d' = portfolio d \/
               portfolio d' = alter (set_status "sold") id (portfolio d))).
    { intros decimals. cbv zeta. unfold Management.sell_entry. cbn [fst].
      pose proof (execute_sell_positions cfg (pf_token_address entry)
                    (pf_token_symbol entry) decimals (Some id) false 3
                    (Management.ew_sell ew) (Management.ew_clock ew)
                    (Some (pf_amount_tokens entry)) d) as H.
      cbv zeta in H. destruct H as (Hb & Hn & Hp).
      split; [exact Hn|]. split; [|exact Hp].
      intros a. unfold is_token_blacklisted. rewrite Hb. auto. }
    assert (Hskip : portfolio_next_id d = portfolio_next_id d /\
              (forall a, is_token_blacklisted a d = true ->
                         is_token_blacklisted a d = true) /\
              (portfolio d = portfolio d \/
               portfolio d = alter (set_status "sold") id (portfolio d)))
      by (split; [reflexivity|split; [auto|left; reflexivity]]).
    destruct (Sell.estimate_bnb_output _ _ _ _) as [v|]; [|exact Hskip].
    destruct (Management.should_take_profit _ _ _) as [[|]|];
      [apply Hsell| |exact Hskip].
    destruct (Management.should_stop_loss _ _ _) as [[|]|];
      [apply Hsell| |exact Hskip].
    destruct (Management.should_sell_by_time _ _ _) as [[|]|];
      [apply Hsell|exact Hskip|exact Hskip].
  - cbn [fst].
    destruct (only_blacklisted_positions d d1 Hfetch) as [Hp Hn].
    split; [exact Hn|]. split; [|left; exact Hp].
    intros a. apply only_blacklisted_grows, Hfetch.
Qed.

Lemma monitor_entries_store (world : Z -> Management.EntryWorld)
    (portfolio_entries : list (Z * PositionEntry)) :
  forall d : DB,
  let d' := Management.monitor_entries cfg MAX_HOLDING_TIME world
              portfolio_entries d in
  portfolio_next_id d' = portfolio_next_id d /\
  (forall a, is_token_blacklisted a d = true ->
             is_token_blacklisted a d' = true) /\
  (forall id,
     portfolio d' !! id = portfolio d !! id \/
     In id (List.map fst portfolio_entries) /\
     exists e, portfolio d !! id = Some e /\
               portfolio d' !! id = Some (set_status "sold" e)).
Proof.
  induction portfolio_entries as [|[id0 entry] rest IH]; intros d;
    cbn [Management.monitor_entries].
  - split; [reflexivity|]. split; [auto|]. intros id. left. reflexivity.
  - pose proof (monitor_entry_store (world id0) id0 entry d) as Hstep.
    cbv zeta in Hstep |- *.
    destruct Hstep as (Hn1 & Hb1 & Hp1).
    specialize (IH (fst (Management.monitor_entry cfg MAX_HOLDING_TIME
                           (world id0) id0 entry d))).
    cbv zeta in IH. destruct IH as (Hn2 & Hb2 & Hp2).
    split; [congruence|]. split; [auto|].
    intros id. cbn [List.map fst In].
    destruct (Hp2 id) as [Hsame|(Hin & e1 & He1 & Hsold)].
    + rewrite Hsame. destruct Hp1 as [-> | ->]; [left; reflexivity|].
      rewrite lookup_alter. case_decide as Hid; [|left; reflexivity].
      subst id0. destruct (portfolio d !! id) as [e|] eqn:E;
        [|left; reflexivity].
      right. split; [left; reflexivity|]. exists e. split; reflexivity.
    + destruct Hp1 as [Hp1|Hp1]; rewrite Hp1 in He1.
      * right. split; [right; exact Hin|]. exists e1. split; assumption.
      * rewrite lookup_alter in He1. case_decide as Hid.
        -- subst id0. destruct (portfolio d !! id) as [e|] eqn:E;
             [|discriminate He1].
           injection He1 as <-. right. split; [left; reflexivity|].
           exists e. split; [reflexivity|]. rewrite Hsold. reflexivity.
        -- right. split; [right; exact Hin|]. exists e1. split; assumption.
Qed.

(** X28. A sweep of the monitor only closes open positions.  Whatever
    the chain answers during [monitor_portfolio], every position of the
    store is afterwards as it was or, if it was active, the same row
    marked sold: no row is added, removed or otherwise changed, rows
    that were not active are untouched, and no id is handed out.  A
    token that was blacklisted stays blacklisted. *)
Theorem X28_sweep_only_closes_open_positions
    (world : Z -> Management.EntryWorld) (d : DB) :
  let d' := Management.monitor_portfolio cfg MAX_HOLDING_TIME world d in
  portfolio_next_id d' = portfolio_next_id d /\
  (forall id,
     portfolio d' !! id = portfolio d !! id \/
     exists e, portfolio d !! id = Some e /\ pf_status e = "active" /\
               portfolio d' !! id = Some (set_status "sold" e)) /\
  (forall a, is_token_blacklisted a d = true ->
             is_token_blacklisted a d' = true).
Proof.
  cbv zeta. unfold Management.monitor_portfolio.
  pose proof (monitor_entries_store world (get_active_portfolio d) d) as H.
  cbv zeta in H. destruct H as (Hn & Hb & Hp).
  split; [exact Hn|]. split; [|exact Hb].
  intros id. destruct (Hp id) as [Hsame|(Hin & e & He & Hsold)];
    [left; exact Hsame|].
  right. exists e. split; [exact He|]. split; [|exact Hsold].
  apply in_map_iff in Hin as ([id' e'] & Hid & Hin). cbn [fst] in Hid.
  subst id'. apply active_portfolio_spec in Hin as [He' Hact].
  rewrite He in He'. injection He' as <-. exact Hact.
Qed.

End MonitorExtras.

Lemma X26_holdings_the_monitor_never_sells_witness :
  snd (Management.monitor_entry Config.default 24
         (Cases.holding (2 * 10 ^ 18)) 1 Cases.unfunded Database.empty)
  = [].
Proof.
  apply (X26_holdings_the_monitor_never_sells Config.default 24
           (Cases.holding (2 * 10 ^ 18)) 1 Cases.unfunded Database.empty).
  left. reflexivity.
Defined.

Lemma X27_monitor_sells_on_its_rules_witness :
  Sell.submitted_amounts
    (snd (Management.monitor_entry Config.default 24
            (Cases.holding (2 * 10 ^ 18)) 1 Cases.position
            Scenario.one_position))
  = [(1000 * 10 ^ 18)%Z].
Proof.
  rewrite (proj1 (X27_monitor_sells_on_its_rules Config.default 24
                    (Cases.holding (2 * 10 ^ 18)) 1 Cases.position
                    Scenario.one_position Scenario.one_position
                    {| Analysis.td_name := "Plain Token";
                       Analysis.td_symbol := "PLN";
                       Analysis.td_decimals := 18;
                       Analysis.td_total_supply := 10 ^ 27;
                       Analysis.td_address := Scenario.TOKEN |}
                    [] (Py.float (Sell.from_wei_ether (2 * 10 ^ 18)))
                    ltac:(vm_compute; reflexivity)
                    ltac:(vm_compute; reflexivity)
                    ltac:(vm_compute; discriminate))).
  - vm_compute. reflexivity.
  - left. vm_compute. discriminate.
Defined.

(** ** portfolio/tracking.py *)

Lemma total_app (column : Tracking.ValuedEntry -> Q)
    (l1 l2 : list Tracking.ValuedEntry) :
  (Safety.total column (l1 ++ l2)
   == Safety.total column l1 + Safety.total column l2)%Q.
Proof.
  unfold Safety.total. induction l1 as [|x l1 IH]; cbn [app fold_right].
  - lra.
  - rewrite IH. lra.
Qed.





(** A store without profit figures has nothing to sum. *)
Lemma sells_with_profit_none (d : DB) :
  Safety.no_profit_recorded d -> Tracking.sells_with_profit d = [].
Proof.
  unfold Safety.no_profit_recorded, Tracking.sells_with_profit.
  induction 1 as [|row rows Hrow _ IH]; [reflexivity|].
  cbn [omap list_omap]. rewrite Hrow.
  destruct (String.eqb _ _); exact IH.
Qed.

Lemma execute_sell_keeps_no_profit
    (cfg : Config.t) (token_address token_symbol : string)
    (token_decimals : N) (portfolio_id : option Z) (is_test : bool)
    (max_retries : nat) (world : nat -> Sell.AttemptWorld) (now : nat -> Z)
    (amount : option Q) (d : DB) :
  Safety.no_profit_recorded d ->
  Safety.no_profit_recorded
    (Sell.db (snd (Sell.execute_sell cfg token_address token_symbol
                     token_decimals portfolio_id is_test max_retries world
                     now amount d))).
Proof.
  intros Hd. unfold Sell.execute_sell.
  match goal with
  | |- context [Sell.attempts _ _ _ _ _ _ _ world 0 max_retries ?s0] =>
      pose proof (sell_attempts_store cfg token_address token_symbol
                    token_decimals portfolio_id is_test max_retries world
                    max_retries 0%nat s0) as Hloop;
      destruct (Sell.attempts cfg token_address token_symbol token_decimals
                  portfolio_id is_test max_retries world 0 max_retries s0)
        as [[o|] s1]
  end; cbn [Sell.db] in Hloop; destruct Hloop as [(_ & _ & Hfoot) _].
  - cbn [snd]. unfold Safety.no_profit_recorded in *.
    destruct o; try (rewrite (proj1 Hfoot); exact Hd).
    rewrite (proj1 Hfoot). apply Forall_app. split; [exact Hd|].
    constructor; [reflexivity|constructor].
  - rewrite exhausted_fails. cbn [snd].
    unfold Safety.no_profit_recorded. rewrite (proj1 Hfoot). exact Hd.
Qed.

Lemma execute_buy_keeps_no_profit
    (cfg : Config.t) (token_address : string) (bnb_amount : Q)
    (is_test : bool) (max_retries : nat) (world : nat -> Buy.AttemptWorld)
    (d : DB) :
  Safety.no_profit_recorded d ->
  Safety.no_profit_recorded
    (snd (Buy.execute_buy cfg token_address bnb_amount is_test max_retries
            world d)).
Proof.
  intros Hd. unfold Buy.execute_buy.
  pose proof (buy_attempts_store cfg token_address bnb_amount is_test world
                max_retries 0%nat d) as H.
  assert (Hrows : forall d',
            (exists rows,
               transactions d' = (transactions d ++ rows)%list /\
               Forall (Safety.buy_row token_address bnb_amount is_test) rows) ->
            Safety.no_profit_recorded d').
  { intros d' (rows & Ht & Hall). unfold Safety.no_profit_recorded in *.
    rewrite Ht. apply Forall_app. split; [exact Hd|].
    eapply List.Forall_impl; [|exact Hall].
    intros row (sym & h & bal & ->). reflexivity. }
  destruct (Buy.attempts cfg token_address bnb_amount is_test world 0
              max_retries d) as [[o|] d'];
    destruct H as (_ & _ & rows & Ht & _ & Hall & _); cbn [snd];
    apply Hrows; exists rows; auto.
Qed.

(** X30. The profit total stays at zero.  No writer of the
    transactions passes a profit figure: in a store without profit
    figures [calculate_total_profits] returns 0, and the store is still
    without profit figures after any call of [execute_sell] and after
    any call of [execute_buy], whatever the chain answers -- so the
    total reported for a store written by these functions alone is 0,
    however the sells went. *)
Theorem X30_profit_total_stays_at_zero (d : DB) :
  Safety.no_profit_recorded d ->
  Tracking.calculate_total_profits d = 0%Q /\
  (forall cfg token_address token_symbol token_decimals portfolio_id is_test
          max_retries world now amount,
     let d' := Sell.db (snd (Sell.execute_sell cfg token_address token_symbol
                               token_decimals portfolio_id is_test
                               max_retries world now amount d)) in
     Safety.no_profit_recorded d' /\
     Tracking.calculate_total_profits d' = 0%Q) /\
  (forall cfg token_address bnb_amount is_test max_retries world,
     let d' := snd (Buy.execute_buy cfg token_address bnb_amount is_test
                      max_retries world d) in
     Safety.no_profit_recorded d' /\
     Tracking.calculate_total_profits d' = 0%Q).
Proof.
  intros Hd.
  assert (Hzero : forall d0, Safety.no_profit_recorded d0 ->
                             Tracking.calculate_total_profits d0 = 0%Q).
  { intros d0 H0. unfold Tracking.calculate_total_profits.
    rewrite (sells_with_profit_none d0 H0). reflexivity. }
  split; [exact (Hzero d Hd)|]. split.
  - intros. cbv zeta.
    pose proof (execute_sell_keeps_no_profit cfg token_address token_symbol
                  token_decimals portfolio_id is_test max_retries world now
                  amount d Hd) as H.
    split; [exact H|exact (Hzero _ H)].
  - intros. cbv zeta.
    pose proof (execute_buy_keeps_no_profit cfg token_address bnb_amount
                  is_test max_retries world d Hd) as H.
    split; [exact H|exact (Hzero _ H)].
Qed.

Lemma X30_profit_total_stays_at_zero_witness :
  Tracking.calculate_total_profits
    (Sell.db (snd (Sell.execute_sell Config.default Scenario.TOKEN "TKN" 18
                     (Some 1%Z) false 3
                     (fun _ => Scenario.selling (Ok Scenario.succeeded))
                     Scenario.clock (Some 1000%Q) Scenario.one_position)))
  = 0%Q.
Proof.
  refine (proj2 (proj1 (proj2 (X30_profit_total_stays_at_zero
                                 Scenario.one_position _))
                   Config.default Scenario.TOKEN "TKN" 18%N (Some 1%Z) false
                   3%nat (fun _ => Scenario.selling (Ok Scenario.succeeded))
                   Scenario.clock (Some 1000%Q))).
  vm_compute. constructor.
Defined.

